(** * Notion AI backend: extraction, prompt templating and the request pipeline

    A shallow embedding of the request pipeline of the Notion AI backend.
    Three revisions of the server are covered:

    - [Server]   : [server.js] (content from the request or from the Notion
                   page, five actions, unknown action rejected);
    - [Part000A] : the first file of [unnamed/part_000] (content from the
                   request or from a URL, input capped at 15000 characters,
                   fallback prompt for an unknown action);
    - [Part000B] : the second file of [unnamed/part_000]
                   ([extractTextFromBlocks], [fetchNotionPageContent] and the
                   three-action prompt switch).

    JavaScript strings are modelled by [string]; each character stands for one
    code unit below 256.  The remote services (Notion, Gemini, HTTP) are the
    fields of an environment record, and every call to one of them is logged
    in a trace, so that "the generator is never called" is a statement about
    the trace of a run. *)

From Stdlib Require Import String Ascii List Bool Arith Lia.
Import ListNotations.
#[local] Set Warnings "-abstract-large-number".
Local Open Scope list_scope.
Local Open Scope string_scope.

(* ===================================================================== *)
(** ** JavaScript strings and values *)
(* ===================================================================== *)

Module JS.

Definition nl : string := String (ascii_of_nat 10) EmptyString.
Definition dquote : string := String (ascii_of_nat 34) EmptyString.

(** White space removed by [String.prototype.trim], restricted to code units
    below 256: TAB, LF, VT, FF, CR, SPACE and NBSP. *)
Definition is_ws (c : ascii) : bool :=
  let n := nat_of_ascii c in
  (((9 <=? n) && (n <=? 13)) || (n =? 32) || (n =? 160))%nat.

Fixpoint trimStart (s : string) : string :=
  match s with
  | EmptyString => EmptyString
  | String c s' => if is_ws c then trimStart s' else s
  end.

(** [trimEnd] drops the trailing white space: a character is kept when it is
    not white space or when something is kept after it. *)
Fixpoint trimEnd (s : string) : string :=
  match s with
  | EmptyString => EmptyString
  | String c s' =>
      match trimEnd s' with
      | EmptyString => if is_ws c then EmptyString else String c EmptyString
      | r => String c r
      end
  end.

Definition trim (s : string) : string := trimEnd (trimStart s).

(** Truthiness of a string value, and of a value that may be [undefined] or
    [null] ([None]). *)
Definition truthy_str (s : string) : bool := negb (s =? "").

Definition truthy (v : option string) : bool :=
  match v with
  | None => false
  | Some s => truthy_str s
  end.

(** [v === s] for a value [v] that is a string, [undefined] or [null]. *)
Definition strict_eq (v : option string) (s : string) : bool :=
  match v with
  | None => false
  | Some x => x =? s
  end.

(** [s.startsWith(p)] *)
Definition startsWith (p s : string) : bool := prefix p s.

(** [s.substring(0, n)] *)
Definition substring0 (n : nat) (s : string) : string := substring 0 n s.

(** [hay.includes(needle)] *)
Fixpoint includes (needle hay : string) : bool :=
  prefix needle hay ||
  match hay with
  | EmptyString => false
  | String _ hay' => includes needle hay'
  end.

(** [s.replace(/_/g, ' ')] *)
Fixpoint replace_underscores (s : string) : string :=
  match s with
  | EmptyString => EmptyString
  | String c s' =>
      String (if (nat_of_ascii c =? 95)%nat then ascii_of_nat 32 else c)
             (replace_underscores s')
  end.

(** [arr.join('')] for an array of strings *)
Definition join (l : list string) : string := String.concat "" l.

(** An [Error] object: its constructor name and its message.  The messages
    of the errors thrown by the engine itself are those of V8. *)
Record error : Type := mkError { name : string; message : string }.

Definition Error (msg : string) : error := mkError "Error" msg.
Definition TypeError (msg : string) : error := mkError "TypeError" msg.
Definition ReferenceError (msg : string) : error := mkError "ReferenceError" msg.

(** *** encodeURIComponent, on code units below 256 *)

Definition hex_digit (n : nat) : ascii :=
  if (n <? 10)%nat then ascii_of_nat (48 + n) else ascii_of_nat (55 + n).

Definition percent (byte : nat) : string :=
  String "%" (String (hex_digit (byte / 16))
             (String (hex_digit (byte mod 16)) EmptyString)).

(** A-Z a-z 0-9 - _ . ! ~ * ' ( ) *)
Definition uri_unreserved (n : nat) : bool :=
  (((65 <=? n) && (n <=? 90)) || ((97 <=? n) && (n <=? 122)) ||
   ((48 <=? n) && (n <=? 57)) ||
   (n =? 45) || (n =? 95) || (n =? 46) || (n =? 33) || (n =? 126) ||
   (n =? 42) || (n =? 39) || (n =? 40) || (n =? 41))%nat.

Definition encode_unit (c : ascii) : string :=
  let n := nat_of_ascii c in
  if uri_unreserved n then String c EmptyString
  else if (n <? 128)%nat then percent n
  else percent (192 + n / 64) ++ percent (128 + n mod 64).

Fixpoint encodeURIComponent (s : string) : string :=
  match s with
  | EmptyString => EmptyString
  | String c s' => encode_unit c ++ encodeURIComponent s'
  end.

End JS.

(* ===================================================================== *)
(** ** Notion data, remote services and the effect monad *)
(* ===================================================================== *)

(** A rich-text item of a block; [plain_text] is [None] when the property is
    missing. *)
Record rich_text_item : Type := mkText { plain_text : option string }.

(** A block as returned by [blocks.children.list].  [rich_text] is the
    [rich_text] property of the object stored under the block's own type name
    ([block.paragraph.rich_text] for a paragraph); block types without text
    have none. *)
Record block : Type :=
  mkBlock { type : string; rich_text : option (list rich_text_item) }.

(** The response of one [blocks.children.list] call. *)
Record list_response : Type :=
  mkList { results : list block; next_cursor : option string }.

(** A block submitted to [blocks.children.append]. *)
Inductive new_block : Type :=
| ParagraphBlock (content : string) (bold : bool)
| CodeBlock (content : string) (language : string).

(** The response of [fetch]: [ok], [status] (as the text it is interpolated
    to) and the outcome of [text()]. *)
Record fetch_response : Type :=
  mkFetch { ok : bool; http_status : string; text : string + JS.error }.

(** The process environment and the remote services.  A service call returns
    its value ([inl]) or throws ([inr]). *)
Record env : Type :=
  mkEnv {
    NOTION_API_KEY : option string;
    GEMINI_API_KEY : option string;
    notion_list : string -> option string -> nat -> list_response + JS.error;
    notion_append : string -> list new_block -> unit + JS.error;
    generateContent : string -> string + JS.error;
    fetch : string -> fetch_response + JS.error
  }.

(** The calls made to the remote services, in the order they are made. *)
Inductive event : Type :=
| NotionList (block_id : string) (start_cursor : option string) (page_size : nat)
| NotionAppend (block_id : string) (children : list new_block)
| Generate (prompt : string)
| Fetch (url : string).

Definition trace : Type := list event.

(** The outcome of a computation: a value, a thrown error, or a loop that was
    still running when the fuel ran out. *)
Inductive outcome (A : Type) : Type :=
| Done (a : A)
| Throw (e : JS.error)
| OutOfFuel.

Arguments Done {A} a.
Arguments Throw {A} e.
Arguments OutOfFuel {A}.

Definition M (A : Type) : Type := trace -> outcome A * trace.

Definition ret {A} (a : A) : M A := fun tr => (Done a, tr).

Definition throw {A} (e : JS.error) : M A := fun tr => (Throw e, tr).

Definition bind {A B} (m : M A) (k : A -> M B) : M B :=
  fun tr =>
    match m tr with
    | (Done a, tr') => k a tr'
    | (Throw e, tr') => (Throw e, tr')
    | (OutOfFuel, tr') => (OutOfFuel, tr')
    end.

(** [try { m } catch (error) { h error }] *)
Definition try_catch {A} (m : M A) (h : JS.error -> M A) : M A :=
  fun tr =>
    match m tr with
    | (Throw e, tr') => h e tr'
    | r => r
    end.

(** A call to a remote service: logged, then its value or its error. *)
Definition call {A} (ev : event) (r : A + JS.error) : M A :=
  fun tr =>
    (match r with inl a => Done a | inr e => Throw e end, (tr ++ [ev])%list).

Notation "x <- m ;; k" := (bind m (fun x => k))
  (at level 61, m at next level, right associativity).
Notation "m ;;; k" := (bind m (fun _ => k))
  (at level 61, right associativity).

(** An HTTP response: status and the fields of the JSON body, in order. *)
Inductive jvalue : Type :=
| JString (s : string)
| JBool (b : bool).

Record response : Type :=
  mkResponse { status : nat; body : list (string * jvalue) }.

(** The request body. *)
Record request : Type :=
  mkRequest {
    content : option string;
    action : option string;
    notionPageId : option string
  }.

Definition run {A} (m : M A) : outcome A * trace := m [].

(** The effect of a [catch] that replies [h error]: a thrown error becomes
    that reply, anything else is left as it is. *)
Definition settle (h : JS.error -> response) (r : outcome response * trace)
    : outcome response * trace :=
  match r with
  | (Throw error, tr) => (Done (h error), tr)
  | (o, tr) => (o, tr)
  end.

Definition out_of_fuel {A} : M A := fun tr => (OutOfFuel, tr).

(** A value or a thrown error, without a remote call. *)
Definition lift {A} (r : A + JS.error) : M A :=
  fun tr => (match r with inl a => Done a | inr e => Throw e end, tr).

Definition is_some {A} (o : option A) : bool :=
  match o with Some _ => true | None => false end.

(** The items of a [rich_text] array that is known to be present. *)
Definition items (o : option (list rich_text_item)) : list rich_text_item :=
  match o with Some l => l | None => [] end.

(** [v + '...'] for a value that may be [undefined]. *)
Definition to_string (v : option string) : string :=
  match v with Some s => s | None => "undefined" end.

Definition json (code : nat) (fields : list (string * jvalue)) : response :=
  mkResponse code fields.

(** Unfolds the monadic plumbing of a run, leaving the remote calls and the
    prompt builders in place. *)
Ltac unfold_run :=
  unfold run, try_catch, bind, call, ret, throw, lift; cbv beta.

(* ===================================================================== *)
(** ** server.js *)
(* ===================================================================== *)

Module Server.

(** [let notion; if (process.env.NOTION_API_KEY) notion = new Client(...)] *)
Definition notion (e : env) : bool := JS.truthy (NOTION_API_KEY e).

(** [let model; if (process.env.GEMINI_API_KEY) model = ...] *)
Definition model (e : env) : bool := JS.truthy (GEMINI_API_KEY e).

(** The [do { ... } while (cursor)] loop of [fetchNotionPageContent]; one unit
    of fuel per iteration. *)
Fixpoint list_children (fuel : nat) (e : env) (pageId : string)
    (cursor : option string) (blocks : list block) : M (list block) :=
  match fuel with
  | O => out_of_fuel
  | S fuel' =>
      r <- call (NotionList pageId cursor 100) (notion_list e pageId cursor 100) ;;
      let blocks' := (blocks ++ results r)%list in
      if JS.truthy (next_cursor r)
      then list_children fuel' e pageId (next_cursor r) blocks'
      else ret blocks'
  end.

(** Paragraph branch: [if (text.plain_text) content += text.plain_text + '\n'] *)
Definition paragraph_item (content : string) (t : rich_text_item) : string :=
  if JS.truthy (plain_text t)
  then content ++ to_string (plain_text t) ++ JS.nl
  else content.

(** Heading branches: [content += text.plain_text + '\n'] *)
Definition heading_item (content : string) (t : rich_text_item) : string :=
  content ++ to_string (plain_text t) ++ JS.nl.

(** The callback of [blocks.forEach]. *)
Definition visit_block (content : string) (b : block) : string :=
  if (type b =? "paragraph") && is_some (rich_text b) then
    fold_left paragraph_item (items (rich_text b)) content
  else if (type b =? "heading_1") && is_some (rich_text b) then
    fold_left heading_item (items (rich_text b)) content
  else if (type b =? "heading_2") && is_some (rich_text b) then
    fold_left heading_item (items (rich_text b)) content
  else if (type b =? "heading_3") && is_some (rich_text b) then
    fold_left heading_item (items (rich_text b)) content
  else content.

(** [let content = ''; blocks.forEach(...); return content;] *)
Definition content_of_blocks (blocks : list block) : string :=
  fold_left visit_block blocks "".

Definition fetchNotionPageContent (fuel : nat) (e : env) (pageId : string)
    : M string :=
  if negb (notion e) then
    throw (JS.Error "Notion client is not initialized. Check NOTION_API_KEY.")
  else
    try_catch
      (blocks <- list_children fuel e pageId None [] ;;
       ret (content_of_blocks blocks))
      (fun error =>
         throw (JS.Error ("Failed to fetch content from Notion page: "
                          ++ JS.message error))).

Definition appendContentToNotion (e : env) (pageId : string) (content : string)
    : M unit :=
  if negb (notion e) then
    throw (JS.Error "Notion client is not initialized. Check NOTION_API_KEY.")
  else
    try_catch
      (let children := [ParagraphBlock content false] in
       call (NotionAppend pageId children) (notion_append e pageId children))
      (fun error =>
         throw (JS.Error ("Failed to append content to Notion: "
                          ++ JS.message error))).

(** The [switch (action)] of the route: the prompt, or [None] in the
    [default] case. *)
Definition build_prompt (action : option string) (contentToProcess : string)
    : option string :=
  if JS.strict_eq action "summarize" then
    Some ("Summarize the following content concisely:" ++ JS.nl ++ JS.nl
          ++ contentToProcess)
  else if JS.strict_eq action "brainstorm" then
    Some ("Brainstorm ideas related to the following content:" ++ JS.nl ++ JS.nl
          ++ contentToProcess)
  else if JS.strict_eq action "action_items" then
    Some ("Extract key action items from the following content:" ++ JS.nl ++ JS.nl
          ++ contentToProcess)
  else if JS.strict_eq action "expand" then
    Some ("Expand on the following content in detail:" ++ JS.nl ++ JS.nl
          ++ contentToProcess)
  else if JS.strict_eq action "rewrite" then
    Some ("Rewrite the following content to be clearer and more engaging:"
          ++ JS.nl ++ JS.nl ++ contentToProcess)
  else None.

(** [!contentToProcess || contentToProcess.trim() === ''] *)
Definition blank (v : option string) : bool :=
  negb (JS.truthy v) || (JS.trim (to_string v) =? "").

Definition invalid_action : response :=
  json 400 [("error", JString "Invalid AI action specified.")].

Definition no_readable_content : response :=
  json 400 [("error", JString
    "No readable content found on the specified Notion page to process.")].

(** The reply of the route's [catch]. *)
Definition failed (error : JS.error) : response :=
  json 500 [("error", JString ("Failed to process request: "
                               ++ JS.message error))].

(** The route from the [switch] on: prompt, generation, append, reply. *)
Definition process (e : env) (pageId : string) (action : option string)
    (contentToProcess : string) : M response :=
  match build_prompt action contentToProcess with
  | None => ret invalid_action
  | Some prompt =>
      geminiResponse <- call (Generate prompt) (generateContent e prompt) ;;
      appendContentToNotion e pageId geminiResponse ;;;
      ret (json 200
             [("message", JString "Content processed and appended to Notion.");
              ("geminiResponse", JString geminiResponse)])
  end.

(** [app.post('/process-notion-content', ...)] *)
Definition process_notion_content (fuel : nat) (e : env) (req : request)
    : M response :=
  if negb (JS.truthy (notionPageId req)) then
    ret (json 400 [("error", JString "Notion Page ID is required.")])
  else if negb (model e) then
    ret (json 500 [("error", JString
           "Gemini model not initialized. Check GEMINI_API_KEY.")])
  else if negb (notion e) then
    ret (json 500 [("error", JString
           "Notion client not initialized. Check NOTION_API_KEY.")])
  else
    let pageId := to_string (notionPageId req) in
    try_catch
      (if blank (content req) then
         contentToProcess <- fetchNotionPageContent fuel e pageId ;;
         if blank (Some contentToProcess) then ret no_readable_content
         else process e pageId (action req) contentToProcess
       else process e pageId (action req) (to_string (content req)))
      (fun error => ret (failed error)).

End Server.

(* ===================================================================== *)
(** ** unnamed/part_000, first file: content from the request or a URL *)
(* ===================================================================== *)

Module Part000A.

Definition indent : string := "                ".

(** The cap of [sourceContent.substring(0, 15000)]. *)
Definition cap : nat := 15000.

(** The text shared by the six templates after their first line: a line
    break, the indented rule, a line break and the indentation of the
    interpolated text. *)
Definition rule : string := JS.nl ++ indent ++ "---" ++ JS.nl ++ indent.

(** [switch (action)]: the prompt, or the error thrown while the template is
    evaluated.  [content] is the request field, [contentForLLM] the capped
    source text.  The [rephrase] template reads the undeclared identifier
    [contentForLLLLM]. *)
Definition build_prompt (action content : option string)
    (contentForLLM : string) : string + JS.error :=
  if JS.strict_eq action "summarize" then
    inl ("Provide a concise, high-level summary of the main points and key takeaways from the following text. Keep it to 3-5 bullet points or a short paragraph. Format using Notion-compatible markdown."
         ++ rule ++ contentForLLM)
  else if JS.strict_eq action "notes" then
    inl ("Extract the most important facts, key concepts, and structured notes from the following text. Present them clearly using Notion-compatible markdown-formatted bulleted or numbered lists."
         ++ rule ++ contentForLLM)
  else if JS.strict_eq action "quiz" then
    inl ("Generate one challenging multiple-choice question with 4 options (A, B, C, D) and clearly indicate the correct answer at the end (e.g., "
         ++ JS.dquote ++ "Correct Answer: B" ++ JS.dquote
         ++ ") based on the following text. Format using Notion-compatible markdown."
         ++ rule ++ contentForLLM)
  else if JS.strict_eq action "ask_question" then
    inl ("Based on the following text, answer the question: "
         ++ JS.dquote ++ to_string content ++ JS.dquote
         ++ ". If the answer is not in the provided content, state that. Format using Notion-compatible markdown."
         ++ rule ++ contentForLLM)
  else if JS.strict_eq action "brainstorm" then
    inl ("Based on the following text, brainstorm 3-5 creative ideas, applications, or related concepts. Present them as a Notion-compatible markdown bulleted list."
         ++ rule ++ contentForLLM)
  else if JS.strict_eq action "rephrase" then
    inr (JS.ReferenceError "contentForLLLLM is not defined")
  else
    inl ("Analyze the following text and provide a general overview. Format using Notion-compatible markdown: "
         ++ contentForLLM).

Definition proxyUrl (content : string) : string :=
  "https://api.allorigins.win/raw?url=" ++ JS.encodeURIComponent content.

(** The body of the inner [try]: the proxied fetch and [response.text()]. *)
Definition fetch_url (e : env) (content : string) : M string :=
  response <- call (Fetch (proxyUrl content)) (fetch e (proxyUrl content)) ;;
  if negb (ok response) then
    throw (JS.Error ("HTTP error! status: " ++ http_status response))
  else lift (text response).

Definition is_url (content : option string) : bool :=
  JS.truthy content &&
  (JS.startsWith "http://" (to_string content) ||
   JS.startsWith "https://" (to_string content)).

(** [!sourceContent || sourceContent.trim() === ''] *)
Definition blank (v : option string) : bool :=
  negb (JS.truthy v) || (JS.trim (to_string v) =? "").

(** The two blocks appended to the page; [action.replace] throws when the
    action is [undefined]. *)
Definition notionBlocks (action : option string) (generatedContent : string)
    : list new_block + JS.error :=
  match action with
  | None =>
      inr (JS.TypeError "Cannot read properties of undefined (reading 'replace')")
  | Some a =>
      inl [ParagraphBlock ("**AI Output (" ++ JS.replace_underscores a ++ "):**"
                           ++ JS.nl ++ JS.nl) true;
           CodeBlock generatedContent "markdown"]
  end.

(** The reply of the route's outer [catch]. *)
Definition unexpected (error : JS.error) : response :=
  json 500
    [("error", JString
        "An unexpected error occurred during AI processing or Notion interaction.");
     ("details", JString (JS.message error))].

(** The reply of the inner [catch], around the fetch of the URL. *)
Definition could_not_fetch (url : string) (fetchError : JS.error) : response :=
  json 400
    [("error", JString ("Could not fetch content from URL: " ++ url ++ "."));
     ("details", JString (JS.message fetchError))].

(** The two replies of a successful run: after the append, or without one. *)
Definition succeeded (generatedContent : string) (appended : bool)
    : response :=
  json 200 [("success", JBool true);
            ("message", JString (if appended
                                 then "Content processed and added to Notion!"
                                 else "Content processed!"));
            ("output", JString generatedContent)].

(** Steps 2 and 3 of the route: prompt, generation, write-back, reply. *)
Definition process (e : env) (req : request) (sourceContent : string)
    : M response :=
  let contentForLLM := JS.substring0 cap sourceContent in
  prompt <- lift (build_prompt (action req) (content req) contentForLLM) ;;
  generatedContent <- call (Generate prompt) (generateContent e prompt) ;;
  if JS.truthy (notionPageId req) then
    let pageId := to_string (notionPageId req) in
    children <- lift (notionBlocks (action req) generatedContent) ;;
    call (NotionAppend pageId children) (notion_append e pageId children) ;;;
    ret (succeeded generatedContent true)
  else
    ret (succeeded generatedContent false).

(** From the blank-content check on. *)
Definition check_and_process (e : env) (req : request)
    (sourceContent : option string) : M response :=
  if blank sourceContent then
    ret (json 400 [("error", JString "No content provided for AI processing.")])
  else process e req (to_string sourceContent).

(** [app.post('/process-notion-content', ...)] *)
Definition process_notion_content (e : env) (req : request) : M response :=
  if negb (JS.truthy (NOTION_API_KEY e)) || negb (JS.truthy (GEMINI_API_KEY e))
  then
    ret (json 500 [("error", JString
           "Server API keys are not configured properly.")])
  else
    try_catch
      (if is_url (content req) then
         let url := to_string (content req) in
         fetched <- try_catch
                      (body <- fetch_url e url ;; ret (inl body))
                      (fun fetchError =>
                         ret (inr (could_not_fetch url fetchError))) ;;
         match fetched with
         | inl body => check_and_process e req (Some body)
         | inr reply => ret reply
         end
       else check_and_process e req (content req))
      (fun error => ret (unexpected error)).

End Part000A.

(* ===================================================================== *)
(** ** unnamed/part_000, second file: content from the Notion page *)
(* ===================================================================== *)

Module Part000B.

(** [rt => rt.plain_text] followed by [join('')], which renders a missing
    element as the empty string. *)
Definition joined (l : list rich_text_item) : string :=
  JS.join (map (fun rt => match plain_text rt with Some s => s | None => "" end) l).

(** The callback of [blocks.forEach]; reading [length] of a missing
    [rich_text] throws. *)
Definition visit_block (text : string) (b : block) : string + JS.error :=
  if type b =? "paragraph" then
    match rich_text b with
    | None =>
        inr (JS.TypeError "Cannot read properties of undefined (reading 'length')")
    | Some l =>
        if (0 <? length l)%nat then inl (text ++ joined l ++ JS.nl) else inl text
    end
  else inl text.

Fixpoint forEach (blocks : list block) (text : string) : string + JS.error :=
  match blocks with
  | [] => inl text
  | b :: blocks' =>
      match visit_block text b with
      | inl text' => forEach blocks' text'
      | inr e => inr e
      end
  end.

Definition extractTextFromBlocks (blocks : list block) : string + JS.error :=
  forEach blocks "".

(** The [do { ... } while (cursor)] loop; one unit of fuel per iteration. *)
Fixpoint list_children (fuel : nat) (e : env) (pageId : string)
    (cursor : option string) (allBlocks : list block) : M (list block) :=
  match fuel with
  | O => out_of_fuel
  | S fuel' =>
      response <- call (NotionList pageId cursor 100)
                       (notion_list e pageId cursor 100) ;;
      let allBlocks' := (allBlocks ++ results response)%list in
      if JS.truthy (next_cursor response)
      then list_children fuel' e pageId (next_cursor response) allBlocks'
      else ret allBlocks'
  end.

Definition fetchNotionPageContent (fuel : nat) (e : env) (pageId : string)
    : M string :=
  try_catch
    (allBlocks <- list_children fuel e pageId None [] ;;
     lift (extractTextFromBlocks allBlocks))
    (fun error =>
       throw (JS.Error ("Failed to fetch content from Notion page: "
                        ++ JS.message error))).

(** [switch (action)] of the route: the prompt, or [None] in the [default]
    case, which replies 400. *)
Definition build_prompt (action : option string) (contentToProcess : string)
    : option string :=
  if JS.strict_eq action "summarize" then
    Some ("Summarize the following text:" ++ JS.nl ++ JS.nl ++ contentToProcess)
  else if JS.strict_eq action "brainstorm" then
    Some ("Brainstorm creative ideas/applications/related concepts based on the following: "
          ++ contentToProcess)
  else if JS.strict_eq action "improve_writing" then
    Some ("Improve the following writing, focusing on clarity, conciseness, and impact, while retaining the original meaning:"
          ++ JS.nl ++ JS.nl ++ contentToProcess)
  else None.

(** How the route of this file ends: with a reply, or, once the prompt is
    built, without one (the body stops after the [switch]). *)
Inductive ending : Type :=
| Replied (reply : response)
| Unanswered (prompt : string).

Definition required : response :=
  json 400 [("success", JBool false);
            ("message", JString "Notion Page ID and action are required.")].

Definition no_textual_content : response :=
  json 400 [("success", JBool false);
            ("message", JString
               "No textual content found in the Notion page to process.")].

Definition fetch_failed (error : JS.error) : response :=
  json 500 [("success", JBool false);
            ("message", JString ("Failed to fetch content from Notion: "
                                 ++ JS.message error))].

Definition invalid_action : response :=
  json 400 [("success", JBool false);
            ("message", JString "Invalid action specified.")].

(** [!contentToProcess || contentToProcess.trim() === ''] *)
Definition blank (v : option string) : bool :=
  negb (JS.truthy v) || (JS.trim (to_string v) =? "").

(** [app.post('/process-notion-content', ...)] of this file, once it is
    registered with its [notion] client in scope; the request's [content] is
    not read. *)
Definition process_notion_content (fuel : nat) (e : env) (req : request)
    : M ending :=
  if negb (JS.truthy (notionPageId req)) || negb (JS.truthy (action req)) then
    ret (Replied required)
  else
    fetched <- try_catch
                 (contentToProcess <-
                    fetchNotionPageContent fuel e (to_string (notionPageId req)) ;;
                  if blank (Some contentToProcess)
                  then ret (inr (Replied no_textual_content))
                  else ret (inl contentToProcess))
                 (fun error => ret (inr (Replied (fetch_failed error)))) ;;
    match fetched with
    | inr reply => ret reply
    | inl contentToProcess =>
        match build_prompt (action req) contentToProcess with
        | Some prompt => ret (Unanswered prompt)
        | None => ret (Replied invalid_action)
        end
    end.

End Part000B.

(* ===================================================================== *)
(** ** Observations on traces and responses *)
(* ===================================================================== *)

Definition is_list (ev : event) : bool :=
  match ev with NotionList _ _ _ => true | _ => false end.

Definition is_generate (ev : event) : bool :=
  match ev with Generate _ => true | _ => false end.

Definition is_append (ev : event) : bool :=
  match ev with NotionAppend _ _ => true | _ => false end.

Definition is_fetch (ev : event) : bool :=
  match ev with Fetch _ => true | _ => false end.

(** The calls of one kind made during a run. *)
Definition calls (kind : event -> bool) (tr : trace) : list event :=
  filter kind tr.

(** Some string field of the reply contains [s]. *)
Definition mentions (r : response) (s : string) : bool :=
  existsb (fun kv => match snd kv with
                     | JString x => JS.includes s x
                     | JBool _ => false
                     end) (body r).

(** [p] contains [s] as a contiguous part. *)
Definition contains (s p : string) : Prop :=
  exists pre post, p = pre ++ s ++ post.

(* ===================================================================== *)
(** ** Paginated stores *)
(* ===================================================================== *)

(** The store answers the list calls for [pageId], from [cursor] on, with
    [pages]: every page but the last carries a continuation token the loop
    follows, the last one carries [null]. *)
Fixpoint serves (e : env) (pageId : string) (cursor : option string)
    (pages : list list_response) : Prop :=
  match pages with
  | [] => False
  | p :: rest =>
      notion_list e pageId cursor 100 = inl p /\
      match rest with
      | [] => next_cursor p = None
      | _ :: _ => JS.truthy (next_cursor p) = true /\
                  serves e pageId (next_cursor p) rest
      end
  end.

(** The store answers with [pages], each with a continuation token, and the
    call after them throws [cause]. *)
Fixpoint fails_after (e : env) (pageId : string) (cursor : option string)
    (pages : list list_response) (cause : JS.error) : Prop :=
  match pages with
  | [] => notion_list e pageId cursor 100 = inr cause
  | p :: rest =>
      notion_list e pageId cursor 100 = inl p /\
      JS.truthy (next_cursor p) = true /\
      fails_after e pageId (next_cursor p) rest cause
  end.

(** The list calls made while [pages] are retrieved. *)
Fixpoint requests (pageId : string) (cursor : option string)
    (pages : list list_response) : trace :=
  match pages with
  | [] => []
  | p :: rest => NotionList pageId cursor 100 :: requests pageId (next_cursor p) rest
  end.

(** All blocks of the pages, in retrieval order. *)
Definition all_blocks (pages : list list_response) : list block :=
  concat (map results pages).

(* ===================================================================== *)
(** ** Per-block contributions *)
(* ===================================================================== *)

Module Policy.

(** The four types [server.js] extracts text from. *)
Definition recognized (t : string) : bool :=
  (t =? "paragraph") || (t =? "heading_1") || (t =? "heading_2") ||
  (t =? "heading_3").

(** The plain text of an item, empty when missing. *)
Definition plain (t : rich_text_item) : string :=
  match plain_text t with Some s => s | None => "" end.

(** The policy as the specification words it: a recognized block contributes
    the concatenation of its items' plain text, then one line break. *)
Definition spec_contribution (b : block) : string :=
  if recognized (type b)
  then String.concat "" (map plain (items (rich_text b))) ++ JS.nl
  else "".

Definition spec_extract (blocks : list block) : string :=
  String.concat "" (map spec_contribution blocks).

(** What one item contributes in [server.js]: its text and a line break; a
    paragraph item without text contributes nothing. *)
Definition server_line (paragraph : bool) (t : rich_text_item) : string :=
  if paragraph && negb (JS.truthy (plain_text t)) then ""
  else to_string (plain_text t) ++ JS.nl.

(** What one block contributes in [server.js]. *)
Definition server_contribution (b : block) : string :=
  if recognized (type b) && is_some (rich_text b)
  then String.concat ""
         (map (server_line (type b =? "paragraph")) (items (rich_text b)))
  else "".

(** What one block contributes in [extractTextFromBlocks]: only a paragraph
    with at least one item counts. *)
Definition part000_contribution (b : block) : string :=
  if (type b =? "paragraph") && negb (Nat.eqb (length (items (rich_text b))) 0)
  then String.concat "" (map plain (items (rich_text b))) ++ JS.nl
  else "".

(** Every paragraph carries a [rich_text] array. *)
Definition well_formed (b : block) : bool :=
  negb (type b =? "paragraph") || is_some (rich_text b).

End Policy.

(* ===================================================================== *)
(** ** Action sets *)
(* ===================================================================== *)

(** The [case] labels of the [switch] of each revision. *)
Definition server_actions : list string :=
  ["summarize"; "brainstorm"; "action_items"; "expand"; "rewrite"].


Definition part000B_actions : list string :=
  ["summarize"; "brainstorm"; "improve_writing"].

Definition supported (set : list string) (action : option string) : bool :=
  existsb (JS.strict_eq action) set.

(* ===================================================================== *)
(** ** A concrete deployment *)
(* ===================================================================== *)

Module Scenario.

Definition paragraph (texts : list string) : block :=
  mkBlock "paragraph" (Some (map (fun s => mkText (Some s)) texts)).

Definition heading_1 (texts : list string) : block :=
  mkBlock "heading_1" (Some (map (fun s => mkText (Some s)) texts)).

Definition divider : block := mkBlock "divider" None.

Definition page1 : list_response := mkList [paragraph ["Hello "]] (Some "c1").
Definition page2 : list_response := mkList [paragraph ["world"]] None.

(** Page [P1] in two pages (cursor chain [undefined], [c1], [null]); page
    [P0] holds the same blocks in one page; page [E] holds only a divider. *)
Definition list_two_pages (block_id : string) (cursor : option string)
    (page_size : nat) : list_response + JS.error :=
  if block_id =? "P1" then
    match cursor with
    | None => inl page1
    | Some c => if c =? "c1" then inl page2
                else inr (JS.Error "Invalid cursor")
    end
  else if block_id =? "P0" then
    inl (mkList [paragraph ["Hello "]; paragraph ["world"]] None)
  else if block_id =? "E" then inl (mkList [divider] None)
  else inr (JS.Error "Could not find block").

Definition healthy : env :=
  mkEnv (Some "secret_notion") (Some "secret_gemini")
        list_two_pages
        (fun _ _ => inl tt)
        (fun _ => inl "Summary.")
        (fun _ => inl (mkFetch true "200" (inl "Fetched page body"))).

Definition with_list (e : env) f : env :=
  mkEnv (NOTION_API_KEY e) (GEMINI_API_KEY e) f (notion_append e)
        (generateContent e) (fetch e).

Definition with_append (e : env) f : env :=
  mkEnv (NOTION_API_KEY e) (GEMINI_API_KEY e) (notion_list e) f
        (generateContent e) (fetch e).

Definition with_generator (e : env) f : env :=
  mkEnv (NOTION_API_KEY e) (GEMINI_API_KEY e) (notion_list e) (notion_append e)
        f (fetch e).

Definition with_fetch (e : env) f : env :=
  mkEnv (NOTION_API_KEY e) (GEMINI_API_KEY e) (notion_list e) (notion_append e)
        (generateContent e) f.

Definition boom : JS.error := JS.Error "boom".

(** A page of any length: [S n] list responses of one paragraph each; the
    continuation token after response [i] is a string of [S i] letters. *)
Fixpoint token (i : nat) : string :=
  match i with
  | O => ""
  | S i' => String "c" (token i')
  end.

Definition cursor_at (i : nat) : option string :=
  match i with
  | O => None
  | S _ => Some (token i)
  end.

Definition position (cursor : option string) : nat :=
  match cursor with
  | None => 0
  | Some c => String.length c
  end.

Definition long_page (n i : nat) : list_response :=
  mkList [paragraph [token i]] (if (i <? n)%nat then cursor_at (S i) else None).

Definition long_pages (n : nat) : list list_response :=
  map (long_page n) (seq 0 (S n)).

Definition long_store (n : nat) : env :=
  with_list healthy (fun _ cursor _ => inl (long_page n (position cursor))).

(** The store is down: every list call throws. *)
Definition store_down : env := with_list healthy (fun _ _ _ => inr boom).

(** The second page cannot be read. *)
Definition second_page_lost : env :=
  with_list healthy
    (fun id c n => match c with None => list_two_pages id c n | Some _ => inr boom end).

Definition generator_down : env := with_generator healthy (fun _ => inr boom).

Definition append_down : env := with_append healthy (fun _ _ => inr boom).

Definition fetch_down : env := with_fetch healthy (fun _ => inr boom).

End Scenario.

(* ===================================================================== *)
(** ** Further observations *)
(* ===================================================================== *)

(** The list calls [evs] follow one another as the loop makes them: each
    addresses [pageId] with page size 100, the first passes [cursor], and a
    call is followed by another only when the store answered it with a
    continuation token the loop follows, which the next call passes. *)
Fixpoint follows (e : env) (pageId : string) (cursor : option string)
    (evs : trace) : Prop :=
  match evs with
  | [] => True
  | ev :: rest =>
      ev = NotionList pageId cursor 100 /\
      match rest with
      | [] => True
      | _ :: _ =>
          exists r,
            notion_list e pageId cursor 100 = inl r /\
            JS.truthy (next_cursor r) = true /\
            follows e pageId (next_cursor r) rest
      end
  end.

(** Every character of the string is white space. *)
Fixpoint all_ws (s : string) : bool :=
  match s with
  | EmptyString => true
  | String c s' => JS.is_ws c && all_ws s'
  end.

(** A block on which the two extractors cannot differ: a paragraph with at
    most one item, whose text is present and not empty, or a block that is
    neither a paragraph nor a heading. *)
Definition plain_block (b : block) : bool :=
  if type b =? "paragraph" then
    match rich_text b with
    | Some [] => true
    | Some [t] => JS.truthy (plain_text t)
    | _ => false
    end
  else negb (Policy.recognized (type b)).

(** The characters a URI component is made of after encoding: the unreserved
    ones and the percent sign. *)
Definition uri_safe (c : ascii) : bool :=
  JS.uri_unreserved (nat_of_ascii c) || (nat_of_ascii c =? 37)%nat.

Fixpoint all_chars (f : ascii -> bool) (s : string) : bool :=
  match s with
  | EmptyString => true
  | String c s' => f c && all_chars f s'
  end.

Module Edge.

(** A store that never ends: every response carries one block and the
    continuation token [c1]. *)
Definition endless : env :=
  Scenario.with_list Scenario.healthy
    (fun _ _ _ => inl (mkList [Scenario.paragraph ["again"]] (Some "c1"))).

(** A paragraph without a [rich_text] array. *)
Definition bare_paragraph : block := mkBlock "paragraph" None.

(** Page [P1] holds a single bare paragraph. *)
Definition bare_store : env :=
  Scenario.with_list Scenario.healthy
    (fun _ _ _ => inl (mkList [bare_paragraph] None)).

(** The fetched document is white space only. *)
Definition blank_fetch : env :=
  Scenario.with_fetch Scenario.healthy
    (fun _ => inl (mkFetch true "200" (inl "   "))).

End Edge.

(* ===================================================================== *)
(** ** The request body as it arrives *)
(* ===================================================================== *)



(* ===================================================================== *)
(** ** Strings *)
(* ===================================================================== *)

Lemma append_assoc (a b c : string) : (a ++ b) ++ c = a ++ (b ++ c).
Proof. induction a as [|x a IH]; simpl; [reflexivity | now rewrite IH]. Qed.

Lemma append_empty_r (a : string) : a ++ "" = a.
Proof. induction a as [|x a IH]; simpl; [reflexivity | now rewrite IH]. Qed.

Lemma append_length (a b : string) :
  String.length (a ++ b) = String.length a + String.length b.
Proof. induction a as [|x a IH]; simpl; [reflexivity | now rewrite IH]. Qed.

Lemma concat_cons (x : string) (xs : list string) :
  String.concat "" (x :: xs) = x ++ String.concat "" xs.
Proof. destruct xs; simpl; [now rewrite append_empty_r | reflexivity]. Qed.

Lemma concat_app (xs ys : list string) :
  String.concat "" (xs ++ ys) = String.concat "" xs ++ String.concat "" ys.
Proof.
  induction xs as [|x xs IH]; [reflexivity|].
  rewrite <- app_comm_cons, !concat_cons, IH. now rewrite append_assoc.
Qed.

Lemma concat_all_empty (xs : list string) :
  Forall (fun x => x = "") xs -> String.concat "" xs = "".
Proof.
  induction 1 as [|x xs Hx _ IH]; [reflexivity|].
  rewrite concat_cons, IH, Hx. reflexivity.
Qed.

Lemma append_neq_self (p s : string) : p <> "" -> p ++ s <> s.
Proof.
  intros Hp Heq. apply (f_equal String.length) in Heq.
  rewrite append_length in Heq.
  destruct p; [congruence | simpl in Heq; lia].
Qed.

Lemma prefix_split (p s : string) :
  prefix p s = true -> exists post, s = p ++ post.
Proof.
  revert s. induction p as [|c p IH]; intros s H.
  - exists s. reflexivity.
  - destruct s as [|d s]; simpl in H; [discriminate|].
    destruct (ascii_dec c d) as [->|]; [|discriminate].
    destruct (IH _ H) as [post ->]. exists post. reflexivity.
Qed.

Lemma includes_contains (needle hay : string) :
  JS.includes needle hay = true -> contains needle hay.
Proof.
  induction hay as [|c hay IH]; cbn [JS.includes]; intros H.
  - rewrite orb_false_r in H.
    destruct (prefix_split _ _ H) as [post ->]. exists "", post. reflexivity.
  - apply orb_true_iff in H. destruct H as [H|H].
    + destruct (prefix_split _ _ H) as [post Hs]. exists "", post. exact Hs.
    + destruct (IH H) as (pre & post & ->).
      exists (String c pre), post. reflexivity.
Qed.

Lemma prefix_append (p post : string) : prefix p (p ++ post) = true.
Proof.
  induction p as [|c p IH]; simpl; [now destruct post|].
  destruct (ascii_dec c c) as [_|Hne]; [exact IH | now destruct Hne].
Qed.

Lemma contains_includes (needle hay : string) :
  contains needle hay -> JS.includes needle hay = true.
Proof.
  intros (pre & post & ->). induction pre as [|c pre IH].
  - simpl append. destruct (needle ++ post) eqn:E; cbn [JS.includes];
      rewrite <- E, prefix_append; reflexivity.
  - change (String c pre ++ needle ++ post)
      with (String c (pre ++ needle ++ post)).
    cbn [JS.includes]. rewrite IH. apply orb_true_r.
Qed.

Lemma contains_suffix (pre s : string) : contains s (pre ++ s).
Proof. exists pre, "". now rewrite append_empty_r. Qed.

(* ===================================================================== *)
(** ** Flattening blocks *)
(* ===================================================================== *)

Lemma paragraph_items_fold (l : list rich_text_item) (acc : string) :
  fold_left Server.paragraph_item l acc
  = acc ++ String.concat "" (map (Policy.server_line true) l).
Proof.
  revert acc. induction l as [|t l IH]; intros acc; simpl fold_left.
  - simpl. now rewrite append_empty_r.
  - rewrite IH. simpl map. rewrite concat_cons.
    unfold Server.paragraph_item, Policy.server_line. simpl.
    destruct (JS.truthy (plain_text t)); simpl.
    + now rewrite !append_assoc.
    + reflexivity.
Qed.

Lemma heading_items_fold (l : list rich_text_item) (acc : string) :
  fold_left Server.heading_item l acc
  = acc ++ String.concat "" (map (Policy.server_line false) l).
Proof.
  revert acc. induction l as [|t l IH]; intros acc; simpl fold_left.
  - simpl. now rewrite append_empty_r.
  - rewrite IH. simpl map. rewrite concat_cons.
    unfold Server.heading_item, Policy.server_line. simpl.
    now rewrite !append_assoc.
Qed.

Lemma server_visit_block (acc : string) (b : block) :
  Server.visit_block acc b = acc ++ Policy.server_contribution b.
Proof.
  unfold Server.visit_block, Policy.server_contribution, Policy.recognized.
  destruct (rich_text b) as [l|]; simpl is_some; simpl items.
  - rewrite !andb_true_r.
    destruct (type b =? "paragraph"); simpl; [apply paragraph_items_fold|].
    destruct (type b =? "heading_1"); simpl; [apply heading_items_fold|].
    destruct (type b =? "heading_2"); simpl; [apply heading_items_fold|].
    destruct (type b =? "heading_3"); simpl; [apply heading_items_fold|].
    now rewrite append_empty_r.
  - rewrite !andb_false_r. now rewrite append_empty_r.
Qed.

Lemma server_blocks_fold (blocks : list block) (acc : string) :
  fold_left Server.visit_block blocks acc
  = acc ++ String.concat "" (map Policy.server_contribution blocks).
Proof.
  revert acc. induction blocks as [|b blocks IH]; intros acc; simpl fold_left.
  - simpl. now rewrite append_empty_r.
  - rewrite IH, server_visit_block. simpl map.
    now rewrite concat_cons, append_assoc.
Qed.

Lemma server_content_of_blocks (blocks : list block) :
  Server.content_of_blocks blocks
  = String.concat "" (map Policy.server_contribution blocks).
Proof. unfold Server.content_of_blocks. now rewrite server_blocks_fold. Qed.

Lemma part000_visit_block (acc : string) (b : block) :
  Policy.well_formed b = true ->
  Part000B.visit_block acc b = inl (acc ++ Policy.part000_contribution b).
Proof.
  unfold Policy.well_formed, Part000B.visit_block, Policy.part000_contribution.
  destruct (type b =? "paragraph"); simpl.
  - destruct (rich_text b) as [l|]; simpl; [intros _ | discriminate].
    destruct l; simpl; [now rewrite append_empty_r | reflexivity].
  - intros _. now rewrite append_empty_r.
Qed.

Lemma part000_forEach (blocks : list block) (acc : string) :
  forallb Policy.well_formed blocks = true ->
  Part000B.forEach blocks acc
  = inl (acc ++ String.concat "" (map Policy.part000_contribution blocks)).
Proof.
  revert acc. induction blocks as [|b blocks IH]; intros acc H; simpl.
  - now rewrite append_empty_r.
  - simpl in H. apply andb_true_iff in H. destruct H as [Hb Hbs].
    rewrite (part000_visit_block _ _ Hb), (IH _ Hbs).
    destruct blocks; simpl; now rewrite ?append_empty_r, ?append_assoc.
Qed.

Lemma part000_extract (blocks : list block) :
  forallb Policy.well_formed blocks = true ->
  Part000B.extractTextFromBlocks blocks
  = inl (String.concat "" (map Policy.part000_contribution blocks)).
Proof. intros H. unfold Part000B.extractTextFromBlocks. now rewrite part000_forEach. Qed.

(* ===================================================================== *)
(** ** The pagination loop *)
(* ===================================================================== *)

Lemma part000_list_children :
  Part000B.list_children = Server.list_children.
Proof. reflexivity. Qed.

(** Enough fuel for the pages the store serves: the loop returns all their
    blocks in retrieval order, after one list call per page. *)
Lemma list_children_serves (pages : list list_response) :
  forall fuel e pageId cursor acc tr,
    serves e pageId cursor pages ->
    length pages <= fuel ->
    Server.list_children fuel e pageId cursor acc tr
    = (Done (acc ++ all_blocks pages)%list,
       (tr ++ requests pageId cursor pages)%list).
Proof.
  induction pages as [|p rest IH]; intros fuel e pageId cursor acc tr Hs Hf.
  - destruct Hs.
  - destruct fuel as [|fuel]; [simpl in Hf; lia|].
    destruct Hs as [Hcall Hrest].
    cbn [Server.list_children]. unfold bind, call. rewrite Hcall.
    destruct rest as [|q rest].
    + rewrite Hrest. simpl. unfold ret, all_blocks. simpl.
      now rewrite app_nil_r.
    + destruct Hrest as [Htruthy Hrest]. rewrite Htruthy.
      rewrite (IH fuel e pageId (next_cursor p) _ _ Hrest);
        [|simpl in *; lia].
      unfold all_blocks. cbn [map concat requests].
      now rewrite <- !app_assoc.
Qed.

(** The store fails after some pages: the loop throws the cause, whatever it
    had accumulated. *)
Lemma list_children_fails (pages : list list_response) :
  forall fuel e pageId cursor cause acc tr,
    fails_after e pageId cursor pages cause ->
    length pages < fuel ->
    fst (Server.list_children fuel e pageId cursor acc tr) = Throw cause.
Proof.
  induction pages as [|p rest IH]; intros fuel e pageId cursor cause acc tr Hs Hf;
    (destruct fuel as [|fuel]; [simpl in Hf; lia|]);
    cbn [Server.list_children]; unfold bind, call.
  - simpl in Hs. rewrite Hs. reflexivity.
  - destruct Hs as (Hcall & Htruthy & Hrest). rewrite Hcall, Htruthy.
    apply IH; [exact Hrest | simpl in Hf; lia].
Qed.

(** The loop only makes list calls, the first of them without a cursor
    argument other than the one it was started with. *)
Lemma list_children_trace (fuel : nat) :
  forall e pageId cursor acc tr,
    exists evs,
      snd (Server.list_children fuel e pageId cursor acc tr) = (tr ++ evs)%list /\
      forallb is_list evs = true /\
      (0 < fuel -> hd_error evs = Some (NotionList pageId cursor 100)).
Proof.
  induction fuel as [|fuel IH]; intros e pageId cursor acc tr.
  - exists []. simpl. rewrite app_nil_r. repeat split. lia.
  - cbn [Server.list_children]. unfold bind, call.
    destruct (notion_list e pageId cursor 100) as [r|err].
    + destruct (JS.truthy (next_cursor r)).
      * destruct (IH e pageId (next_cursor r) (acc ++ results r)%list
                    (tr ++ [NotionList pageId cursor 100])%list)
          as (evs & Hsnd & Hall & _).
        exists (NotionList pageId cursor 100 :: evs).
        rewrite Hsnd, <- app_assoc. simpl. now rewrite Hall.
      * exists [NotionList pageId cursor 100]. simpl. repeat split.
    + exists [NotionList pageId cursor 100]. simpl. repeat split.
Qed.

Lemma server_fetch_serves e pageId pages fuel :
  Server.notion e = true ->
  serves e pageId None pages ->
  length pages <= fuel ->
  run (Server.fetchNotionPageContent fuel e pageId)
  = (Done (String.concat "" (map Policy.server_contribution (all_blocks pages))),
     requests pageId None pages).
Proof.
  intros Hn Hs Hf. unfold run, Server.fetchNotionPageContent.
  rewrite Hn. unfold try_catch, bind. cbv beta iota delta [negb].
  rewrite (list_children_serves pages fuel e pageId None [] [] Hs Hf).
  unfold ret. simpl. now rewrite server_content_of_blocks.
Qed.

Lemma part000_fetch_serves e pageId pages fuel :
  serves e pageId None pages ->
  length pages <= fuel ->
  run (Part000B.fetchNotionPageContent fuel e pageId)
  = (match Part000B.extractTextFromBlocks (all_blocks pages) with
     | inl text => Done text
     | inr error =>
         Throw (JS.Error ("Failed to fetch content from Notion page: "
                          ++ JS.message error))
     end,
     requests pageId None pages).
Proof.
  intros Hs Hf. unfold run, Part000B.fetchNotionPageContent.
  rewrite part000_list_children. unfold try_catch, bind. cbv beta iota.
  rewrite (list_children_serves pages fuel e pageId None [] [] Hs Hf).
  simpl app. unfold lift.
  destruct (Part000B.extractTextFromBlocks (all_blocks pages)); reflexivity.
Qed.

Lemma server_fetch_fails e pageId pages cause fuel :
  Server.notion e = true ->
  fails_after e pageId None pages cause ->
  length pages < fuel ->
  fst (run (Server.fetchNotionPageContent fuel e pageId))
  = Throw (JS.Error ("Failed to fetch content from Notion page: "
                     ++ JS.message cause)).
Proof.
  intros Hn Hs Hf. unfold run, Server.fetchNotionPageContent.
  rewrite Hn. unfold try_catch, bind. cbv beta iota delta [negb].
  pose proof (list_children_fails pages fuel e pageId None cause [] [] Hs Hf) as H.
  destruct (Server.list_children fuel e pageId None [] []) as [o tr'].
  simpl in H. subst o. reflexivity.
Qed.

Lemma part000_fetch_fails e pageId pages cause fuel :
  fails_after e pageId None pages cause ->
  length pages < fuel ->
  fst (run (Part000B.fetchNotionPageContent fuel e pageId))
  = Throw (JS.Error ("Failed to fetch content from Notion page: "
                     ++ JS.message cause)).
Proof.
  intros Hs Hf. unfold run, Part000B.fetchNotionPageContent.
  rewrite part000_list_children. unfold try_catch, bind. cbv beta iota.
  pose proof (list_children_fails pages fuel e pageId None cause [] [] Hs Hf) as H.
  destruct (Server.list_children fuel e pageId None [] []) as [o tr'].
  simpl in H. subst o. reflexivity.
Qed.

(** The extractor of [server.js] only makes list calls, starting with the
    first page of [pageId]. *)
Lemma server_fetch_trace fuel e pageId :
  Server.notion e = true ->
  exists evs,
    snd (run (Server.fetchNotionPageContent fuel e pageId)) = evs /\
    forallb is_list evs = true /\
    (0 < fuel -> hd_error evs = Some (NotionList pageId None 100)).
Proof.
  intros Hn. unfold run, Server.fetchNotionPageContent.
  rewrite Hn. unfold try_catch, bind. cbv beta iota delta [negb].
  destruct (list_children_trace fuel e pageId None [] []) as (evs & Hsnd & Hall & Hhd).
  exists evs. simpl in Hsnd.
  destruct (Server.list_children fuel e pageId None [] []) as [[blocks|err|] tr'];
    simpl in *; subst tr'; auto.
Qed.

(* ===================================================================== *)
(** ** Traces *)
(* ===================================================================== *)

Lemma calls_app kind (a b : trace) :
  calls kind (a ++ b)%list = (calls kind a ++ calls kind b)%list.
Proof. apply filter_app. Qed.

Lemma only_list_calls (evs : trace) :
  forallb is_list evs = true ->
  calls is_generate evs = [] /\ calls is_append evs = [] /\
  forall ev, In ev evs -> is_list ev = true.
Proof.
  induction evs as [|ev evs IH]; simpl; intros H; [repeat split; tauto|].
  apply andb_true_iff in H. destruct H as [Hev Hevs].
  destruct (IH Hevs) as (Hg & Ha & Hin).
  destruct ev; try discriminate. simpl. repeat split; auto.
  intros ev' [<-|H']; auto.
Qed.

Lemma hd_error_app (a b : trace) ev :
  hd_error a = Some ev -> hd_error (a ++ b)%list = Some ev.
Proof. destruct a; simpl; [discriminate | auto]. Qed.

(* ===================================================================== *)
(** ** The route of server.js *)
(* ===================================================================== *)

(** The run of [Server.process] from a trace [tr], case by case. *)
Lemma server_process_cases e pageId action c tr :
  Server.notion e = true ->
  (Server.build_prompt action c = None /\
   Server.process e pageId action c tr = (Done Server.invalid_action, tr))
  \/
  (exists p cause,
     Server.build_prompt action c = Some p /\
     generateContent e p = inr cause /\
     Server.process e pageId action c tr
     = (Throw cause, (tr ++ [Generate p])%list))
  \/
  (exists p g cause,
     Server.build_prompt action c = Some p /\
     generateContent e p = inl g /\
     notion_append e pageId [ParagraphBlock g false] = inr cause /\
     Server.process e pageId action c tr
     = (Throw (JS.Error ("Failed to append content to Notion: "
                         ++ JS.message cause)),
        (tr ++ [Generate p; NotionAppend pageId [ParagraphBlock g false]])%list))
  \/
  (exists p g,
     Server.build_prompt action c = Some p /\
     generateContent e p = inl g /\
     notion_append e pageId [ParagraphBlock g false] = inl tt /\
     Server.process e pageId action c tr
     = (Done (json 200
                [("message", JString "Content processed and appended to Notion.");
                 ("geminiResponse", JString g)]),
        (tr ++ [Generate p; NotionAppend pageId [ParagraphBlock g false]])%list)).
Proof.
  intros Hn. unfold Server.process, Server.appendContentToNotion.
  rewrite Hn. cbv [negb]. cbv iota.
  destruct (Server.build_prompt action c) as [p|] eqn:Hp.
  2:{ left. split; reflexivity. }
  right. unfold_run.
  destruct (generateContent e p) as [g|cause] eqn:Hg.
  2:{ left. exists p, cause. repeat split; auto. }
  right.
  destruct (notion_append e pageId [ParagraphBlock g false]) as [[]|cause] eqn:Ha.
  - right. exists p, g. rewrite <- app_assoc. repeat split; auto.
  - left. exists p, g, cause. rewrite <- app_assoc. repeat split; auto.
Qed.

(** The guards of the route passed: a page id is given and both clients are
    initialised. *)
Lemma server_route_direct fuel e req :
  JS.truthy (notionPageId req) = true ->
  Server.model e = true ->
  Server.notion e = true ->
  Server.blank (content req) = false ->
  run (Server.process_notion_content fuel e req)
  = settle Server.failed
      (Server.process e (to_string (notionPageId req)) (action req)
                      (to_string (content req)) []).
Proof.
  intros Hid Hm Hn Hb. unfold run, Server.process_notion_content.
  rewrite Hid, Hm, Hn, Hb. cbv [negb]. cbv iota. unfold try_catch, settle.
  destruct (Server.process e (to_string (notionPageId req)) (action req)
              (to_string (content req)) []) as [[a|error|] tr]; reflexivity.
Qed.

Lemma server_route_fetched fuel e req :
  JS.truthy (notionPageId req) = true ->
  Server.model e = true ->
  Server.notion e = true ->
  Server.blank (content req) = true ->
  run (Server.process_notion_content fuel e req)
  = match run (Server.fetchNotionPageContent fuel e (to_string (notionPageId req))) with
    | (Done text, tr) =>
        if Server.blank (Some text) then (Done Server.no_readable_content, tr)
        else settle Server.failed
               (Server.process e (to_string (notionPageId req)) (action req)
                               text tr)
    | (Throw error, tr) => (Done (Server.failed error), tr)
    | (OutOfFuel, tr) => (OutOfFuel, tr)
    end.
Proof.
  intros Hid Hm Hn Hb. unfold run, Server.process_notion_content.
  rewrite Hid, Hm, Hn, Hb. cbv [negb]. cbv iota.
  unfold try_catch at 1. unfold bind at 1.
  destruct (Server.fetchNotionPageContent fuel e (to_string (notionPageId req)) [])
    as [[text|error|] tr]; try reflexivity.
  destruct (Server.blank (Some text)); [reflexivity|]. unfold settle.
  destruct (Server.process e (to_string (notionPageId req)) (action req) text tr)
    as [[a|error|] tr']; reflexivity.
Qed.

(** The guards that reply before anything else is done. *)
Lemma server_route_guarded fuel e req :
  JS.truthy (notionPageId req) && Server.model e && Server.notion e = false ->
  snd (run (Server.process_notion_content fuel e req)) = [].
Proof.
  unfold run, Server.process_notion_content.
  destruct (JS.truthy (notionPageId req)); [|reflexivity].
  destruct (Server.model e); [|reflexivity].
  destruct (Server.notion e); [discriminate | reflexivity].
Qed.

(** What [Server.process] adds to the trace: no list call, and no generator
    call other than the one with the prompt built from the content. *)
Lemma server_process_trace e pageId action c tr :
  Server.notion e = true ->
  exists evs,
    snd (Server.process e pageId action c tr) = (tr ++ evs)%list /\
    calls is_list evs = [] /\
    (forall p, In (Generate p) evs -> Server.build_prompt action c = Some p).
Proof.
  intros Hn.
  destruct (server_process_cases e pageId action c tr Hn)
    as [(Hp & ->) | [(p & cause & Hp & Hg & ->) |
        [(p & g & cause & Hp & Hg & Ha & ->) | (p & g & Hp & Hg & Ha & ->)]]];
    simpl snd.
  - exists []. rewrite app_nil_r. repeat split. intros p [].
  - exists [Generate p]. repeat split.
    intros q [H|[]]. now inversion H; subst.
  - exists [Generate p; NotionAppend pageId [ParagraphBlock g false]].
    repeat split. intros q [H|[H|[]]]; [now inversion H; subst | discriminate].
  - exists [Generate p; NotionAppend pageId [ParagraphBlock g false]].
    repeat split. intros q [H|[H|[]]]; [now inversion H; subst | discriminate].
Qed.

Lemma snd_settled (r : outcome response * trace) (h : JS.error -> response) :
  snd (settle h r) = snd r.
Proof. destruct r as [[a|err|] tr]; reflexivity. Qed.

Lemma in_list_calls_only (evs : trace) p :
  forallb is_list evs = true -> ~ In (Generate p) evs.
Proof.
  intros Hall Hin. destruct (only_list_calls _ Hall) as (_ & _ & H).
  specialize (H _ Hin). discriminate.
Qed.

(** C6. For every request whose [content] is absent, empty or white space and
    whose page yields an empty or white-space text, the route replies 400
    (no readable content) and neither the generator nor the append is
    called. *)
Theorem empty_content_rejected (fuel : nat) (e : env) (req : request)
    (text : string) (tr : trace) :
  JS.truthy (notionPageId req) = true ->
  Server.model e = true ->
  Server.notion e = true ->
  Server.blank (content req) = true ->
  run (Server.fetchNotionPageContent fuel e (to_string (notionPageId req)))
  = (Done text, tr) ->
  Server.blank (Some text) = true ->
  run (Server.process_notion_content fuel e req)
  = (Done Server.no_readable_content, tr) /\
  status Server.no_readable_content = 400 /\
  calls is_generate tr = [] /\
  calls is_append tr = [].
Proof.
  intros Hid Hm Hn Hb Hfetch Hblank.
  rewrite (server_route_fetched fuel e req Hid Hm Hn Hb), Hfetch, Hblank.
  destruct (server_fetch_trace fuel e (to_string (notionPageId req)) Hn)
    as (evs & Hsnd & Hall & _).
  rewrite Hfetch in Hsnd. simpl in Hsnd. subst evs.
  destruct (only_list_calls _ Hall) as (Hg & Ha & _). auto.
Qed.

Lemma server_unsupported (action : option string) (c : string) :
  supported server_actions action = false ->
  Server.build_prompt action c = None.
Proof.
  unfold supported, server_actions, Server.build_prompt. simpl existsb.
  intros H. repeat (apply orb_false_iff in H; destruct H as [?H H]).
  repeat match goal with Heq : JS.strict_eq _ _ = false |- _ => rewrite Heq; clear Heq end.
  reflexivity.
Qed.

Lemma server_supported (action : option string) (c : string) :
  supported server_actions action = true ->
  exists template,
    template <> "" /\ Server.build_prompt action c = Some (template ++ c).
Proof.
  unfold supported, server_actions, Server.build_prompt. simpl existsb.
  intros H.
  repeat match goal with
         | |- context [if JS.strict_eq action ?s then _ else _] =>
             destruct (JS.strict_eq action s);
             [eexists; split; [|rewrite <- !append_assoc; reflexivity];
              discriminate|]
         end.
  discriminate.
Qed.

(** A generator call in the run of the route: the content was resolved to
    some [c] after list calls only, the prompt is the one built from [c], and
    the rest of the run is [Server.process]. *)
Lemma server_route_generates fuel e req p :
  In (Generate p) (snd (run (Server.process_notion_content fuel e req))) ->
  exists tr0 c,
    forallb is_list tr0 = true /\
    Server.notion e = true /\
    Server.build_prompt (action req) c = Some p /\
    run (Server.process_notion_content fuel e req)
    = settle Server.failed
        (Server.process e (to_string (notionPageId req)) (action req) c tr0).
Proof.
  intros Hin.
  destruct (JS.truthy (notionPageId req) && Server.model e && Server.notion e)
    eqn:Hguards.
  2:{ rewrite (server_route_guarded fuel e req Hguards) in Hin. destruct Hin. }
  apply andb_true_iff in Hguards. destruct Hguards as [Hguards Hn].
  apply andb_true_iff in Hguards. destruct Hguards as [Hid Hm].
  destruct (Server.blank (content req)) eqn:Hb.
  - rewrite (server_route_fetched fuel e req Hid Hm Hn Hb) in Hin |- *.
    destruct (server_fetch_trace fuel e (to_string (notionPageId req)) Hn)
      as (evs & Hsnd & Hall & _).
    destruct (run (Server.fetchNotionPageContent fuel e
                     (to_string (notionPageId req))))
      as [[text|error|] tr]; simpl in Hsnd; subst evs;
      try (now apply in_list_calls_only in Hin).
    destruct (Server.blank (Some text));
      [now apply in_list_calls_only in Hin|].
    rewrite snd_settled in Hin.
    destruct (server_process_trace e (to_string (notionPageId req))
                (action req) text tr Hn) as (rest & Hrest & _ & Hgen).
    rewrite Hrest in Hin. apply in_app_or in Hin.
    destruct Hin as [Hin|Hin]; [now apply in_list_calls_only in Hin|].
    exists tr, text. auto.
  - rewrite (server_route_direct fuel e req Hid Hm Hn Hb) in Hin |- *.
    rewrite snd_settled in Hin.
    destruct (server_process_trace e (to_string (notionPageId req))
                (action req) (to_string (content req)) [] Hn)
      as (rest & Hrest & _ & Hgen).
    rewrite Hrest in Hin. exists [], (to_string (content req)). auto.
Qed.


(** C7. For every request in which the generator call fails, the route
    replies 500 with the cause wrapped in its error message, the generator
    call is the last call made, and the append is never called. *)
Theorem generator_failure_terminal (fuel : nat) (e : env) (req : request)
    (p : string) (cause : JS.error) :
  In (Generate p) (snd (run (Server.process_notion_content fuel e req))) ->
  generateContent e p = inr cause ->
  fst (run (Server.process_notion_content fuel e req))
  = Done (json 500 [("error", JString ("Failed to process request: "
                                       ++ JS.message cause))]) /\
  calls is_append (snd (run (Server.process_notion_content fuel e req))) = [] /\
  exists before,
    snd (run (Server.process_notion_content fuel e req))
    = (before ++ [Generate p])%list.
Proof.
  intros Hin Hfail.
  destruct (server_route_generates fuel e req p Hin)
    as (tr0 & c & Hall & Hn & Hp & ->).
  destruct (only_list_calls _ Hall) as (_ & Happ & _).
  destruct (server_process_cases e (to_string (notionPageId req)) (action req)
              c tr0 Hn)
    as [(Hp' & _) | [(q & cause' & Hp' & Hg & ->) |
        [(q & g & cause' & Hp' & Hg & _) | (q & g & Hp' & Hg & _)]]];
    rewrite Hp in Hp'; try discriminate; inversion Hp'; subst q;
    rewrite Hfail in Hg; try discriminate.
  inversion Hg; subst cause'. simpl. repeat split.
  - rewrite calls_app, Happ. reflexivity.
  - exists tr0. reflexivity.
Qed.

(* ===================================================================== *)
(** ** The route of the first file of part_000 *)
(* ===================================================================== *)

(** The run of [Part000A.process] from a trace [tr], case by case. *)
Lemma part000A_process_cases e req src tr :
  let built := Part000A.build_prompt (action req) (content req)
                 (JS.substring0 Part000A.cap src) in
  let pageId := to_string (notionPageId req) in
  (exists err,
     built = inr err /\ Part000A.process e req src tr = (Throw err, tr))
  \/
  (exists p cause,
     built = inl p /\ generateContent e p = inr cause /\
     Part000A.process e req src tr = (Throw cause, (tr ++ [Generate p])%list))
  \/
  (exists p g,
     built = inl p /\ generateContent e p = inl g /\
     JS.truthy (notionPageId req) = false /\
     Part000A.process e req src tr
     = (Done (Part000A.succeeded g false), (tr ++ [Generate p])%list))
  \/
  (exists p g err,
     built = inl p /\ generateContent e p = inl g /\
     JS.truthy (notionPageId req) = true /\
     Part000A.notionBlocks (action req) g = inr err /\
     Part000A.process e req src tr = (Throw err, (tr ++ [Generate p])%list))
  \/
  (exists p g children cause,
     built = inl p /\ generateContent e p = inl g /\
     JS.truthy (notionPageId req) = true /\
     Part000A.notionBlocks (action req) g = inl children /\
     notion_append e pageId children = inr cause /\
     Part000A.process e req src tr
     = (Throw cause, (tr ++ [Generate p; NotionAppend pageId children])%list))
  \/
  (exists p g children,
     built = inl p /\ generateContent e p = inl g /\
     JS.truthy (notionPageId req) = true /\
     Part000A.notionBlocks (action req) g = inl children /\
     notion_append e pageId children = inl tt /\
     Part000A.process e req src tr
     = (Done (Part000A.succeeded g true),
        (tr ++ [Generate p; NotionAppend pageId children])%list)).
Proof.
  intros built pageId. unfold Part000A.process. fold built. fold pageId.
  unfold_run.
  destruct built as [p|err] eqn:Hb.
  2:{ left. exists err. auto. }
  right. destruct (generateContent e p) as [g|cause] eqn:Hg.
  2:{ left. exists p, cause. auto. }
  right. destruct (JS.truthy (notionPageId req)) eqn:Hid.
  2:{ left. exists p, g. auto. }
  right. destruct (Part000A.notionBlocks (action req) g) as [children|err] eqn:Hc.
  2:{ left. exists p, g, err. auto. }
  right. destruct (notion_append e pageId children) as [[]|cause] eqn:Ha.
  - right. exists p, g, children. rewrite <- app_assoc. repeat split; auto.
  - left. exists p, g, children, cause. rewrite <- app_assoc. repeat split; auto.
Qed.

(** The proxied fetch makes exactly one call and either yields the body or
    throws. *)
Lemma fetch_url_run e url :
  (exists body, run (Part000A.fetch_url e url)
                = (Done body, [Fetch (Part000A.proxyUrl url)])) \/
  (exists err, run (Part000A.fetch_url e url)
               = (Throw err, [Fetch (Part000A.proxyUrl url)])).
Proof.
  unfold Part000A.fetch_url. unfold_run. simpl app.
  destruct (fetch e (Part000A.proxyUrl url)) as [r|err];
    [|right; eexists; reflexivity].
  destruct (ok r); cbv [negb]; cbv iota; [|right; eexists; reflexivity].
  destruct (text r) as [body|err]; [left | right]; eexists; reflexivity.
Qed.

(** The three ways the proxied fetch fails: [fetch] rejects, the response is
    not [ok], or reading its body fails. *)
Lemma fetch_url_failures e url :
  (forall cause,
     fetch e (Part000A.proxyUrl url) = inr cause ->
     fst (run (Part000A.fetch_url e url)) = Throw cause) /\
  (forall r,
     fetch e (Part000A.proxyUrl url) = inl r -> ok r = false ->
     fst (run (Part000A.fetch_url e url))
     = Throw (JS.Error ("HTTP error! status: " ++ http_status r))) /\
  (forall r cause,
     fetch e (Part000A.proxyUrl url) = inl r -> ok r = true ->
     text r = inr cause ->
     fst (run (Part000A.fetch_url e url)) = Throw cause).
Proof.
  unfold Part000A.fetch_url. unfold_run. repeat split.
  - intros cause H. now rewrite H.
  - intros r H Hok. now rewrite H, Hok.
  - intros r cause H Hok Htext. now rewrite H, Hok, Htext.
Qed.

Lemma part000A_route_url e req url :
  content req = Some url ->
  Part000A.is_url (Some url) = true ->
  JS.truthy (NOTION_API_KEY e) = true ->
  JS.truthy (GEMINI_API_KEY e) = true ->
  run (Part000A.process_notion_content e req)
  = match run (Part000A.fetch_url e url) with
    | (Done body, tr) =>
        settle Part000A.unexpected
          (Part000A.check_and_process e req (Some body) tr)
    | (Throw fetchError, tr) =>
        (Done (Part000A.could_not_fetch url fetchError), tr)
    | (OutOfFuel, tr) => (OutOfFuel, tr)
    end.
Proof.
  intros Hc Hurl Hk1 Hk2. unfold Part000A.process_notion_content.
  rewrite Hc, Hurl, Hk1, Hk2. cbv [negb orb]. cbv iota. simpl to_string.
  unfold run at 1. unfold try_catch at 1. unfold bind at 1.
  unfold try_catch at 1. unfold bind at 1.
  destruct (fetch_url_run e url) as [(body & H)|(err & H)];
    unfold run in H |- *; rewrite H; unfold ret; cbv beta iota; [|reflexivity].
  unfold settle.
  destruct (Part000A.check_and_process e req (Some body)
              [Fetch (Part000A.proxyUrl url)]) as [[a|error|] tr]; reflexivity.
Qed.

Lemma part000A_route_plain e req :
  Part000A.is_url (content req) = false ->
  JS.truthy (NOTION_API_KEY e) = true ->
  JS.truthy (GEMINI_API_KEY e) = true ->
  run (Part000A.process_notion_content e req)
  = settle Part000A.unexpected
      (Part000A.check_and_process e req (content req) []).
Proof.
  intros Hurl Hk1 Hk2. unfold Part000A.process_notion_content.
  rewrite Hurl, Hk1, Hk2. cbv [negb orb]. cbv iota.
  unfold run, try_catch, settle.
  destruct (Part000A.check_and_process e req (content req) [])
    as [[a|error|] tr]; reflexivity.
Qed.

(** What [Part000A.check_and_process] adds to the trace: nothing, or the
    generator call with the prompt built from the capped source, possibly
    followed by the append. *)
Lemma part000A_check_trace e req src tr :
  exists evs,
    snd (Part000A.check_and_process e req src tr) = (tr ++ evs)%list /\
    calls is_fetch evs = [] /\ calls is_list evs = [] /\
    (forall p,
       In (Generate p) evs ->
       Part000A.build_prompt (action req) (content req)
         (JS.substring0 Part000A.cap (to_string src)) = inl p) /\
    (Part000A.blank src = false ->
     forall p,
       Part000A.build_prompt (action req) (content req)
         (JS.substring0 Part000A.cap (to_string src)) = inl p ->
       hd_error evs = Some (Generate p)).
Proof.
  unfold Part000A.check_and_process.
  destruct (Part000A.blank src) eqn:Hb.
  - exists []. unfold ret. simpl. rewrite app_nil_r. repeat split.
    + intros p [].
    + discriminate.
  - destruct (part000A_process_cases e req (to_string src) tr)
      as [(err & Hp & ->) | [(p & cause & Hp & Hg & ->) |
          [(p & g & Hp & Hg & Hid & ->) | [(p & g & err & Hp & Hg & Hid & Hc & ->) |
          [(p & g & ch & cause & Hp & Hg & Hid & Hc & Ha & ->) |
           (p & g & ch & Hp & Hg & Hid & Hc & Ha & ->)]]]]]; simpl snd.
    + exists []. rewrite app_nil_r. repeat split.
      * intros p [].
      * intros _ p Hp'. rewrite Hp in Hp'. discriminate.
    + exists [Generate p]. repeat split.
      * intros q [H|[]]. now inversion H; subst.
      * intros _ q Hq. rewrite Hp in Hq. now inversion Hq.
    + exists [Generate p]. repeat split.
      * intros q [H|[]]. now inversion H; subst.
      * intros _ q Hq. rewrite Hp in Hq. now inversion Hq.
    + exists [Generate p]. repeat split.
      * intros q [H|[]]. now inversion H; subst.
      * intros _ q Hq. rewrite Hp in Hq. now inversion Hq.
    + eexists. repeat split.
      * intros q [H|[H|[]]]; [now inversion H; subst | discriminate].
      * intros _ q Hq. rewrite Hp in Hq. now inversion Hq.
    + eexists. repeat split.
      * intros q [H|[H|[]]]; [now inversion H; subst | discriminate].
      * intros _ q Hq. rewrite Hp in Hq. now inversion Hq.
Qed.

Lemma starts_with_scheme_is_url (url : string) :
  JS.startsWith "http://" url || JS.startsWith "https://" url = true ->
  Part000A.is_url (Some url) = true.
Proof.
  intros H. unfold Part000A.is_url. simpl to_string. rewrite H.
  destruct url; [discriminate H | reflexivity].
Qed.

Lemma part000A_route_unconfigured e req :
  JS.truthy (NOTION_API_KEY e) && JS.truthy (GEMINI_API_KEY e) = false ->
  run (Part000A.process_notion_content e req)
  = (Done (json 500 [("error", JString
             "Server API keys are not configured properly.")]), []).
Proof.
  intros H. unfold Part000A.process_notion_content.
  destruct (JS.truthy (NOTION_API_KEY e)); [|reflexivity].
  destruct (JS.truthy (GEMINI_API_KEY e)); [discriminate | reflexivity].
Qed.

(** A generator call in the run of the route: the source text was resolved to
    some [src] without any generator call, the prompt is the one built from
    its capped prefix, and the rest of the run is [Part000A.process]. *)
Lemma part000A_route_generates e req p :
  In (Generate p) (snd (run (Part000A.process_notion_content e req))) ->
  exists tr0 src,
    calls is_generate tr0 = [] /\ calls is_append tr0 = [] /\
    Part000A.build_prompt (action req) (content req)
      (JS.substring0 Part000A.cap src) = inl p /\
    run (Part000A.process_notion_content e req)
    = settle Part000A.unexpected (Part000A.process e req src tr0).
Proof.
  intros Hin.
  destruct (JS.truthy (NOTION_API_KEY e) && JS.truthy (GEMINI_API_KEY e))
    eqn:Hkeys.
  2:{ rewrite (part000A_route_unconfigured e req Hkeys) in Hin. destruct Hin. }
  apply andb_true_iff in Hkeys. destruct Hkeys as [Hk1 Hk2].
  assert (Hproc : forall src tr0,
             calls is_generate tr0 = [] -> calls is_append tr0 = [] ->
             (forall q, ~ In (Generate q) tr0) ->
             In (Generate p)
                (snd (settle Part000A.unexpected
                        (Part000A.check_and_process e req src tr0))) ->
             exists tr1 src',
               calls is_generate tr1 = [] /\ calls is_append tr1 = [] /\
               Part000A.build_prompt (action req) (content req)
                 (JS.substring0 Part000A.cap src') = inl p /\
               settle Part000A.unexpected
                 (Part000A.check_and_process e req src tr0)
               = settle Part000A.unexpected (Part000A.process e req src' tr1)).
  { intros src tr0 Hg Ha Hno Hin'. rewrite snd_settled in Hin'.
    destruct (part000A_check_trace e req src tr0)
      as (evs & Hsnd & _ & _ & Hgen & _).
    rewrite Hsnd in Hin'. apply in_app_or in Hin'.
    destruct Hin' as [Hin'|Hin']; [now apply Hno in Hin'|].
    exists tr0, (to_string src). repeat split; auto.
    unfold Part000A.check_and_process in *.
    destruct (Part000A.blank src); [|reflexivity].
    unfold ret in Hsnd. simpl in Hsnd.
    assert (evs = []) as -> by
      (apply (app_inv_head tr0); now rewrite app_nil_r).
    destruct Hin'. }
  destruct (Part000A.is_url (content req)) eqn:Hurl.
  - destruct (content req) as [url|] eqn:Hc; [|discriminate Hurl].
    rewrite (part000A_route_url e req url Hc Hurl Hk1 Hk2) in Hin |- *.
    destruct (fetch_url_run e url) as [(body & H)|(err & H)];
      rewrite H in Hin |- *.
    + apply Hproc; auto.
      intros q [Hq|[]]. discriminate.
    + destruct Hin as [Hq|[]]. discriminate.
  - rewrite (part000A_route_plain e req Hurl Hk1 Hk2) in Hin |- *.
    apply Hproc; auto.
Qed.

(** C8 (amended). For every request in which generation succeeds and the
    append then fails: [server.js] replies 500 with a single [error] field
    made of the append failure's cause, under the wrapper that tells it from a
    generation failure with the same cause; the first file of part_000 replies
    500 with its fixed error text and the cause as [details].  Neither reply
    has a field for the generated text. *)
Theorem append_failure_reported :
  (forall fuel e req p g cause,
     In (Generate p) (snd (run (Server.process_notion_content fuel e req))) ->
     generateContent e p = inl g ->
     notion_append e (to_string (notionPageId req)) [ParagraphBlock g false]
     = inr cause ->
     fst (run (Server.process_notion_content fuel e req))
     = Done (json 500
               [("error", JString
                   ("Failed to process request: Failed to append content to Notion: "
                    ++ JS.message cause))]) /\
     json 500
       [("error", JString
           ("Failed to process request: Failed to append content to Notion: "
            ++ JS.message cause))]
     <> Server.failed cause)
  /\
  (forall e req p g children cause,
     In (Generate p) (snd (run (Part000A.process_notion_content e req))) ->
     generateContent e p = inl g ->
     JS.truthy (notionPageId req) = true ->
     Part000A.notionBlocks (action req) g = inl children ->
     notion_append e (to_string (notionPageId req)) children = inr cause ->
     fst (run (Part000A.process_notion_content e req))
     = Done (json 500
               [("error", JString
                   "An unexpected error occurred during AI processing or Notion interaction.");
                ("details", JString (JS.message cause))])).
Proof.
  split.
  - intros fuel e req p g cause Hin Hgen Happ.
    destruct (server_route_generates fuel e req p Hin)
      as (tr0 & c & Hall & Hn & Hp & ->).
    split.
    + destruct (server_process_cases e (to_string (notionPageId req))
                  (action req) c tr0 Hn)
        as [(Hp' & _) | [(q & cause' & Hp' & Hg & _) |
            [(q & g' & cause' & Hp' & Hg & Ha & ->) |
             (q & g' & Hp' & Hg & Ha & _)]]];
        rewrite Hp in Hp'; try discriminate; inversion Hp'; subst q;
        rewrite Hgen in Hg; try discriminate; inversion Hg; subst g';
        rewrite Happ in Ha; try discriminate; inversion Ha; subst cause'.
      reflexivity.
    + unfold Server.failed, json. intros Heq.
      inversion Heq as [Hmsg].
      apply (append_neq_self "Failed to append content to Notion: "
               (JS.message cause)); [discriminate | exact Hmsg].
  - intros e req p g children cause Hin Hgen Hid Hblocks Happ.
    destruct (part000A_route_generates e req p Hin)
      as (tr0 & src & _ & _ & Hp & ->).
    destruct (part000A_process_cases e req src tr0)
      as [(err & Hp' & _) | [(q & cause' & Hp' & Hg & _) |
          [(q & g' & Hp' & Hg & Hid' & _) |
          [(q & g' & err & Hp' & Hg & Hid' & Hc & _) |
          [(q & g' & ch & cause' & Hp' & Hg & Hid' & Hc & Ha & ->) |
           (q & g' & ch & Hp' & Hg & Hid' & Hc & Ha & _)]]]]];
      rewrite Hp in Hp'; try discriminate; inversion Hp'; subst q;
      rewrite Hgen in Hg; try discriminate; inversion Hg; subst g';
      try (rewrite Hid in Hid'; discriminate);
      rewrite Hblocks in Hc; try discriminate; inversion Hc; subst ch;
      rewrite Happ in Ha; try discriminate; inversion Ha; subst cause'.
    reflexivity.
Qed.

(* ===================================================================== *)
(** ** Extraction *)
(* ===================================================================== *)

(** C1. For every store that serves the list calls on a page with a sequence
    of pages ending in a null continuation token, and enough fuel for one
    iteration per page (any number of pages): the extractor makes one list
    call per page and returns the concatenation of the contributions of all
    blocks in retrieval order; another pagination of the same blocks, in one
    page or in many, yields the same text.  The same holds for the second
    file of part_000, whose text is the concatenation of its own
    contributions when every paragraph carries a [rich_text] array. *)
Theorem pagination_independent
    (e e' : env) (pageId pageId' : string)
    (pages pages' : list list_response) (fuel fuel' : nat) :
  Server.notion e = true ->
  Server.notion e' = true ->
  serves e pageId None pages ->
  serves e' pageId' None pages' ->
  length pages <= fuel ->
  length pages' <= fuel' ->
  all_blocks pages = all_blocks pages' ->
  run (Server.fetchNotionPageContent fuel e pageId)
  = (Done (String.concat "" (map Policy.server_contribution (all_blocks pages))),
     requests pageId None pages) /\
  length (requests pageId None pages) = length pages /\
  fst (run (Server.fetchNotionPageContent fuel e pageId))
  = fst (run (Server.fetchNotionPageContent fuel' e' pageId')) /\
  fst (run (Part000B.fetchNotionPageContent fuel e pageId))
  = fst (run (Part000B.fetchNotionPageContent fuel' e' pageId')) /\
  (forallb Policy.well_formed (all_blocks pages) = true ->
   run (Part000B.fetchNotionPageContent fuel e pageId)
   = (Done (String.concat "" (map Policy.part000_contribution (all_blocks pages))),
      requests pageId None pages)).
Proof.
  intros Hn Hn' Hs Hs' Hf Hf' Hsame.
  rewrite (server_fetch_serves e pageId pages fuel Hn Hs Hf).
  rewrite (server_fetch_serves e' pageId' pages' fuel' Hn' Hs' Hf').
  rewrite (part000_fetch_serves e pageId pages fuel Hs Hf).
  rewrite (part000_fetch_serves e' pageId' pages' fuel' Hs' Hf').
  split; [reflexivity|]. split.
  - clear. generalize (@None string) as cursor.
    induction pages as [|p rest IH]; intros cursor; simpl; [reflexivity|].
    now rewrite IH.
  - split; [simpl; now rewrite Hsame|].
    split; [simpl; now rewrite Hsame|].
    intros Hwf. now rewrite (part000_extract _ Hwf).
Qed.

(** No cap on the number of pages: for every [n] the store [long_store n]
    serves [S n] pages, and the extractor retrieves them all with [S n] list
    calls. *)
Lemma long_store_serves (n : nat) (pageId : string) :
  serves (Scenario.long_store n) pageId None (Scenario.long_pages n).
Proof.
  assert (Hlen : forall i, String.length (Scenario.token i) = i).
  { induction i as [|i IH]; simpl; [reflexivity | now rewrite IH]. }
  assert (Hpos : forall i, Scenario.position (Scenario.cursor_at i) = i).
  { intros [|i]; [reflexivity|]. simpl. now rewrite Hlen. }
  assert (Hcall : forall i,
            notion_list (Scenario.long_store n) pageId (Scenario.cursor_at i) 100
            = inl (Scenario.long_page n i)).
  { intros i. unfold Scenario.long_store, Scenario.with_list. cbn [notion_list].
    now rewrite Hpos. }
  assert (Hgen : forall k i, i + k = n ->
            serves (Scenario.long_store n) pageId (Scenario.cursor_at i)
                   (map (Scenario.long_page n) (seq i (S k)))).
  { induction k as [|k IH]; intros i Hi.
    - cbn [seq map serves]. split; [apply Hcall|].
      unfold Scenario.long_page. cbn [next_cursor].
      replace i with n by lia. now rewrite Nat.ltb_irrefl.
    - specialize (IH (S i) ltac:(lia)).
      change (seq i (S (S k))) with (i :: seq (S i) (S k)).
      rewrite map_cons.
      destruct (map (Scenario.long_page n) (seq (S i) (S k))) as [|q rest] eqn:Hm;
        [discriminate Hm|].
      cbn [serves]. split; [apply Hcall|].
      assert (Hlt : (i <? n)%nat = true) by (apply Nat.ltb_lt; lia).
      unfold Scenario.long_page at 1 2. cbn [next_cursor]. rewrite Hlt.
      split; [reflexivity | exact IH]. }
  apply (Hgen n 0). reflexivity.
Qed.

Lemma no_page_cap (n : nat) (pageId : string) :
  run (Server.fetchNotionPageContent (S n) (Scenario.long_store n) pageId)
  = (Done (String.concat ""
             (map Policy.server_contribution (all_blocks (Scenario.long_pages n)))),
     requests pageId None (Scenario.long_pages n)) /\
  length (all_blocks (Scenario.long_pages n)) = S n.
Proof.
  split.
  - apply server_fetch_serves; [reflexivity | apply long_store_serves|].
    unfold Scenario.long_pages. now rewrite length_map, length_seq.
  - unfold all_blocks, Scenario.long_pages. rewrite map_map.
    generalize 0 as i. generalize (S n) as k.
    induction k as [|k IH]; intros i; simpl; [reflexivity | now rewrite IH].
Qed.

(** The loop follows a continuation token only when it is truthy: a page
    whose token is the empty string ends the retrieval like [null]. *)
Lemma empty_cursor_ends_retrieval fuel e pageId p :
  notion_list e pageId None 100 = inl p ->
  JS.truthy (next_cursor p) = false ->
  Server.list_children (S fuel) e pageId None [] []
  = (Done (results p), [NotionList pageId None 100]).
Proof.
  intros Hcall Hfalsy. cbn [Server.list_children]. unfold bind, call.
  rewrite Hcall, Hfalsy. reflexivity.
Qed.

(** C2 (amended). For every list of fetched blocks: in [server.js] a block of
    one of the four recognized types that carries a [rich_text] array
    contributes, for each of its items in order, the item's plain text
    followed by a line break (a paragraph item with empty text contributes
    nothing); in [extractTextFromBlocks] only a paragraph with at least one
    item contributes, namely the concatenation of its items' plain text
    followed by one line break.  A block of any other type contributes
    nothing and causes no error, the contributions are concatenated in block
    order, and the result is the empty string when no block is of a
    recognized type. *)
Theorem block_policy (blocks : list block) :
  Server.content_of_blocks blocks
  = String.concat "" (map Policy.server_contribution blocks)
  /\
  (forall blocks',
     Server.content_of_blocks (blocks ++ blocks')
     = Server.content_of_blocks blocks ++ Server.content_of_blocks blocks')
  /\
  (forall b,
     Policy.recognized (type b) = false ->
     Policy.server_contribution b = "" /\ Policy.part000_contribution b = "")
  /\
  (forallb (fun b => negb (Policy.recognized (type b))) blocks = true ->
   Server.content_of_blocks blocks = "" /\
   Part000B.extractTextFromBlocks blocks = inl "")
  /\
  (forallb Policy.well_formed blocks = true ->
   Part000B.extractTextFromBlocks blocks
   = inl (String.concat "" (map Policy.part000_contribution blocks))).
Proof.
  assert (Hskip : forall b, Policy.recognized (type b) = false ->
            Policy.server_contribution b = "" /\
            Policy.part000_contribution b = "" /\
            Policy.well_formed b = true).
  { intros b Hb. unfold Policy.server_contribution, Policy.part000_contribution,
      Policy.well_formed. rewrite Hb. unfold Policy.recognized in Hb.
    destruct (type b =? "paragraph"); [discriminate | auto]. }
  split; [apply server_content_of_blocks|].
  split.
  { intros blocks'. rewrite !server_content_of_blocks, map_app.
    apply concat_app. }
  split; [intros b Hb; destruct (Hskip b Hb) as (? & ? & ?); auto|].
  split; [|apply part000_extract].
  intros Hnone.
  assert (Hall : Forall (fun b => Policy.recognized (type b) = false) blocks).
  { apply Forall_forall. intros b Hin.
    rewrite forallb_forall in Hnone. specialize (Hnone b Hin).
    now apply negb_true_iff in Hnone. }
  split.
  - rewrite server_content_of_blocks. apply concat_all_empty.
    apply Forall_map. eapply Forall_impl; [|exact Hall].
    intros b Hb. now destruct (Hskip b Hb).
  - rewrite part000_extract.
    + f_equal. apply concat_all_empty.
      apply Forall_map. eapply Forall_impl; [|exact Hall].
      intros b Hb. now destruct (Hskip b Hb) as (_ & ? & _).
    + apply forallb_forall. intros b Hin.
      rewrite Forall_forall in Hall. now destruct (Hskip b (Hall b Hin)) as (_ & _ & ?).
Qed.

(** C9 (amended). For every page id: when the store serves some pages and
    the next list call throws, the extractor throws exactly one error, whose
    message is the fixed prefix followed by the message of the cause; the
    error is the same whatever the page id and whatever had been retrieved,
    and no text is returned. *)
Theorem fetch_failure_wrapped
    (e : env) (pageId : string) (pages : list list_response)
    (cause : JS.error) (fuel : nat) :
  Server.notion e = true ->
  fails_after e pageId None pages cause ->
  length pages < fuel ->
  fst (run (Server.fetchNotionPageContent fuel e pageId))
  = Throw (JS.Error ("Failed to fetch content from Notion page: "
                     ++ JS.message cause)) /\
  fst (run (Part000B.fetchNotionPageContent fuel e pageId))
  = Throw (JS.Error ("Failed to fetch content from Notion page: "
                     ++ JS.message cause)) /\
  contains (JS.message cause)
    ("Failed to fetch content from Notion page: " ++ JS.message cause).
Proof.
  intros Hn Hs Hf. split; [|split].
  - now apply server_fetch_fails with (pages := pages).
  - now apply part000_fetch_fails with (pages := pages).
  - apply contains_suffix.
Qed.

(* ===================================================================== *)
(** ** Prompt building *)
(* ===================================================================== *)



(** Every action of the [switch] of the first file of part_000 other than
    [rephrase], and every action outside it, yields a non-empty prompt that
    ends with the capped text. *)
Lemma part000A_prompt_contains (action content : option string) (text : string) :
  JS.strict_eq action "rephrase" = false ->
  exists template,
    template <> "" /\
    Part000A.build_prompt action content text = inl (template ++ text).
Proof.
  intros Hr. unfold Part000A.build_prompt. rewrite Hr.
  repeat match goal with
         | |- context [if JS.strict_eq action ?s then _ else _] =>
             destruct (JS.strict_eq action s);
             [eexists; split; [|rewrite <- !append_assoc; reflexivity];
              discriminate|]
         end.
  eexists; split; [|reflexivity]. discriminate.
Qed.

Lemma part000B_prompt (action : option string) (c : string) :
  if supported part000B_actions action
  then exists template,
         template <> "" /\ Part000B.build_prompt action c = Some (template ++ c)
  else Part000B.build_prompt action c = None.
Proof.
  unfold supported, part000B_actions, Part000B.build_prompt. simpl existsb.
  repeat match goal with
         | |- context [if JS.strict_eq action ?s then _ else _] =>
             destruct (JS.strict_eq action s);
             [cbn [orb]; rewrite ?orb_true_r; eexists;
              split; [|rewrite <- ?append_assoc; reflexivity];
              discriminate|]
         end.
  reflexivity.
Qed.


(** C3. The [rephrase] template of the first file of part_000 reads an
    identifier that is not declared: for every input, evaluating it throws a
    [ReferenceError] instead of producing a prompt, and the route replies 500
    without calling the generator. *)
Theorem rephrase_template_throws :
  (forall content text,
     Part000A.build_prompt (Some "rephrase") content text
     = inr (JS.ReferenceError "contentForLLLLM is not defined"))
  /\
  run (Part000A.process_notion_content Scenario.healthy
         (mkRequest (Some "Hello world") (Some "rephrase") (Some "P1")))
  = (Done (json 500
             [("error", JString
                 "An unexpected error occurred during AI processing or Notion interaction.");
              ("details", JString "contentForLLLLM is not defined")]),
     []).
Proof. split; [intros content text|]; reflexivity. Qed.

(* ===================================================================== *)
(** ** Concrete runs *)
(* ===================================================================== *)

(** The end-to-end scenario: page [P1] in two pages, action [summarize]. *)
Example summarize_two_pages :
  run (Server.process_notion_content 2 Scenario.healthy
         (mkRequest None (Some "summarize") (Some "P1")))
  = (Done (json 200
             [("message", JString "Content processed and appended to Notion.");
              ("geminiResponse", JString "Summary.")]),
     [NotionList "P1" None 100;
      NotionList "P1" (Some "c1") 100;
      Generate ("Summarize the following content concisely:" ++ JS.nl ++ JS.nl
                ++ "Hello " ++ JS.nl ++ "world" ++ JS.nl);
      NotionAppend "P1" [ParagraphBlock "Summary." false]]).
Proof. reflexivity. Qed.

(** A request without a page id is rejected before anything else. *)
Example missing_page_id (fuel : nat) (e : env) (c a : option string) :
  run (Server.process_notion_content fuel e (mkRequest c a None))
  = (Done (json 400 [("error", JString "Notion Page ID is required.")]), []).
Proof. reflexivity. Qed.

(** C2, counterexample: a paragraph of two items gets a line break after
    each item in [server.js], and a heading contributes nothing in
    [extractTextFromBlocks]; the policy as worded gives one line break per
    block and counts the heading. *)
Lemma block_policy_counterexample :
  Server.content_of_blocks [Scenario.paragraph ["Hello "; "world"]]
  = "Hello " ++ JS.nl ++ "world" ++ JS.nl /\
  Policy.spec_extract [Scenario.paragraph ["Hello "; "world"]]
  = "Hello world" ++ JS.nl /\
  Server.content_of_blocks [Scenario.paragraph ["Hello "; "world"]]
  <> Policy.spec_extract [Scenario.paragraph ["Hello "; "world"]] /\
  Part000B.extractTextFromBlocks [Scenario.heading_1 ["Title"]] = inl "" /\
  Policy.spec_extract [Scenario.heading_1 ["Title"]] = "Title" ++ JS.nl.
Proof. repeat split. discriminate. Qed.


(** C8, counterexample: the generator returns [Summary.], the append throws
    [boom]; the replies of both revisions are 500 and no field of them
    contains the generated text. *)
Lemma append_failure_counterexample :
  run (Server.process_notion_content 1 Scenario.append_down
         (mkRequest (Some "x") (Some "summarize") (Some "P1")))
  = (Done (json 500
             [("error", JString
                 "Failed to process request: Failed to append content to Notion: boom")]),
     [Generate ("Summarize the following content concisely:" ++ JS.nl ++ JS.nl ++ "x");
      NotionAppend "P1" [ParagraphBlock "Summary." false]]) /\
  mentions (json 500
              [("error", JString
                  "Failed to process request: Failed to append content to Notion: boom")])
           "Summary." = false /\
  fst (run (Part000A.process_notion_content Scenario.append_down
              (mkRequest (Some "x") (Some "summarize") (Some "P1"))))
  = Done (Part000A.unexpected Scenario.boom) /\
  mentions (Part000A.unexpected Scenario.boom) "Summary." = false.
Proof. repeat split. Qed.

(** C9, counterexample: the list call on page [P1] throws [boom]; the error
    of the extractor carries [boom] and not the page id. *)
Lemma fetch_failure_counterexample :
  run (Server.fetchNotionPageContent 1 Scenario.store_down "P1")
  = (Throw (JS.Error "Failed to fetch content from Notion page: boom"),
     [NotionList "P1" None 100]) /\
  run (Part000B.fetchNotionPageContent 1 Scenario.store_down "P1")
  = (Throw (JS.Error "Failed to fetch content from Notion page: boom"),
     [NotionList "P1" None 100]) /\
  ~ contains "P1" "Failed to fetch content from Notion page: boom".
Proof.
  repeat split. intros H. apply contains_includes in H. discriminate H.
Qed.

(* ===================================================================== *)
(** ** The theorems at concrete inputs *)
(* ===================================================================== *)

(** Page [P1] in two pages and page [P0] in one page hold the same blocks. *)
Lemma pagination_independent_witness :
  run (Server.fetchNotionPageContent 2 Scenario.healthy "P1")
  = (Done ("Hello " ++ JS.nl ++ "world" ++ JS.nl),
     [NotionList "P1" None 100; NotionList "P1" (Some "c1") 100]) /\
  fst (run (Server.fetchNotionPageContent 2 Scenario.healthy "P1"))
  = fst (run (Server.fetchNotionPageContent 1 Scenario.healthy "P0")) /\
  fst (run (Part000B.fetchNotionPageContent 2 Scenario.healthy "P1"))
  = fst (run (Part000B.fetchNotionPageContent 1 Scenario.healthy "P0")).
Proof.
  destruct (pagination_independent Scenario.healthy Scenario.healthy "P1" "P0"
              [Scenario.page1; Scenario.page2]
              [mkList [Scenario.paragraph ["Hello "]; Scenario.paragraph ["world"]]
                      None]
              2 1 eq_refl eq_refl
              (conj eq_refl (conj eq_refl (conj eq_refl eq_refl)))
              (conj eq_refl eq_refl)
              (le_n 2) (le_n 1) eq_refl)
    as (H1 & _ & H3 & H4 & _).
  split; [exact H1|]. split; [exact H3 | exact H4].
Defined.

Lemma block_policy_witness :
  (Policy.server_contribution Scenario.divider = "" /\
   Policy.part000_contribution Scenario.divider = "") /\
  (Server.content_of_blocks [Scenario.divider] = "" /\
   Part000B.extractTextFromBlocks [Scenario.divider] = inl "") /\
  Part000B.extractTextFromBlocks
    [Scenario.paragraph ["Hello "; "world"]; Scenario.divider]
  = inl ("Hello world" ++ JS.nl).
Proof.
  split; [|split].
  - exact (proj1 (proj2 (proj2 (block_policy []))) Scenario.divider eq_refl).
  - exact (proj1 (proj2 (proj2 (proj2 (block_policy [Scenario.divider]))))
             eq_refl).
  - exact (proj2 (proj2 (proj2 (proj2
             (block_policy [Scenario.paragraph ["Hello "; "world"];
                            Scenario.divider])))) eq_refl).
Defined.

Lemma empty_content_rejected_witness :
  run (Server.process_notion_content 1 Scenario.healthy
         (mkRequest None (Some "summarize") (Some "E")))
  = (Done Server.no_readable_content, [NotionList "E" None 100]).
Proof.
  exact (proj1 (empty_content_rejected 1 Scenario.healthy
                  (mkRequest None (Some "summarize") (Some "E"))
                  "" [NotionList "E" None 100]
                  eq_refl eq_refl eq_refl eq_refl eq_refl eq_refl)).
Defined.

Lemma generator_failure_terminal_witness :
  fst (run (Server.process_notion_content 1 Scenario.generator_down
              (mkRequest (Some "x") (Some "summarize") (Some "P1"))))
  = Done (json 500 [("error", JString "Failed to process request: boom")]) /\
  calls is_append
    (snd (run (Server.process_notion_content 1 Scenario.generator_down
                 (mkRequest (Some "x") (Some "summarize") (Some "P1"))))) = [].
Proof.
  destruct (generator_failure_terminal 1 Scenario.generator_down
              (mkRequest (Some "x") (Some "summarize") (Some "P1"))
              ("Summarize the following content concisely:" ++ JS.nl ++ JS.nl ++ "x")
              Scenario.boom (or_introl eq_refl) eq_refl)
    as (Hreply & Happend & _).
  split; [exact Hreply | exact Happend].
Defined.

Lemma append_failure_reported_witness :
  fst (run (Server.process_notion_content 1 Scenario.append_down
              (mkRequest (Some "x") (Some "summarize") (Some "P1"))))
  = Done (json 500
            [("error", JString
                "Failed to process request: Failed to append content to Notion: boom")]) /\
  fst (run (Part000A.process_notion_content Scenario.append_down
              (mkRequest (Some "x") (Some "summarize") (Some "P1"))))
  = Done (json 500
            [("error", JString
                "An unexpected error occurred during AI processing or Notion interaction.");
             ("details", JString "boom")]).
Proof.
  destruct append_failure_reported as [HS HA]. split.
  - exact (proj1 (HS 1 Scenario.append_down
                    (mkRequest (Some "x") (Some "summarize") (Some "P1"))
                    ("Summarize the following content concisely:"
                     ++ JS.nl ++ JS.nl ++ "x")
                    "Summary." Scenario.boom
                    (or_introl eq_refl) eq_refl eq_refl)).
  - refine (HA Scenario.append_down
              (mkRequest (Some "x") (Some "summarize") (Some "P1"))
              _ "Summary." _ Scenario.boom _ eq_refl eq_refl eq_refl eq_refl).
    left. reflexivity.
Defined.

Lemma fetch_failure_wrapped_witness :
  fst (run (Server.fetchNotionPageContent 2 Scenario.second_page_lost "P1"))
  = Throw (JS.Error "Failed to fetch content from Notion page: boom") /\
  fst (run (Part000B.fetchNotionPageContent 2 Scenario.second_page_lost "P1"))
  = Throw (JS.Error "Failed to fetch content from Notion page: boom").
Proof.
  destruct (fetch_failure_wrapped Scenario.second_page_lost "P1"
              [Scenario.page1] Scenario.boom 2 eq_refl
              (conj eq_refl (conj eq_refl eq_refl)) (le_n 2))
    as (HS & HB & _).
  split; [exact HS | exact HB].
Defined.

(* ===================================================================== *)
(** ** Further properties of the extractors *)
(* ===================================================================== *)

Lemma list_children_follows (fuel : nat) :
  forall e pageId cursor acc tr,
    exists evs,
      snd (Server.list_children fuel e pageId cursor acc tr) = (tr ++ evs)%list /\
      follows e pageId cursor evs.
Proof.
  induction fuel as [|fuel IH]; intros e pageId cursor acc tr.
  - exists []. simpl. now rewrite app_nil_r.
  - cbn [Server.list_children]. unfold bind, call.
    destruct (notion_list e pageId cursor 100) as [r|err] eqn:Hcall.
    + destruct (JS.truthy (next_cursor r)) eqn:Htruthy.
      * destruct (IH e pageId (next_cursor r) (acc ++ results r)%list
                    (tr ++ [NotionList pageId cursor 100])%list)
          as (evs & Hsnd & Hfollows).
        exists (NotionList pageId cursor 100 :: evs).
        rewrite Hsnd, <- app_assoc. split; [reflexivity|].
        cbn [follows]. split; [reflexivity|].
        destruct evs as [|ev evs]; [exact I|].
        exists r. auto.
      * exists [NotionList pageId cursor 100]. simpl. auto.
    + exists [NotionList pageId cursor 100]. simpl. auto.
Qed.

(** X1. Every list call of the extractor, in both revisions and whatever the
    store answers, addresses the requested page with page size 100; the first
    call passes no cursor, and a further call is made only after a response
    with a non-empty continuation token, which it passes. *)
Theorem list_calls_follow_cursors (fuel : nat) (e : env) (pageId : string) :
  follows e pageId None (snd (run (Server.fetchNotionPageContent fuel e pageId)))
  /\
  follows e pageId None (snd (run (Part000B.fetchNotionPageContent fuel e pageId))).
Proof.
  destruct (list_children_follows fuel e pageId None [] [])
    as (evs & Hsnd & Hfollows). simpl app in Hsnd.
  split.
  - unfold run, Server.fetchNotionPageContent.
    destruct (Server.notion e); cbv [negb]; cbv iota; [|exact I].
    unfold try_catch, bind. cbv beta.
    destruct (Server.list_children fuel e pageId None [] [])
      as [[blocks|err|] tr]; simpl in Hsnd |- *; now subst tr.
  - unfold run, Part000B.fetchNotionPageContent.
    rewrite part000_list_children. unfold try_catch, bind, lift. cbv beta.
    destruct (Server.list_children fuel e pageId None [] [])
      as [[blocks|err|] tr]; simpl in Hsnd |- *; subst tr; try exact Hfollows.
    destruct (Part000B.extractTextFromBlocks blocks); exact Hfollows.
Qed.

Lemma list_children_endless e pageId :
  (forall cursor, exists r,
      notion_list e pageId cursor 100 = inl r /\
      JS.truthy (next_cursor r) = true) ->
  forall fuel cursor acc tr,
    exists evs,
      Server.list_children fuel e pageId cursor acc tr
      = (OutOfFuel, (tr ++ evs)%list) /\
      length evs = fuel.
Proof.
  intros Hendless. induction fuel as [|fuel IH]; intros cursor acc tr.
  - exists []. simpl. now rewrite app_nil_r.
  - destruct (Hendless cursor) as (r & Hcall & Htruthy).
    cbn [Server.list_children]. unfold bind, call. rewrite Hcall, Htruthy.
    destruct (IH (next_cursor r) (acc ++ results r)%list
                 (tr ++ [NotionList pageId cursor 100])%list)
      as (evs & -> & Hlen).
    exists (NotionList pageId cursor 100 :: evs).
    rewrite <- app_assoc. simpl. now rewrite Hlen.
Qed.

(** X2. The loop has no cap: against a store whose every response carries a
    continuation token, the extractor of either revision never returns; with
    any bound on the iterations it is still running after that many list
    calls. *)
Theorem endless_store_never_returns (e : env) (pageId : string) (fuel : nat) :
  Server.notion e = true ->
  (forall cursor, exists r,
      notion_list e pageId cursor 100 = inl r /\
      JS.truthy (next_cursor r) = true) ->
  fst (run (Server.fetchNotionPageContent fuel e pageId)) = OutOfFuel /\
  length (snd (run (Server.fetchNotionPageContent fuel e pageId))) = fuel /\
  fst (run (Part000B.fetchNotionPageContent fuel e pageId)) = OutOfFuel /\
  length (snd (run (Part000B.fetchNotionPageContent fuel e pageId))) = fuel.
Proof.
  intros Hn Hendless.
  destruct (list_children_endless e pageId Hendless fuel None [] [])
    as (evs & Hrun & Hlen). simpl app in Hrun.
  unfold run, Server.fetchNotionPageContent, Part000B.fetchNotionPageContent.
  rewrite part000_list_children, Hn. unfold try_catch, bind.
  cbv beta iota delta [negb]. rewrite Hrun. simpl. auto.
Qed.

Lemma part000_forEach_bare (blocks : list block) :
  forall acc,
    forallb Policy.well_formed blocks = false ->
    Part000B.forEach blocks acc
    = inr (JS.TypeError "Cannot read properties of undefined (reading 'length')").
Proof.
  induction blocks as [|b blocks IH]; intros acc H; [discriminate H|].
  cbn [forallb] in H. cbn [Part000B.forEach].
  destruct (Policy.well_formed b) eqn:Hb.
  - rewrite (part000_visit_block _ _ Hb). apply IH. exact H.
  - unfold Policy.well_formed in Hb. unfold Part000B.visit_block.
    destruct (type b =? "paragraph"); [|discriminate Hb].
    destruct (rich_text b); [discriminate Hb | reflexivity].
Qed.

(** X3. In the second file of part_000, a paragraph without a [rich_text]
    array anywhere on the page makes the extraction throw after all pages
    have been retrieved, and the failure is reported as a fetch failure; the
    extractor of [server.js] skips such a block and returns the text. *)
Theorem bare_paragraph_reported_as_fetch_failure
    (e : env) (pageId : string) (pages : list list_response) (fuel : nat) :
  serves e pageId None pages ->
  length pages <= fuel ->
  forallb Policy.well_formed (all_blocks pages) = false ->
  run (Part000B.fetchNotionPageContent fuel e pageId)
  = (Throw (JS.Error
       "Failed to fetch content from Notion page: Cannot read properties of undefined (reading 'length')"),
     requests pageId None pages) /\
  (Server.notion e = true ->
   fst (run (Server.fetchNotionPageContent fuel e pageId))
   = Done (Server.content_of_blocks (all_blocks pages))).
Proof.
  intros Hs Hf Hbare. split.
  - rewrite (part000_fetch_serves e pageId pages fuel Hs Hf).
    unfold Part000B.extractTextFromBlocks.
    now rewrite (part000_forEach_bare _ "" Hbare).
  - intros Hn. rewrite (server_fetch_serves e pageId pages fuel Hn Hs Hf).
    simpl. now rewrite server_content_of_blocks.
Qed.

Lemma plain_block_contribution (b : block) :
  plain_block b = true ->
  Policy.well_formed b = true /\
  Policy.server_contribution b = Policy.part000_contribution b.
Proof.
  unfold plain_block, Policy.well_formed, Policy.server_contribution,
    Policy.part000_contribution, Policy.recognized.
  destruct (type b =? "paragraph") eqn:Hp.
  - destruct (rich_text b) as [[|t [|t' l]]|]; try discriminate.
    + intros _. split; reflexivity.
    + intros Ht. split; [reflexivity|]. simpl.
      unfold Policy.server_line, Policy.plain. rewrite Ht. simpl.
      destruct (plain_text t); [reflexivity | discriminate Ht].
  - simpl. intros H. apply negb_true_iff in H. rewrite H. auto.
Qed.

(** X4. On a page made of paragraphs with at most one item of non-empty text
    and of blocks that are neither paragraphs nor headings, the extractor of
    the second file of part_000 returns exactly the text the extractor of
    [server.js] returns. *)
Theorem extractors_agree_on_plain_pages (blocks : list block) :
  forallb plain_block blocks = true ->
  Part000B.extractTextFromBlocks blocks = inl (Server.content_of_blocks blocks).
Proof.
  intros Hplain.
  assert (Hall : forall b, In b blocks ->
            Policy.well_formed b = true /\
            Policy.server_contribution b = Policy.part000_contribution b).
  { intros b Hin. apply plain_block_contribution.
    rewrite forallb_forall in Hplain. auto. }
  rewrite part000_extract, server_content_of_blocks.
  - f_equal. f_equal. apply map_ext_in. intros b Hin.
    symmetry. now apply Hall.
  - apply forallb_forall. intros b Hin. now apply Hall.
Qed.

(* ===================================================================== *)
(** ** Further properties of the route of server.js *)
(* ===================================================================== *)

Lemma server_blank_some (v : option string) :
  Server.blank v = false -> v = Some (to_string v) /\ Server.blank (Some (to_string v)) = false.
Proof. destruct v as [c|]; [auto | discriminate]. Qed.

(** Every run of the route, case by case: list calls only, possibly followed
    by the generator call, possibly followed by the append. *)
Lemma server_route_shape fuel e req :
  let r := run (Server.process_notion_content fuel e req) in
  let pageId := to_string (notionPageId req) in
  exists lists,
    forallb is_list lists = true /\
    ((snd r = lists /\
      (fst r = OutOfFuel \/
       exists reply, fst r = Done reply /\ (status reply = 400 \/ status reply = 500)))
     \/
     exists p c,
       Server.build_prompt (action req) c = Some p /\
       Server.blank (Some c) = false /\
       ((exists cause,
           generateContent e p = inr cause /\
           r = (Done (Server.failed cause), (lists ++ [Generate p])%list))
        \/
        (exists g cause,
           generateContent e p = inl g /\
           notion_append e pageId [ParagraphBlock g false] = inr cause /\
           r = (Done (Server.failed
                        (JS.Error ("Failed to append content to Notion: "
                                   ++ JS.message cause))),
                (lists ++ [Generate p; NotionAppend pageId [ParagraphBlock g false]])%list))
        \/
        (exists g,
           generateContent e p = inl g /\
           notion_append e pageId [ParagraphBlock g false] = inl tt /\
           r = (Done (json 200
                        [("message", JString "Content processed and appended to Notion.");
                         ("geminiResponse", JString g)]),
                (lists ++ [Generate p; NotionAppend pageId [ParagraphBlock g false]])%list)))).
Proof.
  intros r pageId. subst r.
  assert (Hproc : forall c tr,
            Server.notion e = true ->
            forallb is_list tr = true ->
            Server.blank (Some c) = false ->
            let r := settle Server.failed
                       (Server.process e pageId (action req) c tr) in
            (snd r = tr /\
             (fst r = OutOfFuel \/
              exists reply, fst r = Done reply /\
                            (status reply = 400 \/ status reply = 500)))
            \/
            exists p c',
              Server.build_prompt (action req) c' = Some p /\
              Server.blank (Some c') = false /\
              ((exists cause,
                  generateContent e p = inr cause /\
                  r = (Done (Server.failed cause), (tr ++ [Generate p])%list))
               \/
               (exists g cause,
                  generateContent e p = inl g /\
                  notion_append e pageId [ParagraphBlock g false] = inr cause /\
                  r = (Done (Server.failed
                               (JS.Error ("Failed to append content to Notion: "
                                          ++ JS.message cause))),
                       (tr ++ [Generate p; NotionAppend pageId [ParagraphBlock g false]])%list))
               \/
               (exists g,
                  generateContent e p = inl g /\
                  notion_append e pageId [ParagraphBlock g false] = inl tt /\
                  r = (Done (json 200
                               [("message", JString "Content processed and appended to Notion.");
                                ("geminiResponse", JString g)]),
                       (tr ++ [Generate p; NotionAppend pageId [ParagraphBlock g false]])%list)))).
  { intros c tr Hn Htr Hc r.
    destruct (server_process_cases e pageId (action req) c tr Hn)
      as [(Hp & Hrun) | [(p & cause & Hp & Hg & Hrun) |
          [(p & g & cause & Hp & Hg & Ha & Hrun) | (p & g & Hp & Hg & Ha & Hrun)]]];
      subst r; rewrite Hrun; cbn [settle].
    - left. split; [reflexivity|]. right. exists Server.invalid_action. auto.
    - right. exists p, c. repeat split; auto. left. exists cause. auto.
    - right. exists p, c. repeat split; auto. right. left. exists g, cause. auto.
    - right. exists p, c. repeat split; auto. right. right. exists g. auto. }
  destruct (JS.truthy (notionPageId req)) eqn:Hid.
  2:{ exists []. split; [reflexivity|]. left.
      unfold run, Server.process_notion_content. rewrite Hid.
      split; [reflexivity|]. right. eexists. split; [reflexivity | auto]. }
  destruct (Server.model e) eqn:Hm.
  2:{ exists []. split; [reflexivity|]. left.
      unfold run, Server.process_notion_content. rewrite Hid, Hm.
      split; [reflexivity|]. right. eexists. split; [reflexivity | auto]. }
  destruct (Server.notion e) eqn:Hn.
  2:{ exists []. split; [reflexivity|]. left.
      unfold run, Server.process_notion_content. rewrite Hid, Hm, Hn.
      split; [reflexivity|]. right. eexists. split; [reflexivity | auto]. }
  destruct (Server.blank (content req)) eqn:Hb.
  - rewrite (server_route_fetched fuel e req Hid Hm Hn Hb).
    destruct (server_fetch_trace fuel e pageId Hn) as (evs & Hsnd & Hall & _).
    fold pageId.
    destruct (run (Server.fetchNotionPageContent fuel e pageId))
      as [[text|error|] tr]; simpl in Hsnd; subst evs; exists tr;
      (split; [exact Hall|]).
    + destruct (Server.blank (Some text)) eqn:Htext.
      * left. split; [reflexivity|]. right.
        exists Server.no_readable_content. auto.
      * exact (Hproc text tr eq_refl Hall Htext).
    + left. split; [reflexivity|]. right. exists (Server.failed error). auto.
    + left. split; [reflexivity|]. left. reflexivity.
  - rewrite (server_route_direct fuel e req Hid Hm Hn Hb). fold pageId.
    exists []. split; [reflexivity|].
    destruct (server_blank_some _ Hb) as [_ Hc].
    exact (Hproc (to_string (content req)) [] eq_refl eq_refl Hc).
Qed.

(** X5. The route of [server.js] lets no exception escape: whatever the
    services do, a run ends with a reply whose status is 200, 400 or 500
    (or, with content to extract, is still listing pages); with non-blank
    content in the request it always replies. *)
Theorem server_route_always_replies (fuel : nat) (e : env) (req : request) :
  (forall error,
     fst (run (Server.process_notion_content fuel e req)) <> Throw error) /\
  (forall reply,
     fst (run (Server.process_notion_content fuel e req)) = Done reply ->
     status reply = 200 \/ status reply = 400 \/ status reply = 500) /\
  (Server.blank (content req) = false ->
   exists reply,
     fst (run (Server.process_notion_content fuel e req)) = Done reply).
Proof.
  destruct (server_route_shape fuel e req) as (lists & Hall & Hshape).
  cbv zeta in Hshape.
  assert (Hcases :
            fst (run (Server.process_notion_content fuel e req)) = OutOfFuel /\
            lists = snd (run (Server.process_notion_content fuel e req)) \/
            exists reply,
              fst (run (Server.process_notion_content fuel e req)) = Done reply /\
              (status reply = 200 \/ status reply = 400 \/ status reply = 500)).
  { destruct Hshape as [(Hsnd & [Hfuel | (reply & Hr & Hs)]) |
                        (p & c & _ & _ & [(cause & _ & Hr) |
                           [(g & cause & _ & _ & Hr) | (g & _ & _ & Hr)]])];
      try rewrite Hr; simpl; eauto 6. }
  split; [|split].
  - intros error Herr.
    destruct Hcases as [(H & _) | (reply & H & _)]; rewrite H in Herr; discriminate.
  - intros reply Hreply.
    destruct Hcases as [(H & _) | (reply' & H & Hs)]; rewrite H in Hreply;
      [discriminate | now inversion Hreply; subst].
  - intros Hb.
    destruct Hcases as [(H & _) | (reply & H & _)]; [|eauto].
    exfalso. revert H. unfold run, Server.process_notion_content.
    destruct (JS.truthy (notionPageId req)); [|discriminate].
    destruct (Server.model e); [|discriminate].
    destruct (Server.notion e) eqn:Hn; [|discriminate].
    rewrite Hb. cbv [negb]. cbv iota. unfold try_catch.
    destruct (server_process_cases e (to_string (notionPageId req)) (action req)
                (to_string (content req)) [] Hn)
      as [(_ & ->) | [(p & cause & _ & _ & ->) |
          [(p & g & cause & _ & _ & _ & ->) | (p & g & _ & _ & _ & ->)]]];
      discriminate.
Qed.

Lemma calls_only_lists kind (lists : trace) :
  forallb is_list lists = true ->
  (forall ev, kind ev = true -> is_list ev = false) ->
  calls kind lists = [].
Proof.
  intros Hall Hkind. induction lists as [|ev lists IH]; [reflexivity|].
  simpl in Hall. apply andb_true_iff in Hall. destruct Hall as [Hev Hall].
  simpl. destruct (kind ev) eqn:Hk; [|auto].
  rewrite (Hkind ev Hk) in Hev. discriminate.
Qed.

Lemma generate_not_list ev : is_generate ev = true -> is_list ev = false.
Proof. now destruct ev. Qed.

Lemma append_not_list ev : is_append ev = true -> is_list ev = false.
Proof. now destruct ev. Qed.

(** X6. A request to [server.js] calls the generator at most once and
    appends at most once; an append is always the last call, directly after
    the generator call, addressed to the request's page id, and made of one
    plain paragraph that holds exactly what the generator returned. *)
Theorem server_generates_and_appends_once (fuel : nat) (e : env) (req : request) :
  length (calls is_generate
            (snd (run (Server.process_notion_content fuel e req)))) <= 1 /\
  length (calls is_append
            (snd (run (Server.process_notion_content fuel e req)))) <= 1 /\
  (forall block_id children,
     In (NotionAppend block_id children)
        (snd (run (Server.process_notion_content fuel e req))) ->
     exists lists p g,
       snd (run (Server.process_notion_content fuel e req))
       = (lists ++ [Generate p; NotionAppend block_id children])%list /\
       forallb is_list lists = true /\
       block_id = to_string (notionPageId req) /\
       generateContent e p = inl g /\
       children = [ParagraphBlock g false]).
Proof.
  destruct (server_route_shape fuel e req) as (lists & Hall & Hshape).
  cbv zeta in Hshape.
  pose proof (calls_only_lists is_generate lists Hall generate_not_list) as Hg0.
  pose proof (calls_only_lists is_append lists Hall append_not_list) as Ha0.
  destruct (only_list_calls _ Hall) as (_ & _ & Hin).
  destruct Hshape as [(Hsnd & _) |
                      (p & c & _ & _ & [(cause & _ & Hr) |
                         [(g & cause & Hg & _ & Hr) | (g & Hg & _ & Hr)]])];
    try rewrite Hr; try rewrite Hsnd; cbn [snd]; rewrite ?calls_app, ?Hg0, ?Ha0;
    (split; [simpl; lia|]); (split; [simpl; lia|]);
    intros block_id children Hev.
  - apply Hin in Hev. discriminate.
  - apply in_app_or in Hev. destruct Hev as [Hev | [Hev | []]];
      [apply Hin in Hev|]; discriminate.
  - apply in_app_or in Hev. destruct Hev as [Hev | [Hev | [Hev | []]]];
      [apply Hin in Hev; discriminate | discriminate |].
    inversion Hev; subst. exists lists, p, g. auto.
  - apply in_app_or in Hev. destruct Hev as [Hev | [Hev | [Hev | []]]];
      [apply Hin in Hev; discriminate | discriminate |].
    inversion Hev; subst. exists lists, p, g. auto.
Qed.

(** X7. [server.js] replies 200 only after the generator returned a text and
    the append of that text to the request's page succeeded; the reply then
    carries that text as [geminiResponse]. *)
Theorem server_success_means_appended
    (fuel : nat) (e : env) (req : request) (reply : response) :
  fst (run (Server.process_notion_content fuel e req)) = Done reply ->
  status reply = 200 ->
  exists lists p g,
    forallb is_list lists = true /\
    snd (run (Server.process_notion_content fuel e req))
    = (lists ++ [Generate p;
                 NotionAppend (to_string (notionPageId req))
                              [ParagraphBlock g false]])%list /\
    generateContent e p = inl g /\
    notion_append e (to_string (notionPageId req)) [ParagraphBlock g false]
    = inl tt /\
    body reply = [("message", JString "Content processed and appended to Notion.");
                  ("geminiResponse", JString g)].
Proof.
  intros Hreply Hstatus.
  destruct (server_route_shape fuel e req) as (lists & Hall & Hshape).
  cbv zeta in Hshape.
  destruct Hshape as [(Hsnd & [Hfuel | (reply' & Hr & Hs)]) |
                      (p & c & _ & _ & [(cause & _ & Hr) |
                         [(g & cause & _ & _ & Hr) | (g & Hg & Ha & Hr)]])].
  - rewrite Hfuel in Hreply. discriminate.
  - rewrite Hr in Hreply. inversion Hreply; subst reply'.
    destruct Hs as [Hs|Hs]; rewrite Hs in Hstatus; discriminate.
  - rewrite Hr in Hreply. inversion Hreply; subst reply. discriminate Hstatus.
  - rewrite Hr in Hreply. inversion Hreply; subst reply. discriminate Hstatus.
  - rewrite Hr in Hreply |- *. inversion Hreply; subst reply.
    exists lists, p, g. auto.
Qed.

(** X9. When the content has to be extracted and a list call throws, the
    route of [server.js] replies 500 with the cause under both wrappers and
    calls neither the generator nor the append. *)
Theorem server_extraction_failure
    (fuel : nat) (e : env) (req : request)
    (pages : list list_response) (cause : JS.error) :
  JS.truthy (notionPageId req) = true ->
  Server.model e = true ->
  Server.notion e = true ->
  Server.blank (content req) = true ->
  fails_after e (to_string (notionPageId req)) None pages cause ->
  length pages < fuel ->
  fst (run (Server.process_notion_content fuel e req))
  = Done (json 500
            [("error", JString
                ("Failed to process request: Failed to fetch content from Notion page: "
                 ++ JS.message cause))]) /\
  calls is_generate (snd (run (Server.process_notion_content fuel e req))) = [] /\
  calls is_append (snd (run (Server.process_notion_content fuel e req))) = [].
Proof.
  intros Hid Hm Hn Hb Hfails Hfuel.
  rewrite (server_route_fetched fuel e req Hid Hm Hn Hb).
  pose proof (server_fetch_fails e _ pages cause fuel Hn Hfails Hfuel) as Hthrow.
  destruct (server_fetch_trace fuel e (to_string (notionPageId req)) Hn)
    as (evs & Hsnd & Hall & _).
  destruct (run (Server.fetchNotionPageContent fuel e
                   (to_string (notionPageId req)))) as [o tr].
  simpl in Hthrow, Hsnd. subst o evs.
  destruct (only_list_calls _ Hall) as (Hg & Ha & _).
  repeat split; auto.
Qed.

Lemma trim_all_ws (s : string) : all_ws s = true -> JS.trim s = "".
Proof.
  unfold JS.trim. induction s as [|c s IH]; [reflexivity|].
  simpl. intros H. apply andb_true_iff in H. destruct H as [Hc Hs].
  rewrite Hc. auto.
Qed.

Lemma trimEnd_empty_all_ws (s : string) : JS.trimEnd s = "" -> all_ws s = true.
Proof.
  induction s as [|c s IH]; [reflexivity|]. simpl.
  destruct (JS.trimEnd s) eqn:E; [|discriminate].
  destruct (JS.is_ws c); [intros _; auto | discriminate].
Qed.

Lemma trim_empty_all_ws (s : string) : JS.trim s = "" -> all_ws s = true.
Proof.
  unfold JS.trim. induction s as [|c s IH]; [reflexivity|].
  simpl. destruct (JS.is_ws c) eqn:Hc; [exact IH|].
  intros H. apply trimEnd_empty_all_ws in H. simpl in H.
  rewrite Hc in H. discriminate.
Qed.

(** X10. The route of [server.js] treats a [content] made of white space only
    exactly like an absent one: the blank test holds precisely for the
    strings made of white space, and the whole run is then the run of the
    same request without [content]. *)
Theorem whitespace_content_is_absent
    (fuel : nat) (e : env) (s : string) (a pageId : option string) :
  Server.blank (Some s) = all_ws s /\
  (all_ws s = true ->
   run (Server.process_notion_content fuel e (mkRequest (Some s) a pageId))
   = run (Server.process_notion_content fuel e (mkRequest None a pageId))).
Proof.
  assert (Hblank : Server.blank (Some s) = all_ws s).
  { unfold Server.blank. simpl to_string.
    destruct (all_ws s) eqn:Hws.
    - rewrite (trim_all_ws s Hws). apply orb_true_r.
    - apply orb_false_iff. split.
      + destruct s; [discriminate Hws | reflexivity].
      + apply String.eqb_neq. intros H.
        apply trim_empty_all_ws in H. congruence. }
  split; [exact Hblank|]. intros Hws.
  unfold run, Server.process_notion_content. cbn [content action notionPageId].
  rewrite Hblank, Hws. reflexivity.
Qed.

(* ===================================================================== *)
(** ** Further properties of the route of the first file of part_000 *)
(* ===================================================================== *)

(** Every run of the route, case by case: at most the fetch of the URL,
    then at most the generator call, then at most the append. *)
Lemma part000A_route_shape e req :
  let r := run (Part000A.process_notion_content e req) in
  let pageId := to_string (notionPageId req) in
  exists pre,
    (pre = [] \/
     (Part000A.is_url (content req) = true /\
      pre = [Fetch (Part000A.proxyUrl (to_string (content req)))])) /\
    (Part000A.is_url (content req) = false -> pre = []) /\
    ((snd r = pre /\
      exists reply, fst r = Done reply /\ (status reply = 400 \/ status reply = 500))
     \/
     exists p src,
       Part000A.build_prompt (action req) (content req)
         (JS.substring0 Part000A.cap src) = inl p /\
       Part000A.blank (Some src) = false /\
       ((exists cause,
           generateContent e p = inr cause /\
           r = (Done (Part000A.unexpected cause), (pre ++ [Generate p])%list))
        \/
        (exists g,
           generateContent e p = inl g /\
           JS.truthy (notionPageId req) = false /\
           r = (Done (Part000A.succeeded g false), (pre ++ [Generate p])%list))
        \/
        (exists g err,
           generateContent e p = inl g /\
           JS.truthy (notionPageId req) = true /\
           Part000A.notionBlocks (action req) g = inr err /\
           r = (Done (Part000A.unexpected err), (pre ++ [Generate p])%list))
        \/
        (exists g children cause,
           generateContent e p = inl g /\
           JS.truthy (notionPageId req) = true /\
           Part000A.notionBlocks (action req) g = inl children /\
           notion_append e pageId children = inr cause /\
           r = (Done (Part000A.unexpected cause),
                (pre ++ [Generate p; NotionAppend pageId children])%list))
        \/
        (exists g children,
           generateContent e p = inl g /\
           JS.truthy (notionPageId req) = true /\
           Part000A.notionBlocks (action req) g = inl children /\
           notion_append e pageId children = inl tt /\
           r = (Done (Part000A.succeeded g true),
                (pre ++ [Generate p; NotionAppend pageId children])%list)))).
Proof.
  intros r pageId. subst r.
  assert (Hproc : forall src tr,
            let r := settle Part000A.unexpected
                       (Part000A.check_and_process e req src tr) in
            (snd r = tr /\
             exists reply, fst r = Done reply /\
                           (status reply = 400 \/ status reply = 500))
            \/
            exists p src',
              Part000A.build_prompt (action req) (content req)
                (JS.substring0 Part000A.cap src') = inl p /\
              Part000A.blank (Some src') = false /\
              ((exists cause,
                  generateContent e p = inr cause /\
                  r = (Done (Part000A.unexpected cause), (tr ++ [Generate p])%list))
               \/
               (exists g,
                  generateContent e p = inl g /\
                  JS.truthy (notionPageId req) = false /\
                  r = (Done (Part000A.succeeded g false), (tr ++ [Generate p])%list))
               \/
               (exists g err,
                  generateContent e p = inl g /\
                  JS.truthy (notionPageId req) = true /\
                  Part000A.notionBlocks (action req) g = inr err /\
                  r = (Done (Part000A.unexpected err), (tr ++ [Generate p])%list))
               \/
               (exists g children cause,
                  generateContent e p = inl g /\
                  JS.truthy (notionPageId req) = true /\
                  Part000A.notionBlocks (action req) g = inl children /\
                  notion_append e pageId children = inr cause /\
                  r = (Done (Part000A.unexpected cause),
                       (tr ++ [Generate p; NotionAppend pageId children])%list))
               \/
               (exists g children,
                  generateContent e p = inl g /\
                  JS.truthy (notionPageId req) = true /\
                  Part000A.notionBlocks (action req) g = inl children /\
                  notion_append e pageId children = inl tt /\
                  r = (Done (Part000A.succeeded g true),
                       (tr ++ [Generate p; NotionAppend pageId children])%list)))).
  { intros src tr r. subst r. unfold Part000A.check_and_process.
    destruct (Part000A.blank src) eqn:Hb.
    { left. split; [reflexivity|]. eexists. split; [reflexivity | auto]. }
    assert (Hsrc : Part000A.blank (Some (to_string src)) = false)
      by (destruct src; [exact Hb | discriminate Hb]).
    destruct (part000A_process_cases e req (to_string src) tr)
      as [(err & Hp & Hrun) | [(p & cause & Hp & Hg & Hrun) |
          [(p & g & Hp & Hg & Hid & Hrun) |
          [(p & g & err & Hp & Hg & Hid & Hc & Hrun) |
          [(p & g & ch & cause & Hp & Hg & Hid & Hc & Ha & Hrun) |
           (p & g & ch & Hp & Hg & Hid & Hc & Ha & Hrun)]]]]];
      rewrite Hrun; cbn [settle].
    - left. split; [reflexivity|]. eexists. split; [reflexivity | auto].
    - right. exists p, (to_string src). repeat split; auto.
      left. exists cause. auto.
    - right. exists p, (to_string src). repeat split; auto.
      right. left. exists g. auto.
    - right. exists p, (to_string src). repeat split; auto.
      right. right. left. exists g, err. auto.
    - right. exists p, (to_string src). repeat split; auto.
      right. right. right. left. exists g, ch, cause. auto.
    - right. exists p, (to_string src). repeat split; auto.
      right. right. right. right. exists g, ch. auto. }
  destruct (JS.truthy (NOTION_API_KEY e) && JS.truthy (GEMINI_API_KEY e))
    eqn:Hkeys.
  2:{ rewrite (part000A_route_unconfigured e req Hkeys).
      exists []. split; [left; reflexivity|].
      split; [reflexivity|]. left. split; [reflexivity|].
      eexists. split; [reflexivity | auto]. }
  apply andb_true_iff in Hkeys. destruct Hkeys as [Hk1 Hk2].
  destruct (Part000A.is_url (content req)) eqn:Hurl.
  - destruct (content req) as [url|] eqn:Hc; [|discriminate Hurl].
    rewrite (part000A_route_url e req url Hc Hurl Hk1 Hk2).
    exists [Fetch (Part000A.proxyUrl url)].
    split; [right; split; reflexivity|]. split; [discriminate|].
    destruct (fetch_url_run e url) as [(body & H)|(err & H)]; rewrite H.
    + exact (Hproc (Some body) [Fetch (Part000A.proxyUrl url)]).
    + left. split; [reflexivity|]. eexists. split; [reflexivity | auto].
  - rewrite (part000A_route_plain e req Hurl Hk1 Hk2).
    exists []. split; [left; reflexivity|].
    split; [reflexivity|].
    exact (Hproc (content req) []).
Qed.

Ltac part000A_cases e req :=
  let pre := fresh "pre" in
  let Hpre := fresh "Hpre" in
  let Hplain := fresh "Hplain" in
  let Hshape := fresh "Hshape" in
  destruct (part000A_route_shape e req) as (pre & Hpre & Hplain & Hshape);
  cbv zeta in Hshape;
  destruct Hshape as
    [(?Hsnd & ?reply & ?Hr & ?Hs) |
     (?p & ?src & ?Hp & ?Hsrc &
      [(?cause & ?Hg & ?Hr) |
       [(?g & ?Hg & ?Hid & ?Hr) |
        [(?g & ?err & ?Hg & ?Hid & ?Hc & ?Hr) |
         [(?g & ?ch & ?cause & ?Hg & ?Hid & ?Hc & ?Ha & ?Hr) |
          (?g & ?ch & ?Hg & ?Hid & ?Hc & ?Ha & ?Hr)]]]])].

Lemma part000A_trace_form e req :
  exists pre mid,
    snd (run (Part000A.process_notion_content e req)) = (pre ++ mid)%list /\
    (pre = [] \/
     (Part000A.is_url (content req) = true /\
      pre = [Fetch (Part000A.proxyUrl (to_string (content req)))])) /\
    (Part000A.is_url (content req) = false -> pre = []) /\
    (mid = [] \/
     (exists p, mid = [Generate p]) \/
     (exists p children,
        mid = [Generate p;
               NotionAppend (to_string (notionPageId req)) children])).
Proof.
  part000A_cases e req; exists pre;
    try (rewrite Hr; cbn [snd]; eexists; split; [reflexivity|]; eauto 8).
  exists []. rewrite app_nil_r. auto.
Qed.

(** X11. A request to the first file of part_000 never lists the blocks of a
    page, and makes at most one fetch, one generator call and one append, in
    that order; a fetch is made only for a [content] that is a URL, it comes
    first and goes to the proxy address built from that URL. *)
Theorem part000A_calls_once (e : env) (req : request) :
  let tr := snd (run (Part000A.process_notion_content e req)) in
  calls is_list tr = [] /\
  length (calls is_fetch tr) <= 1 /\
  length (calls is_generate tr) <= 1 /\
  length (calls is_append tr) <= 1 /\
  (Part000A.is_url (content req) = false -> calls is_fetch tr = []) /\
  (forall url,
     In (Fetch url) tr ->
     hd_error tr = Some (Fetch url) /\
     url = "https://api.allorigins.win/raw?url="
           ++ JS.encodeURIComponent (to_string (content req))) /\
  (forall block_id children,
     In (NotionAppend block_id children) tr ->
     exists before p,
       tr = (before ++ [Generate p; NotionAppend block_id children])%list).
Proof.
  cbv zeta.
  destruct (part000A_trace_form e req) as (pre & mid & -> & Hpre & Hplain & Hmid).
  assert (Hfetch : Part000A.is_url (content req) = false ->
                   calls is_fetch (pre ++ mid)%list = []).
  { intros Hu. rewrite (Hplain Hu).
    destruct Hmid as [-> | [(p & ->) | (p & ch & ->)]]; reflexivity. }
  split; [|split; [|split; [|split; [|split; [exact Hfetch|split]]]]].
  - destruct Hpre as [-> | (_ & ->)];
      destruct Hmid as [-> | [(p & ->) | (p & ch & ->)]]; reflexivity.
  - destruct Hpre as [-> | (_ & ->)];
      destruct Hmid as [-> | [(p & ->) | (p & ch & ->)]]; simpl; lia.
  - destruct Hpre as [-> | (_ & ->)];
      destruct Hmid as [-> | [(p & ->) | (p & ch & ->)]]; simpl; lia.
  - destruct Hpre as [-> | (_ & ->)];
      destruct Hmid as [-> | [(p & ->) | (p & ch & ->)]]; simpl; lia.
  - intros url Hin.
    destruct Hpre as [-> | (_ & ->)];
      destruct Hmid as [-> | [(p & ->) | (p & ch & ->)]]; simpl in Hin;
      repeat (destruct Hin as [Hin | Hin];
              [try discriminate Hin; inversion Hin; subst; split; reflexivity|]);
      destruct Hin.
  - intros block_id children Hin.
    destruct Hpre as [-> | (_ & ->)];
      destruct Hmid as [-> | [(p & ->) | (p & ch & ->)]]; simpl in Hin;
      repeat (destruct Hin as [Hin | Hin];
              [try discriminate Hin; inversion Hin; subst;
               eexists; exists p; reflexivity|]);
      try destruct Hin.
Qed.

Lemma part000A_generate_in (req : request) (pre rest : trace) (p q : string) :
  pre = [] \/
  (Part000A.is_url (content req) = true /\
   pre = [Fetch (Part000A.proxyUrl (to_string (content req)))]) ->
  forallb (fun ev => negb (is_generate ev)) rest = true ->
  In (Generate q) (pre ++ Generate p :: rest)%list -> q = p.
Proof.
  intros Hpre Hrest Hin.
  assert (Hin' : In (Generate q) (Generate p :: rest)).
  { destruct Hpre as [-> | (_ & ->)]; [exact Hin|].
    destruct Hin as [Hin | Hin]; [discriminate Hin | exact Hin]. }
  destruct Hin' as [Heq | Hin']; [now inversion Heq|].
  rewrite forallb_forall in Hrest. specialize (Hrest _ Hin'). discriminate.
Qed.

Lemma part000A_no_generate (req : request) (pre : trace) (q : string) :
  pre = [] \/
  (Part000A.is_url (content req) = true /\
   pre = [Fetch (Part000A.proxyUrl (to_string (content req)))]) ->
  ~ In (Generate q) pre.
Proof.
  intros [-> | (_ & ->)] Hin; [destruct Hin|].
  destruct Hin as [Hin | []]. discriminate.
Qed.

Lemma part000A_prefix_appends (req : request) (pre rest : trace) :
  pre = [] \/
  (Part000A.is_url (content req) = true /\
   pre = [Fetch (Part000A.proxyUrl (to_string (content req)))]) ->
  calls is_append (pre ++ rest)%list = calls is_append rest.
Proof. intros [-> | (_ & ->)]; reflexivity. Qed.

(** X13. Without a page id the first file of part_000 never appends: once the
    generator has returned a text, the reply is 200 and carries that text as
    [output]. *)
Theorem part000A_no_page_no_append (e : env) (req : request) :
  JS.truthy (notionPageId req) = false ->
  calls is_append (snd (run (Part000A.process_notion_content e req))) = [] /\
  forall p g,
    In (Generate p) (snd (run (Part000A.process_notion_content e req))) ->
    generateContent e p = inl g ->
    fst (run (Part000A.process_notion_content e req))
    = Done (json 200 [("success", JBool true);
                      ("message", JString "Content processed!");
                      ("output", JString g)]).
Proof.
  intros Hnone.
  part000A_cases e req; try congruence;
    try rewrite Hr; try rewrite Hsnd; cbn [fst snd].
  - split; [destruct Hpre as [-> | (_ & ->)]; reflexivity|].
    intros q g Hin _. now apply (part000A_no_generate req pre q Hpre) in Hin.
  - split; [now rewrite (part000A_prefix_appends req pre _ Hpre)|].
    intros q g Hin Hq.
    apply (part000A_generate_in req pre [] p q Hpre eq_refl) in Hin.
    subst q. congruence.
  - split; [now rewrite (part000A_prefix_appends req pre _ Hpre)|].
    intros q g' Hin Hq.
    apply (part000A_generate_in req pre [] p q Hpre eq_refl) in Hin.
    subst q. rewrite Hg in Hq. inversion Hq; subst g'. reflexivity.
Qed.

(** X14. In the first file of part_000, a request with a page id but without
    an action reaches the generator with the general-overview prompt, and
    fails only afterwards, while the blocks to append are built: the reply
    is 500 and nothing is appended. *)
Theorem part000A_missing_action_fails_late
    (e : env) (req : request) (p g : string) :
  action req = None ->
  JS.truthy (notionPageId req) = true ->
  In (Generate p) (snd (run (Part000A.process_notion_content e req))) ->
  generateContent e p = inl g ->
  fst (run (Part000A.process_notion_content e req))
  = Done (json 500
            [("error", JString
                "An unexpected error occurred during AI processing or Notion interaction.");
             ("details", JString
                "Cannot read properties of undefined (reading 'replace')")]) /\
  calls is_append (snd (run (Part000A.process_notion_content e req))) = [] /\
  exists text,
    p = "Analyze the following text and provide a general overview. Format using Notion-compatible markdown: "
        ++ text.
Proof.
  intros Haction Hid' Hin Hgen.
  assert (Hfallback : forall q text,
            Part000A.build_prompt (action req) (content req) text = inl q ->
            q = "Analyze the following text and provide a general overview. Format using Notion-compatible markdown: "
                ++ text).
  { intros q text. rewrite Haction. unfold Part000A.build_prompt. simpl.
    intros H. now inversion H. }
  part000A_cases e req; try congruence;
    try rewrite Hr in *; try rewrite Hsnd in *; cbn [fst snd] in *.
  - now apply (part000A_no_generate req pre p Hpre) in Hin.
  - apply (part000A_generate_in req pre [] p0 p Hpre eq_refl) in Hin.
    subst p0. congruence.
  - apply (part000A_generate_in req pre [] p0 p Hpre eq_refl) in Hin.
    subst p0. rewrite Haction in Hc. simpl in Hc. inversion Hc; subst err.
    split; [reflexivity|].
    split; [now rewrite (part000A_prefix_appends req pre _ Hpre)|].
    eexists. apply (Hfallback _ _ Hp).
  - rewrite Haction in Hc. discriminate Hc.
  - rewrite Haction in Hc. discriminate Hc.
Qed.

(** X15. In the first file of part_000, a failing generator call is the end
    of the request: the reply is 500 with the cause as [details], the
    generator call is the last call and nothing is appended. *)
Theorem part000A_generator_failure
    (e : env) (req : request) (p : string) (cause : JS.error) :
  In (Generate p) (snd (run (Part000A.process_notion_content e req))) ->
  generateContent e p = inr cause ->
  fst (run (Part000A.process_notion_content e req))
  = Done (json 500
            [("error", JString
                "An unexpected error occurred during AI processing or Notion interaction.");
             ("details", JString (JS.message cause))]) /\
  calls is_append (snd (run (Part000A.process_notion_content e req))) = [] /\
  exists before,
    snd (run (Part000A.process_notion_content e req))
    = (before ++ [Generate p])%list.
Proof.
  intros Hin Hgen.
  part000A_cases e req;
    try rewrite Hr in *; try rewrite Hsnd in *; cbn [fst snd] in *;
    try (now apply (part000A_no_generate req pre p Hpre) in Hin);
    try (eapply (part000A_generate_in req pre) in Hin;
         [| exact Hpre | reflexivity]; subst p0; try congruence).
  rewrite Hgen in Hg. inversion Hg; subst cause0.
  split; [reflexivity|].
  split; [now rewrite (part000A_prefix_appends req pre _ Hpre)|].
  exists pre. reflexivity.
Qed.

Lemma replace_underscores_length (s : string) :
  String.length (JS.replace_underscores s) = String.length s.
Proof. induction s as [|c s IH]; simpl; [reflexivity | now rewrite IH]. Qed.

Lemma replace_underscores_clean (s : string) :
  JS.includes "_" (JS.replace_underscores s) = false.
Proof.
  induction s as [|c s IH]; [reflexivity|].
  cbn [JS.replace_underscores JS.includes]. rewrite IH, orb_false_r.
  cbn [prefix].
  destruct (ascii_dec "_" (if (nat_of_ascii c =? 95)%nat then ascii_of_nat 32 else c))
    as [Heq|]; [|reflexivity].
  exfalso. destruct (nat_of_ascii c =? 95)%nat eqn:Hc; [discriminate Heq|].
  subst c. discriminate Hc.
Qed.



(** X18. The first file of part_000 rejects a blank source with 400 before
    anything is generated: a [content] that is absent, empty or white space
    is rejected without any call, and a URL whose fetched body is blank is
    rejected after the fetch alone. *)
Theorem part000A_blank_source_rejected (e : env) (req : request) :
  JS.truthy (NOTION_API_KEY e) = true ->
  JS.truthy (GEMINI_API_KEY e) = true ->
  (Part000A.blank (content req) = true ->
   run (Part000A.process_notion_content e req)
   = (Done (json 400 [("error", JString "No content provided for AI processing.")]),
      []))
  /\
  (forall url body tr,
     content req = Some url ->
     JS.startsWith "http://" url || JS.startsWith "https://" url = true ->
     run (Part000A.fetch_url e url) = (Done body, tr) ->
     Part000A.blank (Some body) = true ->
     run (Part000A.process_notion_content e req)
     = (Done (json 400 [("error", JString "No content provided for AI processing.")]),
        [Fetch (Part000A.proxyUrl url)])).
Proof.
  intros Hk1 Hk2. split.
  - intros Hb.
    assert (Hurl : Part000A.is_url (content req) = false).
    { unfold Part000A.is_url. unfold Part000A.blank in Hb.
      destruct (JS.truthy (content req)) eqn:Ht; [|reflexivity].
      destruct (content req) as [c|]; [|discriminate Ht].
      simpl in Hb |- *.
      destruct c as [|x c]; [discriminate Ht|].
      apply String.eqb_eq, trim_empty_all_ws in Hb.
      destruct (JS.startsWith "http://" (String x c)) eqn:H1.
      - apply prefix_split in H1. destruct H1 as (post & H1).
        rewrite H1 in Hb. discriminate Hb.
      - destruct (JS.startsWith "https://" (String x c)) eqn:H2; [|reflexivity].
        apply prefix_split in H2. destruct H2 as (post & H2).
        rewrite H2 in Hb. discriminate Hb. }
    rewrite (part000A_route_plain e req Hurl Hk1 Hk2).
    unfold Part000A.check_and_process. rewrite Hb. reflexivity.
  - intros url body tr Hc Hscheme Hfetch Hb.
    rewrite (part000A_route_url e req url Hc
               (starts_with_scheme_is_url url Hscheme) Hk1 Hk2), Hfetch.
    destruct (fetch_url_run e url) as [(body' & H)|(err & H)];
      rewrite H in Hfetch; inversion Hfetch; subst.
    unfold Part000A.check_and_process. rewrite Hb. reflexivity.
Qed.

(* ===================================================================== *)
(** ** The proxy address *)
(* ===================================================================== *)

Lemma all_chars_app f (a b : string) :
  all_chars f (a ++ b) = all_chars f a && all_chars f b.
Proof.
  induction a as [|c a IH]; simpl; [reflexivity|].
  now rewrite IH, andb_assoc.
Qed.

Lemma encode_unit_safe (c : ascii) : all_chars uri_safe (JS.encode_unit c) = true.
Proof.
  destruct c as [[] [] [] [] [] [] [] []]; vm_compute; reflexivity.
Qed.

Lemma encode_unit_unreserved (c : ascii) :
  JS.uri_unreserved (nat_of_ascii c) = true -> JS.encode_unit c = String c "".
Proof. unfold JS.encode_unit. now intros ->. Qed.

Lemma all_chars_includes f (c : ascii) (s : string) :
  all_chars f s = true -> f c = false -> JS.includes (String c "") s = false.
Proof.
  intros Hall Hc. induction s as [|x s IH]; [reflexivity|].
  simpl in Hall. apply andb_true_iff in Hall. destruct Hall as [Hx Hs].
  cbn [JS.includes prefix]. rewrite (IH Hs), orb_false_r.
  destruct (ascii_dec c x) as [->|]; [congruence | reflexivity].
Qed.

(** X19. The address fetched for a URL is the proxy's fixed address followed
    by the encoded URL, and the encoding leaves only unreserved characters
    and percent escapes: no character outside them (such as the ampersand,
    the number sign, the equals sign or the space) occurs in it, and a URL
    made of unreserved characters only is passed unchanged. *)
Theorem proxy_url_is_encoded (url : string) :
  Part000A.proxyUrl url
  = "https://api.allorigins.win/raw?url=" ++ JS.encodeURIComponent url /\
  all_chars uri_safe (JS.encodeURIComponent url) = true /\
  (forall c, uri_safe c = false ->
             JS.includes (String c "") (JS.encodeURIComponent url) = false) /\
  (all_chars (fun c => JS.uri_unreserved (nat_of_ascii c)) url = true ->
   JS.encodeURIComponent url = url).
Proof.
  assert (Hsafe : all_chars uri_safe (JS.encodeURIComponent url) = true).
  { induction url as [|c url IH]; [reflexivity|].
    cbn [JS.encodeURIComponent]. now rewrite all_chars_app, encode_unit_safe, IH. }
  split; [reflexivity|]. split; [exact Hsafe|]. split.
  - intros c Hc. now apply all_chars_includes with (f := uri_safe).
  - induction url as [|c url IH]; [reflexivity|].
    simpl. intros H. apply andb_true_iff in H. destruct H as [Hc Hurl].
    rewrite (encode_unit_unreserved c Hc). simpl. f_equal. apply IH.
    + cbn [JS.encodeURIComponent] in Hsafe.
      rewrite all_chars_app in Hsafe. apply andb_true_iff in Hsafe. tauto.
    + exact Hurl.
Qed.

(* ===================================================================== *)
(** ** The route of the second file of part_000 *)
(* ===================================================================== *)

Lemma part000_fetch_trace fuel e pageId :
  forallb is_list (snd (run (Part000B.fetchNotionPageContent fuel e pageId)))
  = true.
Proof.
  unfold run, Part000B.fetchNotionPageContent.
  rewrite part000_list_children. unfold try_catch, bind, lift. cbv beta.
  destruct (list_children_trace fuel e pageId None [] []) as (evs & Hsnd & Hall & _).
  simpl in Hsnd.
  destruct (Server.list_children fuel e pageId None [] [])
    as [[blocks|err|] tr]; simpl in *; subst tr; auto.
  destruct (Part000B.extractTextFromBlocks blocks); exact Hall.
Qed.

Lemma part000B_route_run fuel e req :
  JS.truthy (notionPageId req) = true ->
  JS.truthy (action req) = true ->
  run (Part000B.process_notion_content fuel e req)
  = match run (Part000B.fetchNotionPageContent fuel e
                 (to_string (notionPageId req))) with
    | (Done text, tr) =>
        if Part000B.blank (Some text)
        then (Done (Part000B.Replied Part000B.no_textual_content), tr)
        else match Part000B.build_prompt (action req) text with
             | Some prompt => (Done (Part000B.Unanswered prompt), tr)
             | None => (Done (Part000B.Replied Part000B.invalid_action), tr)
             end
    | (Throw error, tr) =>
        (Done (Part000B.Replied (Part000B.fetch_failed error)), tr)
    | (OutOfFuel, tr) => (OutOfFuel, tr)
    end.
Proof.
  intros Hid Hact. unfold run, Part000B.process_notion_content.
  rewrite Hid, Hact. cbv [negb orb]. cbv iota.
  unfold bind at 1. unfold try_catch at 1. unfold bind at 1.
  destruct (Part000B.fetchNotionPageContent fuel e (to_string (notionPageId req)) [])
    as [[text|error|] tr]; try reflexivity.
  destruct (Part000B.blank (Some text)); [reflexivity|].
  unfold ret.
  destruct (Part000B.build_prompt (action req) text); reflexivity.
Qed.

(** X21. In the second file of part_000 the page is read before the action
    is looked at: when a list call throws, the reply is 500 with the cause
    under both wrappers, whatever the action. *)
Theorem part000B_route_fetch_failure
    (fuel : nat) (e : env) (req : request)
    (pages : list list_response) (cause : JS.error) :
  JS.truthy (notionPageId req) = true ->
  JS.truthy (action req) = true ->
  fails_after e (to_string (notionPageId req)) None pages cause ->
  length pages < fuel ->
  fst (run (Part000B.process_notion_content fuel e req))
  = Done (Part000B.Replied
            (json 500
               [("success", JBool false);
                ("message", JString
                   ("Failed to fetch content from Notion: Failed to fetch content from Notion page: "
                    ++ JS.message cause))])).
Proof.
  intros Hid Hact Hfails Hfuel.
  rewrite (part000B_route_run fuel e req Hid Hact).
  pose proof (part000_fetch_fails e _ pages cause fuel Hfails Hfuel) as Hthrow.
  destruct (run (Part000B.fetchNotionPageContent fuel e
                   (to_string (notionPageId req)))) as [o tr].
  simpl in Hthrow. subst o. reflexivity.
Qed.


(* ===================================================================== *)
(** ** The further properties at concrete inputs *)
(* ===================================================================== *)

Lemma endless_store_never_returns_witness :
  fst (run (Server.fetchNotionPageContent 3 Edge.endless "P1")) = OutOfFuel /\
  length (snd (run (Server.fetchNotionPageContent 3 Edge.endless "P1"))) = 3.
Proof.
  destruct (endless_store_never_returns Edge.endless "P1" 3 eq_refl
              (fun cursor =>
                 ex_intro _ (mkList [Scenario.paragraph ["again"]] (Some "c1"))
                          (conj eq_refl eq_refl)))
    as (H1 & H2 & _).
  split; [exact H1 | exact H2].
Defined.

Lemma bare_paragraph_reported_as_fetch_failure_witness :
  run (Part000B.fetchNotionPageContent 1 Edge.bare_store "P1")
  = (Throw (JS.Error
       "Failed to fetch content from Notion page: Cannot read properties of undefined (reading 'length')"),
     [NotionList "P1" None 100]) /\
  fst (run (Server.fetchNotionPageContent 1 Edge.bare_store "P1")) = Done "".
Proof.
  destruct (bare_paragraph_reported_as_fetch_failure Edge.bare_store "P1"
              [mkList [Edge.bare_paragraph] None] 1
              (conj eq_refl eq_refl) (le_n 1) eq_refl) as [H1 H2].
  split; [exact H1 | exact (H2 eq_refl)].
Defined.

Lemma extractors_agree_on_plain_pages_witness :
  Part000B.extractTextFromBlocks [Scenario.paragraph ["Hello "]; Scenario.divider]
  = inl ("Hello " ++ JS.nl).
Proof.
  exact (extractors_agree_on_plain_pages
           [Scenario.paragraph ["Hello "]; Scenario.divider] eq_refl).
Defined.

Lemma server_route_always_replies_witness :
  exists reply,
    fst (run (Server.process_notion_content 1 Scenario.generator_down
                (mkRequest (Some "x") (Some "summarize") (Some "P1"))))
    = Done reply.
Proof.
  exact (proj2 (proj2 (server_route_always_replies 1 Scenario.generator_down
                         (mkRequest (Some "x") (Some "summarize") (Some "P1"))))
               eq_refl).
Defined.

Lemma server_generates_and_appends_once_witness :
  exists lists p g,
    snd (run (Server.process_notion_content 2 Scenario.healthy
                (mkRequest None (Some "summarize") (Some "P1"))))
    = (lists ++ [Generate p; NotionAppend "P1" [ParagraphBlock "Summary." false]])%list /\
    forallb is_list lists = true /\
    "P1" = "P1" /\
    generateContent Scenario.healthy p = inl g /\
    [ParagraphBlock "Summary." false] = [ParagraphBlock g false].
Proof.
  refine (proj2 (proj2 (server_generates_and_appends_once 2 Scenario.healthy
                          (mkRequest None (Some "summarize") (Some "P1"))))
                "P1" [ParagraphBlock "Summary." false] _).
  right. right. right. left. reflexivity.
Defined.

Lemma server_success_means_appended_witness :
  exists lists p g,
    forallb is_list lists = true /\
    snd (run (Server.process_notion_content 2 Scenario.healthy
                (mkRequest None (Some "summarize") (Some "P1"))))
    = (lists ++ [Generate p; NotionAppend "P1" [ParagraphBlock g false]])%list /\
    generateContent Scenario.healthy p = inl g /\
    notion_append Scenario.healthy "P1" [ParagraphBlock g false] = inl tt /\
    [("message", JString "Content processed and appended to Notion.");
     ("geminiResponse", JString "Summary.")]
    = [("message", JString "Content processed and appended to Notion.");
       ("geminiResponse", JString g)].
Proof.
  exact (server_success_means_appended 2 Scenario.healthy
           (mkRequest None (Some "summarize") (Some "P1"))
           (json 200 [("message", JString "Content processed and appended to Notion.");
                      ("geminiResponse", JString "Summary.")])
           eq_refl eq_refl).
Defined.

Lemma server_extraction_failure_witness :
  fst (run (Server.process_notion_content 2 Scenario.second_page_lost
              (mkRequest None (Some "summarize") (Some "P1"))))
  = Done (json 500
            [("error", JString
                "Failed to process request: Failed to fetch content from Notion page: boom")]).
Proof.
  exact (proj1 (server_extraction_failure 2 Scenario.second_page_lost
                  (mkRequest None (Some "summarize") (Some "P1"))
                  [Scenario.page1] Scenario.boom
                  eq_refl eq_refl eq_refl eq_refl
                  (conj eq_refl (conj eq_refl eq_refl)) (le_n 2))).
Defined.

Lemma whitespace_content_is_absent_witness :
  run (Server.process_notion_content 2 Scenario.healthy
         (mkRequest (Some "  ") (Some "summarize") (Some "P1")))
  = run (Server.process_notion_content 2 Scenario.healthy
           (mkRequest None (Some "summarize") (Some "P1"))).
Proof.
  exact (proj2 (whitespace_content_is_absent 2 Scenario.healthy "  "
                  (Some "summarize") (Some "P1")) eq_refl).
Defined.

Lemma part000A_calls_once_witness :
  calls is_fetch
    (snd (run (Part000A.process_notion_content Scenario.healthy
                 (mkRequest (Some "x") (Some "bogus") (Some "P1"))))) = [] /\
  hd_error
    (snd (run (Part000A.process_notion_content Scenario.healthy
                 (mkRequest (Some "https://a.b/c d") (Some "bogus") (Some "P1")))))
  = Some (Fetch "https://api.allorigins.win/raw?url=https%3A%2F%2Fa.b%2Fc%20d") /\
  exists before p,
    snd (run (Part000A.process_notion_content Scenario.healthy
                (mkRequest (Some "x") (Some "bogus") (Some "P1"))))
    = (before ++ [Generate p;
                  NotionAppend "P1"
                    [ParagraphBlock ("**AI Output (bogus):**" ++ JS.nl ++ JS.nl) true;
                     CodeBlock "Summary." "markdown"]])%list.
Proof.
  split; [|split].
  - exact (proj1 (proj2 (proj2 (proj2 (proj2
             (part000A_calls_once Scenario.healthy
                (mkRequest (Some "x") (Some "bogus") (Some "P1")))))))
             eq_refl).
  - refine (proj1 (proj1 (proj2 (proj2 (proj2 (proj2 (proj2
             (part000A_calls_once Scenario.healthy
                (mkRequest (Some "https://a.b/c d") (Some "bogus") (Some "P1"))))))))
             "https://api.allorigins.win/raw?url=https%3A%2F%2Fa.b%2Fc%20d" _)).
    left. reflexivity.
  - refine (proj2 (proj2 (proj2 (proj2 (proj2 (proj2
             (part000A_calls_once Scenario.healthy
                (mkRequest (Some "x") (Some "bogus") (Some "P1"))))))))
             "P1"
             [ParagraphBlock ("**AI Output (bogus):**" ++ JS.nl ++ JS.nl) true;
              CodeBlock "Summary." "markdown"] _).
    right. left. reflexivity.
Defined.

Lemma part000A_no_page_no_append_witness :
  fst (run (Part000A.process_notion_content Scenario.healthy
              (mkRequest (Some "x") (Some "bogus") None)))
  = Done (json 200 [("success", JBool true);
                    ("message", JString "Content processed!");
                    ("output", JString "Summary.")]).
Proof.
  exact (proj2 (part000A_no_page_no_append Scenario.healthy
                  (mkRequest (Some "x") (Some "bogus") None) eq_refl)
               "Analyze the following text and provide a general overview. Format using Notion-compatible markdown: x"
               "Summary." (or_introl eq_refl) eq_refl).
Defined.

Lemma part000A_missing_action_fails_late_witness :
  fst (run (Part000A.process_notion_content Scenario.healthy
              (mkRequest (Some "x") None (Some "P1"))))
  = Done (json 500
            [("error", JString
                "An unexpected error occurred during AI processing or Notion interaction.");
             ("details", JString
                "Cannot read properties of undefined (reading 'replace')")]) /\
  calls is_append
    (snd (run (Part000A.process_notion_content Scenario.healthy
                 (mkRequest (Some "x") None (Some "P1"))))) = [].
Proof.
  destruct (part000A_missing_action_fails_late Scenario.healthy
              (mkRequest (Some "x") None (Some "P1"))
              "Analyze the following text and provide a general overview. Format using Notion-compatible markdown: x"
              "Summary." eq_refl eq_refl (or_introl eq_refl) eq_refl)
    as (H1 & H2 & _).
  split; [exact H1 | exact H2].
Defined.

Lemma part000A_generator_failure_witness :
  fst (run (Part000A.process_notion_content Scenario.generator_down
              (mkRequest (Some "x") (Some "bogus") (Some "P1"))))
  = Done (json 500
            [("error", JString
                "An unexpected error occurred during AI processing or Notion interaction.");
             ("details", JString "boom")]).
Proof.
  exact (proj1 (part000A_generator_failure Scenario.generator_down
                  (mkRequest (Some "x") (Some "bogus") (Some "P1"))
                  "Analyze the following text and provide a general overview. Format using Notion-compatible markdown: x"
                  Scenario.boom (or_introl eq_refl) eq_refl)).
Defined.

Lemma part000A_blank_source_rejected_witness :
  run (Part000A.process_notion_content Scenario.healthy
         (mkRequest (Some "  ") (Some "summarize") (Some "P1")))
  = (Done (json 400 [("error", JString "No content provided for AI processing.")]),
     []) /\
  run (Part000A.process_notion_content Edge.blank_fetch
         (mkRequest (Some "https://a.b/c d") (Some "summarize") (Some "P1")))
  = (Done (json 400 [("error", JString "No content provided for AI processing.")]),
     [Fetch "https://api.allorigins.win/raw?url=https%3A%2F%2Fa.b%2Fc%20d"]).
Proof.
  split.
  - exact (proj1 (part000A_blank_source_rejected Scenario.healthy
                    (mkRequest (Some "  ") (Some "summarize") (Some "P1"))
                    eq_refl eq_refl) eq_refl).
  - exact (proj2 (part000A_blank_source_rejected Edge.blank_fetch
                    (mkRequest (Some "https://a.b/c d") (Some "summarize") (Some "P1"))
                    eq_refl eq_refl)
                 "https://a.b/c d" "   " _ eq_refl eq_refl eq_refl eq_refl).
Defined.

Lemma proxy_url_is_encoded_witness :
  JS.includes "&" (JS.encodeURIComponent "https://a.b/?q=1&r=2") = false /\
  JS.encodeURIComponent "a.b-c_d" = "a.b-c_d".
Proof.
  split.
  - exact (proj1 (proj2 (proj2 (proxy_url_is_encoded "https://a.b/?q=1&r=2")))
             "&"%char eq_refl).
  - exact (proj2 (proj2 (proj2 (proxy_url_is_encoded "a.b-c_d"))) eq_refl).
Defined.

Lemma part000B_route_fetch_failure_witness :
  fst (run (Part000B.process_notion_content 2 Scenario.second_page_lost
              (mkRequest None (Some "bogus") (Some "P1"))))
  = Done (Part000B.Replied
            (json 500
               [("success", JBool false);
                ("message", JString
                   "Failed to fetch content from Notion: Failed to fetch content from Notion page: boom")])).
Proof.
  exact (part000B_route_fetch_failure 2 Scenario.second_page_lost
           (mkRequest None (Some "bogus") (Some "P1"))
           [Scenario.page1] Scenario.boom eq_refl eq_refl
           (conj eq_refl (conj eq_refl eq_refl)) (le_n 2)).
Defined.

(* ===================================================================== *)
(** ** Templates and the services behind a run *)
(* ===================================================================== *)

Lemma append_cancel_l (a b c : string) : a ++ b = a ++ c -> b = c.
Proof.
  induction a as [|x a IH]; simpl; intros H; [exact H|].
  inversion H. auto.
Qed.

(** Each action of the switch of [server.js] has one template, which the
    content follows unchanged. *)
Lemma server_template (action : option string) :
  supported server_actions action = true ->
  exists template,
    template <> "" /\
    forall c, Server.build_prompt action c = Some (template ++ c).
Proof.
  unfold supported, server_actions, Server.build_prompt. simpl existsb.
  intros H.
  repeat match goal with
         | |- context [if JS.strict_eq action ?s then _ else _] =>
             destruct (JS.strict_eq action s);
             [eexists; split; [|intros c; rewrite <- !append_assoc; reflexivity];
              discriminate|]
         end.
  discriminate.
Qed.

(** In the first file of part_000, each action but [rephrase] has one
    template (the fallback one for an action outside the switch), which the
    capped text follows unchanged. *)
Lemma part000A_template (action content : option string) :
  JS.strict_eq action "rephrase" = false ->
  exists template,
    template <> "" /\
    forall text,
      Part000A.build_prompt action content text = inl (template ++ text).
Proof.
  intros Hr. unfold Part000A.build_prompt. rewrite Hr.
  repeat match goal with
         | |- context [if JS.strict_eq action ?s then _ else _] =>
             destruct (JS.strict_eq action s);
             [eexists; split; [|intros text; rewrite <- !append_assoc; reflexivity];
              discriminate|]
         end.
  eexists; split; [|intros text; reflexivity]. discriminate.
Qed.

(** The proxied fetch in terms of the service: one call to [fetch] with the
    proxy address, then the body of an [ok] response, or the error of the
    rejected fetch, of the status, or of the failed read. *)
Lemma fetch_url_service e url :
  run (Part000A.fetch_url e url)
  = (match fetch e ("https://api.allorigins.win/raw?url="
                    ++ JS.encodeURIComponent url) with
     | inr cause => Throw cause
     | inl r =>
         if ok r then
           match text r with
           | inl body => Done body
           | inr cause => Throw cause
           end
         else Throw (JS.Error ("HTTP error! status: " ++ http_status r))
     end,
     [Fetch ("https://api.allorigins.win/raw?url=" ++ JS.encodeURIComponent url)]).
Proof.
  unfold Part000A.fetch_url, Part000A.proxyUrl. unfold_run. simpl app.
  destruct (fetch e ("https://api.allorigins.win/raw?url="
                     ++ JS.encodeURIComponent url)) as [r|cause]; [|reflexivity].
  destruct (ok r); cbv [negb]; cbv iota; [|reflexivity].
  destruct (text r); reflexivity.
Qed.

(** The run of [Server.process] in terms of the services, for a prompt that
    is built. *)
Lemma server_process_service e pageId action c p tr :
  Server.notion e = true ->
  Server.build_prompt action c = Some p ->
  settle Server.failed (Server.process e pageId action c tr)
  = match generateContent e p with
    | inr cause =>
        (Done (json 500 [("error", JString ("Failed to process request: "
                                            ++ JS.message cause))]),
         (tr ++ [Generate p])%list)
    | inl g =>
        (match notion_append e pageId [ParagraphBlock g false] with
         | inl _ =>
             Done (json 200
                     [("message", JString "Content processed and appended to Notion.");
                      ("geminiResponse", JString g)])
         | inr cause =>
             Done (json 500
                     [("error", JString
                         ("Failed to process request: Failed to append content to Notion: "
                          ++ JS.message cause))])
         end,
         (tr ++ [Generate p; NotionAppend pageId [ParagraphBlock g false]])%list)
    end.
Proof.
  intros Hn Hp.
  destruct (server_process_cases e pageId action c tr Hn)
    as [(Hp' & _) | [(q & cause & Hp' & Hg & ->) |
        [(q & g & cause & Hp' & Hg & Ha & ->) | (q & g & Hp' & Hg & Ha & ->)]]];
    rewrite Hp in Hp'; try discriminate; inversion Hp'; subst q;
    rewrite Hg; try rewrite Ha; reflexivity.
Qed.

(* ===================================================================== *)
(** ** Content resolution *)
(* ===================================================================== *)

(** C5. For every request: when the [content] field is non-empty after
    trimming, the route makes no list call at all (whatever the page id),
    every prompt it sends is built from that field, and, the guards passed
    and the action supported, the run is exactly the generator call on the
    action's template followed by the field verbatim, then the append of what
    the generator returned.  When the field is absent, empty or white space
    and the guards pass, the first call is the list call on the request's
    page id; the run is the run of the extractor on that page id followed,
    for a non-blank text and a supported action, by the generator call on the
    template followed by the extracted text, and an error of the extractor is
    the reply; against a store that serves the pages of that page id, the
    calls are the list calls on those pages and the text is what their blocks
    contribute. *)
Theorem content_resolution (fuel : nat) (e : env) (req : request) :
  (Server.blank (content req) = false ->
   calls is_list (snd (run (Server.process_notion_content fuel e req))) = [] /\
   (forall p,
      In (Generate p) (snd (run (Server.process_notion_content fuel e req))) ->
      Server.build_prompt (action req) (to_string (content req)) = Some p) /\
   (JS.truthy (notionPageId req) = true ->
    Server.model e = true ->
    Server.notion e = true ->
    supported server_actions (action req) = true ->
    exists c template,
      content req = Some c /\
      template <> "" /\
      (forall c', Server.build_prompt (action req) c' = Some (template ++ c')) /\
      run (Server.process_notion_content fuel e req)
      = match generateContent e (template ++ c) with
        | inr cause =>
            (Done (json 500 [("error", JString ("Failed to process request: "
                                                ++ JS.message cause))]),
             [Generate (template ++ c)])
        | inl g =>
            (match notion_append e (to_string (notionPageId req))
                                 [ParagraphBlock g false] with
             | inl _ =>
                 Done (json 200
                         [("message", JString "Content processed and appended to Notion.");
                          ("geminiResponse", JString g)])
             | inr cause =>
                 Done (json 500
                         [("error", JString
                             ("Failed to process request: Failed to append content to Notion: "
                              ++ JS.message cause))])
             end,
             [Generate (template ++ c);
              NotionAppend (to_string (notionPageId req)) [ParagraphBlock g false]])
        end))
  /\
  (Server.blank (content req) = true ->
   JS.truthy (notionPageId req) = true ->
   Server.model e = true ->
   Server.notion e = true ->
   0 < fuel ->
   hd_error (snd (run (Server.process_notion_content fuel e req)))
   = Some (NotionList (to_string (notionPageId req)) None 100) /\
   (forall text tr,
      run (Server.fetchNotionPageContent fuel e (to_string (notionPageId req)))
      = (Done text, tr) ->
      exists rest,
        snd (run (Server.process_notion_content fuel e req)) = (tr ++ rest)%list /\
        calls is_list rest = [] /\
        forall p,
          In (Generate p) (snd (run (Server.process_notion_content fuel e req))) ->
          Server.build_prompt (action req) text = Some p) /\
   (forall text tr,
      run (Server.fetchNotionPageContent fuel e (to_string (notionPageId req)))
      = (Done text, tr) ->
      Server.blank (Some text) = false ->
      supported server_actions (action req) = true ->
      exists template,
        template <> "" /\
        (forall c', Server.build_prompt (action req) c' = Some (template ++ c')) /\
        run (Server.process_notion_content fuel e req)
        = match generateContent e (template ++ text) with
          | inr cause =>
              (Done (json 500 [("error", JString ("Failed to process request: "
                                                  ++ JS.message cause))]),
               (tr ++ [Generate (template ++ text)])%list)
          | inl g =>
              (match notion_append e (to_string (notionPageId req))
                                   [ParagraphBlock g false] with
               | inl _ =>
                   Done (json 200
                           [("message", JString "Content processed and appended to Notion.");
                            ("geminiResponse", JString g)])
               | inr cause =>
                   Done (json 500
                           [("error", JString
                               ("Failed to process request: Failed to append content to Notion: "
                                ++ JS.message cause))])
               end,
               (tr ++ [Generate (template ++ text);
                       NotionAppend (to_string (notionPageId req))
                                    [ParagraphBlock g false]])%list)
          end) /\
   (forall error tr,
      run (Server.fetchNotionPageContent fuel e (to_string (notionPageId req)))
      = (Throw error, tr) ->
      run (Server.process_notion_content fuel e req)
      = (Done (json 500 [("error", JString ("Failed to process request: "
                                            ++ JS.message error))]), tr)) /\
   (forall pages,
      serves e (to_string (notionPageId req)) None pages ->
      length pages <= fuel ->
      run (Server.fetchNotionPageContent fuel e (to_string (notionPageId req)))
      = (Done (String.concat ""
                 (map Policy.server_contribution (all_blocks pages))),
         requests (to_string (notionPageId req)) None pages))).
Proof.
  split.
  - intros Hb.
    assert (Hold :
              calls is_list (snd (run (Server.process_notion_content fuel e req))) = [] /\
              forall p,
                In (Generate p) (snd (run (Server.process_notion_content fuel e req))) ->
                Server.build_prompt (action req) (to_string (content req)) = Some p).
    { destruct (JS.truthy (notionPageId req) && Server.model e && Server.notion e)
        eqn:Hguards.
      + apply andb_true_iff in Hguards. destruct Hguards as [Hguards Hn].
        apply andb_true_iff in Hguards. destruct Hguards as [Hid Hm].
        rewrite (server_route_direct fuel e req Hid Hm Hn Hb), snd_settled.
        destruct (server_process_trace e (to_string (notionPageId req))
                    (action req) (to_string (content req)) [] Hn)
          as (evs & -> & Hlist & Hgen).
        simpl. auto.
      + rewrite (server_route_guarded fuel e req Hguards). split; [reflexivity|].
        intros p []. }
    destruct Hold as [Hlists Hprompts].
    split; [exact Hlists|]. split; [exact Hprompts|].
    intros Hid Hm Hn Hs.
    destruct (server_blank_some _ Hb) as [Hc _].
    destruct (server_template (action req) Hs) as (template & Hne & Htemplate).
    exists (to_string (content req)), template.
    split; [exact Hc|]. split; [exact Hne|]. split; [exact Htemplate|].
    rewrite (server_route_direct fuel e req Hid Hm Hn Hb).
    rewrite (server_process_service e _ _ _ _ [] Hn
               (Htemplate (to_string (content req)))).
    reflexivity.
  - intros Hb Hid Hm Hn Hfuel.
    destruct (server_fetch_trace fuel e (to_string (notionPageId req)) Hn)
      as (evs & Hsnd & Hall & Hhd). specialize (Hhd Hfuel).
    split; [|split; [|split; [|split]]].
    + rewrite (server_route_fetched fuel e req Hid Hm Hn Hb).
      destruct (run (Server.fetchNotionPageContent fuel e
                       (to_string (notionPageId req))))
        as [[text|error|] tr]; simpl in Hsnd; subst evs; try exact Hhd.
      destruct (Server.blank (Some text)); [exact Hhd|].
      destruct (server_process_trace e (to_string (notionPageId req))
                  (action req) text tr Hn) as (rest & Hrest & _ & _).
      rewrite snd_settled, Hrest. now apply hd_error_app.
    + intros text tr Hfetch.
      rewrite (server_route_fetched fuel e req Hid Hm Hn Hb), Hfetch.
      rewrite Hfetch in Hsnd. simpl in Hsnd. subst evs.
      destruct (server_process_trace e (to_string (notionPageId req))
                  (action req) text tr Hn) as (rest & Hrest & Hlist & Hgen).
      destruct (Server.blank (Some text)).
      * exists []. simpl. rewrite app_nil_r. repeat split.
        intros p Hin. now apply in_list_calls_only in Hin.
      * exists rest. rewrite snd_settled, Hrest. repeat split; auto.
        intros p Hin. apply in_app_or in Hin. destruct Hin as [Hin|Hin];
          [now apply in_list_calls_only in Hin | auto].
    + intros text tr Hfetch Htext Hs.
      destruct (server_template (action req) Hs) as (template & Hne & Htemplate).
      exists template. split; [exact Hne|]. split; [exact Htemplate|].
      rewrite (server_route_fetched fuel e req Hid Hm Hn Hb), Hfetch, Htext.
      exact (server_process_service e _ _ _ _ tr Hn (Htemplate text)).
    + intros error tr Hfetch.
      now rewrite (server_route_fetched fuel e req Hid Hm Hn Hb), Hfetch.
    + intros pages Hserves Hlen.
      exact (server_fetch_serves e _ pages fuel Hn Hserves Hlen).
Qed.

Lemma content_resolution_witness :
  calls is_list
    (snd (run (Server.process_notion_content 2 Scenario.healthy
                 (mkRequest (Some "x") (Some "summarize") None)))) = [] /\
  run (Server.process_notion_content 2 Scenario.healthy
         (mkRequest (Some "x") (Some "summarize") (Some "P1")))
  = (Done (json 200
             [("message", JString "Content processed and appended to Notion.");
              ("geminiResponse", JString "Summary.")]),
     [Generate ("Summarize the following content concisely:" ++ JS.nl ++ JS.nl ++ "x");
      NotionAppend "P1" [ParagraphBlock "Summary." false]]) /\
  hd_error
    (snd (run (Server.process_notion_content 2 Scenario.healthy
                 (mkRequest (Some "  ") (Some "summarize") (Some "P1")))))
  = Some (NotionList "P1" None 100) /\
  run (Server.process_notion_content 2 Scenario.healthy
         (mkRequest (Some "  ") (Some "summarize") (Some "P1")))
  = (Done (json 200
             [("message", JString "Content processed and appended to Notion.");
              ("geminiResponse", JString "Summary.")]),
     [NotionList "P1" None 100; NotionList "P1" (Some "c1") 100;
      Generate ("Summarize the following content concisely:" ++ JS.nl ++ JS.nl
                ++ "Hello " ++ JS.nl ++ "world" ++ JS.nl);
      NotionAppend "P1" [ParagraphBlock "Summary." false]]) /\
  run (Server.process_notion_content 2 Scenario.second_page_lost
         (mkRequest None (Some "summarize") (Some "P1")))
  = (Done (json 500
             [("error", JString
                 "Failed to process request: Failed to fetch content from Notion page: boom")]),
     [NotionList "P1" None 100; NotionList "P1" (Some "c1") 100]).
Proof.
  split; [|split; [|split; [|split]]].
  - exact (proj1 (proj1 (content_resolution 2 Scenario.healthy
                           (mkRequest (Some "x") (Some "summarize") None))
                    eq_refl)).
  - destruct (proj2 (proj2 (proj1 (content_resolution 2 Scenario.healthy
                (mkRequest (Some "x") (Some "summarize") (Some "P1"))) eq_refl))
                eq_refl eq_refl eq_refl eq_refl)
      as (c & template & Hc & _ & Htemplate & Hrun).
    rewrite Hrun. inversion Hc; subst c.
    pose proof (f_equal (fun o => match o with Some x => x | None => "" end)
                        (Htemplate "x")) as Ht.
    cbv beta in Ht. rewrite <- Ht. reflexivity.
  - exact (proj1 (proj2 (content_resolution 2 Scenario.healthy
                           (mkRequest (Some "  ") (Some "summarize") (Some "P1")))
                    eq_refl eq_refl eq_refl eq_refl (Nat.lt_0_succ 1))).
  - destruct (proj2 (content_resolution 2 Scenario.healthy
                (mkRequest (Some "  ") (Some "summarize") (Some "P1")))
                eq_refl eq_refl eq_refl eq_refl (Nat.lt_0_succ 1))
      as (_ & _ & Hrun & _ & _).
    destruct (Hrun ("Hello " ++ JS.nl ++ "world" ++ JS.nl)
                   [NotionList "P1" None 100; NotionList "P1" (Some "c1") 100]
                   eq_refl eq_refl eq_refl) as (template & _ & Htemplate & Hr).
    rewrite Hr.
    pose proof (f_equal (fun o => match o with Some x => x | None => "" end)
                        (Htemplate ("Hello " ++ JS.nl ++ "world" ++ JS.nl))) as Ht.
    cbv beta in Ht. rewrite <- Ht. reflexivity.
  - destruct (proj2 (content_resolution 2 Scenario.second_page_lost
                (mkRequest None (Some "summarize") (Some "P1")))
                eq_refl eq_refl eq_refl eq_refl (Nat.lt_0_succ 1))
      as (_ & _ & _ & Hthrow & _).
    exact (Hthrow (JS.Error "Failed to fetch content from Notion page: boom")
                  [NotionList "P1" None 100; NotionList "P1" (Some "c1") 100]
                  eq_refl).
Defined.

(* ===================================================================== *)
(** ** URL content *)
(* ===================================================================== *)

(** C10. In the first file of part_000, for every request whose [content] is
    a string starting with [http://] or [https://] (API keys configured): the
    first call is the fetch of the proxy address built from the field.  When
    the [fetch] service answers that address with an [ok] response whose body
    reads as [body], every prompt sent to the generator is built from the
    first 15000 characters of [body] and not from the field: a blank body is
    rejected with 400 after the fetch alone, and otherwise (the template
    evaluating) the second call is the generator call on the action's
    template followed by that prefix of [body].  When [fetch] rejects, or the
    response is not [ok], or reading the body fails, the reply is 400 with
    the cause as details, and the fetch is the only call made: no generator,
    append or list call. *)
Theorem url_content_fetched (e : env) (req : request) (url : string) :
  content req = Some url ->
  JS.startsWith "http://" url || JS.startsWith "https://" url = true ->
  JS.truthy (NOTION_API_KEY e) = true ->
  JS.truthy (GEMINI_API_KEY e) = true ->
  hd_error (snd (run (Part000A.process_notion_content e req)))
  = Some (Fetch ("https://api.allorigins.win/raw?url="
                 ++ JS.encodeURIComponent url))
  /\
  (forall body tr,
     run (Part000A.fetch_url e url) = (Done body, tr) ->
     (forall p,
        In (Generate p) (snd (run (Part000A.process_notion_content e req))) ->
        Part000A.build_prompt (action req) (Some url)
          (JS.substring0 15000 body) = inl p) /\
     (Part000A.blank (Some body) = false ->
      forall p,
        Part000A.build_prompt (action req) (Some url)
          (JS.substring0 15000 body) = inl p ->
        exists rest,
          snd (run (Part000A.process_notion_content e req))
          = Fetch (Part000A.proxyUrl url) :: Generate p :: rest))
  /\
  (forall fetchError tr,
     run (Part000A.fetch_url e url) = (Throw fetchError, tr) ->
     run (Part000A.process_notion_content e req)
     = (Done (json 400
                [("error", JString ("Could not fetch content from URL: "
                                    ++ url ++ "."));
                 ("details", JString (JS.message fetchError))]),
        [Fetch (Part000A.proxyUrl url)]) /\
     calls is_generate (snd (run (Part000A.process_notion_content e req))) = [] /\
     calls is_append (snd (run (Part000A.process_notion_content e req))) = [] /\
     calls is_list (snd (run (Part000A.process_notion_content e req))) = [])
  /\
  (forall r body,
     fetch e ("https://api.allorigins.win/raw?url=" ++ JS.encodeURIComponent url)
     = inl r ->
     ok r = true ->
     text r = inl body ->
     (forall p,
        In (Generate p) (snd (run (Part000A.process_notion_content e req))) ->
        Part000A.build_prompt (action req) (Some url)
          (JS.substring0 15000 body) = inl p) /\
     (Part000A.blank (Some body) = true ->
      run (Part000A.process_notion_content e req)
      = (Done (json 400
                 [("error", JString "No content provided for AI processing.")]),
         [Fetch ("https://api.allorigins.win/raw?url="
                 ++ JS.encodeURIComponent url)])) /\
     (Part000A.blank (Some body) = false ->
      JS.strict_eq (action req) "rephrase" = false ->
      exists template rest,
        template <> "" /\
        (forall text,
           Part000A.build_prompt (action req) (Some url) text
           = inl (template ++ text)) /\
        snd (run (Part000A.process_notion_content e req))
        = Fetch ("https://api.allorigins.win/raw?url="
                 ++ JS.encodeURIComponent url)
          :: Generate (template ++ JS.substring0 15000 body) :: rest))
  /\
  (forall cause,
     fetch e ("https://api.allorigins.win/raw?url=" ++ JS.encodeURIComponent url)
     = inr cause ->
     run (Part000A.process_notion_content e req)
     = (Done (json 400
                [("error", JString ("Could not fetch content from URL: "
                                    ++ url ++ "."));
                 ("details", JString (JS.message cause))]),
        [Fetch ("https://api.allorigins.win/raw?url="
                ++ JS.encodeURIComponent url)]))
  /\
  (forall r,
     fetch e ("https://api.allorigins.win/raw?url=" ++ JS.encodeURIComponent url)
     = inl r ->
     ok r = false ->
     run (Part000A.process_notion_content e req)
     = (Done (json 400
                [("error", JString ("Could not fetch content from URL: "
                                    ++ url ++ "."));
                 ("details", JString ("HTTP error! status: " ++ http_status r))]),
        [Fetch ("https://api.allorigins.win/raw?url="
                ++ JS.encodeURIComponent url)]))
  /\
  (forall r cause,
     fetch e ("https://api.allorigins.win/raw?url=" ++ JS.encodeURIComponent url)
     = inl r ->
     ok r = true ->
     text r = inr cause ->
     run (Part000A.process_notion_content e req)
     = (Done (json 400
                [("error", JString ("Could not fetch content from URL: "
                                    ++ url ++ "."));
                 ("details", JString (JS.message cause))]),
        [Fetch ("https://api.allorigins.win/raw?url="
                ++ JS.encodeURIComponent url)])).
Proof.
  intros Hc Hscheme Hk1 Hk2.
  pose proof (starts_with_scheme_is_url url Hscheme) as Hurl.
  pose proof (part000A_route_url e req url Hc Hurl Hk1 Hk2) as Hroute.
  pose proof (fetch_url_service e url) as Hservice.
  change 15000 with Part000A.cap.
  assert (Hdone : forall body,
            run (Part000A.fetch_url e url)
            = (Done body, [Fetch (Part000A.proxyUrl url)]) ->
            (forall p,
               In (Generate p) (snd (run (Part000A.process_notion_content e req))) ->
               Part000A.build_prompt (action req) (Some url)
                 (JS.substring0 Part000A.cap body) = inl p) /\
            (Part000A.blank (Some body) = false ->
             forall p,
               Part000A.build_prompt (action req) (Some url)
                 (JS.substring0 Part000A.cap body) = inl p ->
               exists rest,
                 snd (run (Part000A.process_notion_content e req))
                 = Fetch (Part000A.proxyUrl url) :: Generate p :: rest) /\
            (Part000A.blank (Some body) = true ->
             run (Part000A.process_notion_content e req)
             = (Done (json 400
                        [("error", JString "No content provided for AI processing.")]),
                [Fetch (Part000A.proxyUrl url)]))).
  { intros body H. rewrite Hroute, H.
    destruct (part000A_check_trace e req (Some body)
                [Fetch (Part000A.proxyUrl url)])
      as (evs & Hsnd & _ & _ & Hgen & Hhd).
    rewrite Hc in Hgen, Hhd. simpl to_string in Hgen, Hhd.
    rewrite snd_settled, Hsnd. simpl app. split; [|split].
    - intros p [Hin|Hin]; [discriminate | auto].
    - intros Hb p Hp. specialize (Hhd Hb p Hp).
      destruct evs as [|ev rest]; [discriminate|].
      simpl in Hhd. inversion Hhd; subst ev. exists rest. reflexivity.
    - intros Hb. unfold Part000A.check_and_process. rewrite Hb. reflexivity. }
  assert (Hthrow : forall fetchError,
            run (Part000A.fetch_url e url)
            = (Throw fetchError, [Fetch (Part000A.proxyUrl url)]) ->
            run (Part000A.process_notion_content e req)
            = (Done (Part000A.could_not_fetch url fetchError),
               [Fetch (Part000A.proxyUrl url)])).
  { intros fetchError H. now rewrite Hroute, H. }
  assert (Hhead : hd_error (snd (run (Part000A.process_notion_content e req)))
                  = Some (Fetch (Part000A.proxyUrl url))).
  { rewrite Hroute.
    destruct (fetch_url_run e url) as [(body & H)|(err & H)]; rewrite H;
      [|reflexivity].
    destruct (part000A_check_trace e req (Some body)
                [Fetch (Part000A.proxyUrl url)]) as (evs & Hsnd & _).
    now rewrite snd_settled, Hsnd. }
  split; [exact Hhead|].
  split.
  { intros body tr H.
    destruct (fetch_url_run e url) as [(body' & H')|(err & H')];
      rewrite H' in H; inversion H; subst.
    destruct (Hdone body H') as (Hall & Hsent & _). auto. }
  split.
  { intros fetchError tr H.
    destruct (fetch_url_run e url) as [(body' & H')|(err & H')];
      rewrite H' in H; inversion H; subst.
    rewrite (Hthrow fetchError H'). repeat split. }
  split.
  { intros r body Hfetch Hok Htext.
    rewrite Hfetch, Hok, Htext in Hservice.
    destruct (Hdone body Hservice) as (Hall & Hsent & Hblank).
    split; [exact Hall|]. split; [exact Hblank|].
    intros Hb Hr.
    destruct (part000A_template (action req) (Some url) Hr)
      as (template & Hne & Htemplate).
    destruct (Hsent Hb _ (Htemplate _)) as (rest & Hrest).
    exists template, rest. auto. }
  split.
  { intros cause Hfetch. rewrite Hfetch in Hservice. exact (Hthrow _ Hservice). }
  split.
  { intros r Hfetch Hok. rewrite Hfetch, Hok in Hservice.
    exact (Hthrow _ Hservice). }
  intros r cause Hfetch Hok Htext. rewrite Hfetch, Hok, Htext in Hservice.
  exact (Hthrow _ Hservice).
Qed.

Lemma url_content_fetched_witness :
  hd_error
    (snd (run (Part000A.process_notion_content Scenario.healthy
                 (mkRequest (Some "https://a.b/c d") (Some "bogus") None))))
  = Some (Fetch "https://api.allorigins.win/raw?url=https%3A%2F%2Fa.b%2Fc%20d") /\
  (exists template rest,
     template <> "" /\
     (forall text,
        Part000A.build_prompt (Some "bogus") (Some "https://a.b/c d") text
        = inl (template ++ text)) /\
     snd (run (Part000A.process_notion_content Scenario.healthy
                 (mkRequest (Some "https://a.b/c d") (Some "bogus") None)))
     = Fetch "https://api.allorigins.win/raw?url=https%3A%2F%2Fa.b%2Fc%20d"
       :: Generate (template ++ "Fetched page body") :: rest) /\
  run (Part000A.process_notion_content Edge.blank_fetch
         (mkRequest (Some "https://a.b/c d") (Some "bogus") None))
  = (Done (json 400 [("error", JString "No content provided for AI processing.")]),
     [Fetch "https://api.allorigins.win/raw?url=https%3A%2F%2Fa.b%2Fc%20d"]) /\
  run (Part000A.process_notion_content Scenario.fetch_down
         (mkRequest (Some "https://a.b/c d") (Some "bogus") None))
  = (Done (json 400
             [("error", JString "Could not fetch content from URL: https://a.b/c d.");
              ("details", JString "boom")]),
     [Fetch "https://api.allorigins.win/raw?url=https%3A%2F%2Fa.b%2Fc%20d"]) /\
  run (Part000A.process_notion_content
         (Scenario.with_fetch Scenario.healthy
            (fun _ => inl (mkFetch false "404" (inl "Not found"))))
         (mkRequest (Some "https://a.b/c d") (Some "bogus") None))
  = (Done (json 400
             [("error", JString "Could not fetch content from URL: https://a.b/c d.");
              ("details", JString "HTTP error! status: 404")]),
     [Fetch "https://api.allorigins.win/raw?url=https%3A%2F%2Fa.b%2Fc%20d"]) /\
  run (Part000A.process_notion_content
         (Scenario.with_fetch Scenario.healthy
            (fun _ => inl (mkFetch true "200" (inr Scenario.boom))))
         (mkRequest (Some "https://a.b/c d") (Some "bogus") None))
  = (Done (json 400
             [("error", JString "Could not fetch content from URL: https://a.b/c d.");
              ("details", JString "boom")]),
     [Fetch "https://api.allorigins.win/raw?url=https%3A%2F%2Fa.b%2Fc%20d"]).
Proof.
  split; [|split; [|split; [|split; [|split]]]].
  - exact (proj1 (url_content_fetched Scenario.healthy
                    (mkRequest (Some "https://a.b/c d") (Some "bogus") None)
                    "https://a.b/c d" eq_refl eq_refl eq_refl eq_refl)).
  - destruct (url_content_fetched Scenario.healthy
                (mkRequest (Some "https://a.b/c d") (Some "bogus") None)
                "https://a.b/c d" eq_refl eq_refl eq_refl eq_refl)
      as (_ & Hmodel & _ & Hbody & _).
    destruct (Hmodel "Fetched page body"
                [Fetch "https://api.allorigins.win/raw?url=https%3A%2F%2Fa.b%2Fc%20d"]
                eq_refl) as [_ _].
    destruct (Hbody (mkFetch true "200" (inl "Fetched page body"))
                    "Fetched page body" eq_refl eq_refl eq_refl)
      as (_ & _ & Hsent).
    exact (Hsent eq_refl eq_refl).
  - destruct (url_content_fetched Edge.blank_fetch
                (mkRequest (Some "https://a.b/c d") (Some "bogus") None)
                "https://a.b/c d" eq_refl eq_refl eq_refl eq_refl)
      as (_ & _ & _ & Hbody & _).
    exact (proj1 (proj2 (Hbody (mkFetch true "200" (inl "   ")) "   "
                               eq_refl eq_refl eq_refl)) eq_refl).
  - destruct (url_content_fetched Scenario.fetch_down
                (mkRequest (Some "https://a.b/c d") (Some "bogus") None)
                "https://a.b/c d" eq_refl eq_refl eq_refl eq_refl)
      as (_ & _ & Hmodel & _ & Hreject & _).
    destruct (Hmodel Scenario.boom
                [Fetch "https://api.allorigins.win/raw?url=https%3A%2F%2Fa.b%2Fc%20d"]
                eq_refl) as [_ _].
    exact (Hreject Scenario.boom eq_refl).
  - destruct (url_content_fetched
                (Scenario.with_fetch Scenario.healthy
                   (fun _ => inl (mkFetch false "404" (inl "Not found"))))
                (mkRequest (Some "https://a.b/c d") (Some "bogus") None)
                "https://a.b/c d" eq_refl eq_refl eq_refl eq_refl)
      as (_ & _ & _ & _ & _ & Hstatus & _).
    exact (Hstatus (mkFetch false "404" (inl "Not found")) eq_refl eq_refl).
  - destruct (url_content_fetched
                (Scenario.with_fetch Scenario.healthy
                   (fun _ => inl (mkFetch true "200" (inr Scenario.boom))))
                (mkRequest (Some "https://a.b/c d") (Some "bogus") None)
                "https://a.b/c d" eq_refl eq_refl eq_refl eq_refl)
      as (_ & _ & _ & _ & _ & _ & Hread).
    exact (Hread (mkFetch true "200" (inr Scenario.boom)) Scenario.boom
                 eq_refl eq_refl eq_refl).
Defined.

(* ===================================================================== *)
(** ** Action validation *)
(* ===================================================================== *)

(** The route of the second file of part_000 only makes list calls. *)
Lemma part000B_route_lists fuel e req :
  forallb is_list (snd (run (Part000B.process_notion_content fuel e req))) = true.
Proof.
  destruct (JS.truthy (notionPageId req) && JS.truthy (action req)) eqn:Hguard.
  - apply andb_true_iff in Hguard. destruct Hguard as [Hid Hact].
    rewrite (part000B_route_run fuel e req Hid Hact).
    pose proof (part000_fetch_trace fuel e (to_string (notionPageId req))) as Hall.
    destruct (run (Part000B.fetchNotionPageContent fuel e
                     (to_string (notionPageId req)))) as [[text|error|] tr];
      simpl in Hall; try exact Hall.
    destruct (Part000B.blank (Some text)); [exact Hall|].
    destruct (Part000B.build_prompt (action req) text); exact Hall.
  - unfold run, Part000B.process_notion_content.
    destruct (JS.truthy (notionPageId req)); [|reflexivity].
    destruct (JS.truthy (action req)); [discriminate Hguard | reflexivity].
Qed.

Lemma part000B_route_required fuel e req :
  JS.truthy (notionPageId req) && JS.truthy (action req) = false ->
  run (Part000B.process_notion_content fuel e req)
  = (Done (Part000B.Replied Part000B.required), []).
Proof.
  intros Hguard. unfold run, Part000B.process_notion_content.
  destruct (JS.truthy (notionPageId req)); [|reflexivity].
  destruct (JS.truthy (action req)); [discriminate Hguard | reflexivity].
Qed.



(* ===================================================================== *)
(** ** What the generator is sent *)
(* ===================================================================== *)

(** A generator call in a run of the route of [server.js]: its prompt is
    built from the request's content when that is not blank, and otherwise
    from the text the extractor returned for the page, which is not blank. *)
Lemma server_route_source fuel e req p :
  In (Generate p) (snd (run (Server.process_notion_content fuel e req))) ->
  exists c,
    Server.build_prompt (action req) c = Some p /\
    Server.blank (Some c) = false /\
    ((Server.blank (content req) = false /\ content req = Some c) \/
     (Server.blank (content req) = true /\
      fst (run (Server.fetchNotionPageContent fuel e
                  (to_string (notionPageId req)))) = Done c)).
Proof.
  intros Hin.
  destruct (JS.truthy (notionPageId req) && Server.model e && Server.notion e)
    eqn:Hguards.
  2:{ rewrite (server_route_guarded fuel e req Hguards) in Hin. destruct Hin. }
  apply andb_true_iff in Hguards. destruct Hguards as [Hguards Hn].
  apply andb_true_iff in Hguards. destruct Hguards as [Hid Hm].
  destruct (Server.blank (content req)) eqn:Hb.
  - rewrite (server_route_fetched fuel e req Hid Hm Hn Hb) in Hin.
    destruct (server_fetch_trace fuel e (to_string (notionPageId req)) Hn)
      as (evs & Hsnd & Hall & _).
    destruct (run (Server.fetchNotionPageContent fuel e
                     (to_string (notionPageId req))))
      as [[text|error|] tr]; simpl in Hsnd; subst evs;
      try (now apply in_list_calls_only in Hin).
    destruct (Server.blank (Some text)) eqn:Htext;
      [now apply in_list_calls_only in Hin|].
    rewrite snd_settled in Hin.
    destruct (server_process_trace e (to_string (notionPageId req))
                (action req) text tr Hn) as (rest & Hrest & _ & Hgen).
    rewrite Hrest in Hin. apply in_app_or in Hin.
    destruct Hin as [Hin|Hin]; [now apply in_list_calls_only in Hin|].
    exists text. auto.
  - rewrite (server_route_direct fuel e req Hid Hm Hn Hb) in Hin.
    rewrite snd_settled in Hin.
    destruct (server_process_trace e (to_string (notionPageId req))
                (action req) (to_string (content req)) [] Hn)
      as (rest & Hrest & _ & Hgen).
    rewrite Hrest in Hin.
    destruct (server_blank_some _ Hb) as [Hc Hc'].
    exists (to_string (content req)). auto.
Qed.

(** X8. [server.js] never sends the generator a prompt built from blank
    content or for an action outside the five of the switch.  Every prompt
    sent is the action's template followed by the content it was built from;
    that content is the request's [content] when it is not blank and
    otherwise the text the extractor returned for the page; and no content
    that is empty after trimming gives the prompt that was sent. *)
Theorem server_prompt_never_blank
    (fuel : nat) (e : env) (req : request) (p : string) :
  In (Generate p) (snd (run (Server.process_notion_content fuel e req))) ->
  supported server_actions (action req) = true /\
  (forall c, Server.build_prompt (action req) c = Some p -> JS.trim c <> "") /\
  exists template c,
    template <> "" /\
    (forall c', Server.build_prompt (action req) c' = Some (template ++ c')) /\
    p = template ++ c /\
    JS.trim c <> "" /\
    ((Server.blank (content req) = false /\ content req = Some c) \/
     (Server.blank (content req) = true /\
      fst (run (Server.fetchNotionPageContent fuel e
                  (to_string (notionPageId req)))) = Done c)).
Proof.
  intros Hin.
  destruct (server_route_source fuel e req p Hin) as (c & Hp & Hc & Hsource).
  assert (Htrim : JS.trim c <> "").
  { unfold Server.blank in Hc. apply orb_false_iff in Hc. destruct Hc as [_ Hc].
    simpl to_string in Hc. now apply String.eqb_neq in Hc. }
  destruct (supported server_actions (action req)) eqn:Hs.
  2:{ rewrite (server_unsupported _ c Hs) in Hp. discriminate. }
  destruct (server_template (action req) Hs) as (template & Hne & Htemplate).
  assert (Hpc : p = template ++ c).
  { rewrite Htemplate in Hp. now inversion Hp. }
  split; [reflexivity|]. split.
  - intros c' Hp'. rewrite Htemplate in Hp'. inversion Hp' as [Heq].
    rewrite Hpc in Heq. apply append_cancel_l in Heq. now subst c'.
  - exists template, c. auto 7.
Qed.

Lemma server_prompt_never_blank_witness :
  supported server_actions (Some "summarize") = true /\
  (forall c,
     Server.build_prompt (Some "summarize") c
     = Some ("Summarize the following content concisely:" ++ JS.nl ++ JS.nl
             ++ "Hello " ++ JS.nl ++ "world" ++ JS.nl) ->
     JS.trim c <> "").
Proof.
  destruct (server_prompt_never_blank 2 Scenario.healthy
              (mkRequest (Some "  ") (Some "summarize") (Some "P1"))
              ("Summarize the following content concisely:" ++ JS.nl ++ JS.nl
               ++ "Hello " ++ JS.nl ++ "world" ++ JS.nl)
              (or_intror (or_intror (or_introl eq_refl))))
    as (Hs & Hnever & _).
  split; [exact Hs | exact Hnever].
Defined.

(* ===================================================================== *)
(** ** What the first file of part_000 sends and appends *)
(* ===================================================================== *)

Lemma underscore_test (c : ascii) :
  (nat_of_ascii c =? 95)%nat = Ascii.eqb c "_".
Proof. destruct c as [[] [] [] [] [] [] [] []]; reflexivity. Qed.

Lemma replace_underscores_get (s : string) :
  forall i,
    String.get i (JS.replace_underscores s)
    = option_map (fun c => if Ascii.eqb c "_" then " "%char else c)
                 (String.get i s).
Proof.
  induction s as [|c s IH]; intros i; [reflexivity|].
  cbn [JS.replace_underscores]. rewrite underscore_test.
  destruct i as [|i]; [reflexivity|]. simpl. apply IH.
Qed.

(** X16. Whatever the first file of part_000 appends is addressed to the
    request's page id and made of exactly two blocks: a bold paragraph
    labelled with the action, each underscore of which is replaced by a
    space and every other character kept in place, and a [markdown] code
    block that holds exactly what the generator returned. *)
Theorem part000A_appended_blocks
    (e : env) (req : request) (block_id : string) (children : list new_block) :
  In (NotionAppend block_id children)
     (snd (run (Part000A.process_notion_content e req))) ->
  exists a p g label,
    action req = Some a /\
    block_id = to_string (notionPageId req) /\
    In (Generate p) (snd (run (Part000A.process_notion_content e req))) /\
    generateContent e p = inl g /\
    children = [ParagraphBlock ("**AI Output (" ++ label ++ "):**"
                                ++ JS.nl ++ JS.nl) true;
                CodeBlock g "markdown"] /\
    String.length label = String.length a /\
    JS.includes "_" label = false /\
    (forall i,
       String.get i label
       = option_map (fun c => if Ascii.eqb c "_" then " "%char else c)
                    (String.get i a)).
Proof.
  intros Hin.
  assert (Hblocks : forall g ch,
            Part000A.notionBlocks (action req) g = inl ch ->
            exists a label,
              action req = Some a /\
              ch = [ParagraphBlock ("**AI Output (" ++ label ++ "):**"
                                    ++ JS.nl ++ JS.nl) true;
                    CodeBlock g "markdown"] /\
              String.length label = String.length a /\
              JS.includes "_" label = false /\
              (forall i,
                 String.get i label
                 = option_map (fun c => if Ascii.eqb c "_" then " "%char else c)
                              (String.get i a))).
  { intros g ch. unfold Part000A.notionBlocks.
    destruct (action req) as [a|]; [|discriminate].
    intros H. inversion H; subst ch.
    exists a, (JS.replace_underscores a).
    repeat split;
      [apply replace_underscores_length | apply replace_underscores_clean
       | apply replace_underscores_get]. }
  assert (Hnone : forall pre rest,
            (pre = [] \/
             (Part000A.is_url (content req) = true /\
              pre = [Fetch (Part000A.proxyUrl (to_string (content req)))])) ->
            In (NotionAppend block_id children) (pre ++ rest)%list ->
            In (NotionAppend block_id children) rest).
  { intros pre rest [-> | (_ & ->)] H; [exact H|].
    destruct H as [H | H]; [discriminate H | exact H]. }
  part000A_cases e req;
    try rewrite Hr in *; try rewrite Hsnd in *; cbn [fst snd] in *.
  - rewrite <- (app_nil_r pre) in Hin. apply Hnone in Hin; [destruct Hin | exact Hpre].
  - apply Hnone in Hin; [|exact Hpre]. destruct Hin as [H | []]. discriminate H.
  - apply Hnone in Hin; [|exact Hpre]. destruct Hin as [H | []]. discriminate H.
  - apply Hnone in Hin; [|exact Hpre]. destruct Hin as [H | []]. discriminate H.
  - apply Hnone in Hin; [|exact Hpre].
    destruct Hin as [H | [H | []]]; [discriminate H|]. inversion H; subst.
    destruct (Hblocks g children Hc)
      as (a & label & Ha' & Hch & Hlen & Hclean & Hget).
    exists a, p, g, label. repeat split; auto.
    apply in_or_app. right. left. reflexivity.
  - apply Hnone in Hin; [|exact Hpre].
    destruct Hin as [H | [H | []]]; [discriminate H|]. inversion H; subst.
    destruct (Hblocks g children Hc)
      as (a & label & Ha' & Hch & Hlen & Hclean & Hget).
    exists a, p, g, label. repeat split; auto.
    apply in_or_app. right. left. reflexivity.
Qed.

Lemma part000A_appended_blocks_witness :
  exists a p g label,
    Some "action_items" = Some a /\
    "P1" = "P1" /\
    In (Generate p)
       (snd (run (Part000A.process_notion_content Scenario.healthy
                    (mkRequest (Some "x") (Some "action_items") (Some "P1"))))) /\
    generateContent Scenario.healthy p = inl g /\
    [ParagraphBlock ("**AI Output (action items):**" ++ JS.nl ++ JS.nl) true;
     CodeBlock "Summary." "markdown"]
    = [ParagraphBlock ("**AI Output (" ++ label ++ "):**" ++ JS.nl ++ JS.nl) true;
       CodeBlock g "markdown"] /\
    String.length label = String.length a /\
    JS.includes "_" label = false /\
    (forall i,
       String.get i label
       = option_map (fun c => if Ascii.eqb c "_" then " "%char else c)
                    (String.get i a)).
Proof.
  refine (part000A_appended_blocks Scenario.healthy
            (mkRequest (Some "x") (Some "action_items") (Some "P1"))
            "P1"
            [ParagraphBlock ("**AI Output (action items):**" ++ JS.nl ++ JS.nl) true;
             CodeBlock "Summary." "markdown"] _).
  right. left. reflexivity.
Defined.




(* ===================================================================== *)
(** ** The outcomes of the route of the second file of part_000 *)
(* ===================================================================== *)

(** X20. The route of the second file of part_000 reads the page and never
    the request's content, and calls neither the generator nor the append;
    no exception escapes it.  Without a page id or without an action it
    replies 400 before any call, and every reply it sends is 400 or 500.  It
    ends without a reply exactly when page id and action are given, the
    extractor returns a text that is not blank, and the action is one of its
    three: the run then ends on the extractor's calls with the prompt built
    from that text. *)
Theorem part000B_route_outcomes (fuel : nat) (e : env) (req : request) :
  forallb is_list (snd (run (Part000B.process_notion_content fuel e req))) = true /\
  (forall error,
     fst (run (Part000B.process_notion_content fuel e req)) <> Throw error) /\
  (JS.truthy (notionPageId req) && JS.truthy (action req) = false ->
   run (Part000B.process_notion_content fuel e req)
   = (Done (Part000B.Replied
              (json 400 [("success", JBool false);
                         ("message", JString
                            "Notion Page ID and action are required.")])),
      [])) /\
  (forall reply,
     fst (run (Part000B.process_notion_content fuel e req))
     = Done (Part000B.Replied reply) ->
     status reply = 400 \/ status reply = 500) /\
  (forall prompt,
     fst (run (Part000B.process_notion_content fuel e req))
     = Done (Part000B.Unanswered prompt) ->
     supported part000B_actions (action req) = true /\
     JS.truthy (notionPageId req) = true /\
     JS.truthy (action req) = true /\
     exists text,
       fst (run (Part000B.fetchNotionPageContent fuel e
                   (to_string (notionPageId req)))) = Done text /\
       JS.trim text <> "" /\
       Part000B.build_prompt (action req) text = Some prompt) /\
  (JS.truthy (notionPageId req) = true ->
   JS.truthy (action req) = true ->
   forall text tr,
     run (Part000B.fetchNotionPageContent fuel e (to_string (notionPageId req)))
     = (Done text, tr) ->
     (Part000B.blank (Some text) = true ->
      run (Part000B.process_notion_content fuel e req)
      = (Done (Part000B.Replied
                 (json 400 [("success", JBool false);
                            ("message", JString
                               "No textual content found in the Notion page to process.")])),
         tr)) /\
     (Part000B.blank (Some text) = false ->
      supported part000B_actions (action req) = true ->
      exists template,
        template <> "" /\
        Part000B.build_prompt (action req) text = Some (template ++ text) /\
        run (Part000B.process_notion_content fuel e req)
        = (Done (Part000B.Unanswered (template ++ text)), tr)) /\
     (Part000B.blank (Some text) = false ->
      supported part000B_actions (action req) = false ->
      run (Part000B.process_notion_content fuel e req)
      = (Done (Part000B.Replied
                 (json 400 [("success", JBool false);
                            ("message", JString "Invalid action specified.")])),
         tr))).
Proof.
  split; [apply part000B_route_lists|].
  assert (Hnew :
            JS.truthy (notionPageId req) = true ->
            JS.truthy (action req) = true ->
            forall text tr,
              run (Part000B.fetchNotionPageContent fuel e
                     (to_string (notionPageId req))) = (Done text, tr) ->
              (Part000B.blank (Some text) = true ->
               run (Part000B.process_notion_content fuel e req)
               = (Done (Part000B.Replied Part000B.no_textual_content), tr)) /\
              (Part000B.blank (Some text) = false ->
               supported part000B_actions (action req) = true ->
               exists template,
                 template <> "" /\
                 Part000B.build_prompt (action req) text = Some (template ++ text) /\
                 run (Part000B.process_notion_content fuel e req)
                 = (Done (Part000B.Unanswered (template ++ text)), tr)) /\
              (Part000B.blank (Some text) = false ->
               supported part000B_actions (action req) = false ->
               run (Part000B.process_notion_content fuel e req)
               = (Done (Part000B.Replied Part000B.invalid_action), tr))).
  { intros Hid Hact text tr Hfetch.
    rewrite (part000B_route_run fuel e req Hid Hact), Hfetch.
    pose proof (part000B_prompt (action req) text) as Hprompt.
    split; [intros ->; reflexivity|]. split.
    - intros -> Hs. rewrite Hs in Hprompt.
      destruct Hprompt as (template & Hne & Hbuilt).
      exists template. rewrite Hbuilt. auto.
    - intros -> Hs. rewrite Hs in Hprompt. now rewrite Hprompt. }
  assert (Hold :
            (forall error,
               fst (run (Part000B.process_notion_content fuel e req)) <> Throw error) /\
            (JS.truthy (notionPageId req) && JS.truthy (action req) = false ->
             run (Part000B.process_notion_content fuel e req)
             = (Done (Part000B.Replied Part000B.required), [])) /\
            (forall reply,
               fst (run (Part000B.process_notion_content fuel e req))
               = Done (Part000B.Replied reply) ->
               status reply = 400 \/ status reply = 500) /\
            (forall prompt,
               fst (run (Part000B.process_notion_content fuel e req))
               = Done (Part000B.Unanswered prompt) ->
               supported part000B_actions (action req) = true /\
               JS.truthy (notionPageId req) = true /\
               JS.truthy (action req) = true /\
               exists text,
                 fst (run (Part000B.fetchNotionPageContent fuel e
                             (to_string (notionPageId req)))) = Done text /\
                 JS.trim text <> "" /\
                 Part000B.build_prompt (action req) text = Some prompt)).
  { clear Hnew.
    destruct (JS.truthy (notionPageId req) && JS.truthy (action req)) eqn:Hguard.
    - apply andb_true_iff in Hguard. destruct Hguard as [Hid Hact].
      rewrite (part000B_route_run fuel e req Hid Hact).
      destruct (run (Part000B.fetchNotionPageContent fuel e
                       (to_string (notionPageId req)))) as [[text|error|] tr].
      + destruct (Part000B.blank (Some text)) eqn:Hb.
        * split; [discriminate|]. split; [discriminate|]. split; [|discriminate].
          intros reply H. inversion H; subst. auto.
        * pose proof (part000B_prompt (action req) text) as Hprompt.
          destruct (Part000B.build_prompt (action req) text) as [prompt|] eqn:Hp.
          -- split; [discriminate|]. split; [discriminate|].
             split; [discriminate|].
             intros prompt' H. inversion H; subst prompt'.
             split.
             ++ destruct (supported part000B_actions (action req));
                  [reflexivity | discriminate Hprompt].
             ++ split; [exact Hid|]. split; [exact Hact|].
                exists text. repeat split; auto.
                unfold Part000B.blank in Hb. apply orb_false_iff in Hb.
                destruct Hb as [_ Hb]. simpl to_string in Hb.
                now apply String.eqb_neq in Hb.
          -- split; [discriminate|]. split; [discriminate|].
             split; [|discriminate].
             intros reply H. inversion H; subst. auto.
      + split; [discriminate|]. split; [discriminate|]. split; [|discriminate].
        intros reply H. inversion H; subst. auto.
      + split; [discriminate|]. split; [discriminate|].
        split; discriminate.
    - rewrite (part000B_route_required fuel e req Hguard).
      split; [discriminate|]. split; [reflexivity|]. split; [|discriminate].
      intros reply H. inversion H; subst. auto. }
  destruct Hold as (H2 & H3 & H4 & H5).
  split; [exact H2|]. split; [exact H3|]. split; [exact H4|].
  split; [exact H5 | exact Hnew].
Qed.

Lemma part000B_route_outcomes_witness :
  run (Part000B.process_notion_content 2 Scenario.healthy
         (mkRequest (Some "x") None (Some "P1")))
  = (Done (Part000B.Replied
             (json 400 [("success", JBool false);
                        ("message", JString
                           "Notion Page ID and action are required.")])),
     []) /\
  (status Part000B.invalid_action = 400 \/ status Part000B.invalid_action = 500) /\
  (exists template,
     template <> "" /\
     Part000B.build_prompt (Some "summarize")
       ("Hello " ++ JS.nl ++ "world" ++ JS.nl)
     = Some (template ++ "Hello " ++ JS.nl ++ "world" ++ JS.nl) /\
     run (Part000B.process_notion_content 2 Scenario.healthy
            (mkRequest None (Some "summarize") (Some "P1")))
     = (Done (Part000B.Unanswered
                (template ++ "Hello " ++ JS.nl ++ "world" ++ JS.nl)),
        [NotionList "P1" None 100; NotionList "P1" (Some "c1") 100])) /\
  run (Part000B.process_notion_content 1 Scenario.healthy
         (mkRequest None (Some "summarize") (Some "E")))
  = (Done (Part000B.Replied
             (json 400 [("success", JBool false);
                        ("message", JString
                           "No textual content found in the Notion page to process.")])),
     [NotionList "E" None 100]) /\
  (supported part000B_actions (Some "summarize") = true /\
   JS.truthy (Some "P1") = true /\
   JS.truthy (Some "summarize") = true /\
   exists text,
     fst (run (Part000B.fetchNotionPageContent 2 Scenario.healthy "P1"))
     = Done text /\
     JS.trim text <> "" /\
     Part000B.build_prompt (Some "summarize") text
     = Some ("Summarize the following text:" ++ JS.nl ++ JS.nl
             ++ "Hello " ++ JS.nl ++ "world" ++ JS.nl)).
Proof.
  split; [|split; [|split; [|split]]].
  - exact (proj1 (proj2 (proj2
             (part000B_route_outcomes 2 Scenario.healthy
                (mkRequest (Some "x") None (Some "P1"))))) eq_refl).
  - exact (proj1 (proj2 (proj2 (proj2
             (part000B_route_outcomes 2 Scenario.healthy
                (mkRequest None (Some "bogus") (Some "P1"))))))
             Part000B.invalid_action eq_refl).
  - destruct (part000B_route_outcomes 2 Scenario.healthy
                (mkRequest None (Some "summarize") (Some "P1")))
      as (_ & _ & _ & _ & _ & Hrun).
    destruct (Hrun eq_refl eq_refl
                   ("Hello " ++ JS.nl ++ "world" ++ JS.nl)
                   [NotionList "P1" None 100; NotionList "P1" (Some "c1") 100]
                   eq_refl) as (_ & Hprompt & _).
    exact (Hprompt eq_refl eq_refl).
  - destruct (part000B_route_outcomes 1 Scenario.healthy
                (mkRequest None (Some "summarize") (Some "E")))
      as (_ & _ & _ & _ & _ & Hrun).
    destruct (Hrun eq_refl eq_refl "" [NotionList "E" None 100] eq_refl)
      as (Hblank & _).
    exact (Hblank eq_refl).
  - destruct (part000B_route_outcomes 2 Scenario.healthy
                (mkRequest None (Some "summarize") (Some "P1")))
      as (_ & _ & _ & _ & Hprompt & _).
    exact (Hprompt _ eq_refl).
Defined.

(* ===================================================================== *)
(** ** Which requests the first file of part_000 answers *)
(* ===================================================================== *)


